(** * Police inventory system: equipment custody and request workflow

    A shallow embedding of the Mongoose models [Equipment] and [Request]
    (backend/models) and of the Express routes that drive them
    (backend/routes: equipment, officer), followed by the properties of
    the equipment life cycle, the request state machine, the request
    identifier generator and the pool request route.

    Conventions of the embedding:
    - an [ObjectId] is a natural number, a [Date] is a number of
      milliseconds since the epoch (what [Date.now()] returns);
    - JavaScript numbers that the code only stores (costs) or that stay
      far below 2^53 (sequence numbers, day counts) are integers;
    - a thrown exception or a rejected promise is the left injection of
      a sum, the value of a fulfilled promise the right one;
    - a string is the UTF-8 encoding of the JavaScript string: [JS.length]
      counts its UTF-16 code units, as [s.length] and [maxlength] do,
      [JS.characters] what [isLength] of validator.js compares, and
      [JS.trim] strips the white space of ECMAScript, not only that of
      ASCII;
    - the clock, the calendar date, [Math.random] and the availability of
      the database are read from an explicit environment: [now] is what
      the clock shows when a call first reads it, [reading env k] what it
      shows at the later readings that a method of [Equipment] makes; the
      code of [Request] is described for a clock that shows [now] at each
      of the readings of one call;
    - a collection addressed by [_id] only is a [gmap]; a collection that
      is scanned and sorted is a list in insertion order;
    - a save of a loaded document changes the stored document by the
      paths that were assigned ([$set], [$push]) and fails when no stored
      document has the [_id]; a save of a new document inserts it;
    - an equipment document has the paths that its schema declares and
      the stamps [createdAt] and [updatedAt] that the option [timestamps]
      maintains; a request document has the paths that its schema
      declares, without the two stamps; the version key is not
      represented. *)

From Stdlib Require Import ZArith NArith List String Ascii Bool Lia.
From Stdlib Require Import DecimalString DecimalZ DecimalPos.
From stdpp Require Import base option gmap.
Import ListNotations.

Open Scope Z_scope.

Abbreviation ObjectId := N.
Abbreviation Date := Z.

(** ** Exceptions and HTTP responses *)

(** What a model method can throw or a promise can reject with. *)
Inductive Exn : Type :=
| Error (message : string)          (* throw new Error(message) *)
| ValidationError (path : string)   (* Mongoose validation failed, first at path *)
| MongoServerError (code : N)       (* 11000 is the duplicate key error *)
| DocumentNotFoundError.            (* save() of a document that is not stored;
                                       a VersionError when the save pushes *)

(** [res.status(code).json({ success, message, ... })] *)
Record Response : Type := mkResponse {
  statusCode : N;
  success : bool;
  message : string
}.

Definition ok (code : N) (msg : string) : Response := mkResponse code true msg.
Definition failure (code : N) (msg : string) : Response := mkResponse code false msg.

(** [error.message] of a caught exception. For the errors that Mongoose
    and the driver raise, the text is theirs; the embedding keeps the
    failing path and no property below depends on the wording. *)
Definition exnMessage (e : Exn) : string :=
  match e with
  | Error m => m
  | ValidationError p => ("Validation failed: " ++ p)%string
  | MongoServerError _ => "E11000 duplicate key error"%string
  | DocumentNotFoundError => "No document found for query"%string
  end.

(** [x || d] on a value that is either undefined or truthy. *)
Definition orElse {A : Type} (x : option A) (d : A) : A :=
  match x with Some v => v | None => d end.

(** The spread [...(x !== undefined && { field: x })] of an update object:
    the field is overwritten exactly when [x] is defined. *)
Definition assign {A : Type} (x : option A) (old : A) : A :=
  match x with Some v => v | None => old end.

(** ** The fragment of JavaScript strings and numbers the code relies on *)
Module JS.

Fixpoint repeat (c : ascii) (n : nat) : string :=
  match n with
  | O => EmptyString
  | S k => String c (repeat c k)
  end.

(** The UTF-16 code units of the character whose UTF-8 encoding starts
    with the byte [c]: one for a character of one, two or three bytes,
    two (a surrogate pair) for a character of four bytes, none for a
    continuation byte. *)
Definition codeUnits (c : ascii) : nat :=
  let n := N_of_ascii c in
  if (n <? 128)%N then 1%nat
  else if (n <? 192)%N then 0%nat
  else if (n <? 240)%N then 1%nat
  else 2%nat.

(** [s.length] *)
Fixpoint length (s : string) : nat :=
  match s with
  | EmptyString => 0%nat
  | String c rest => (codeUnits c + length rest)%nat
  end.

Definition isContinuation (c : ascii) : bool :=
  let n := N_of_ascii c in ((128 <=? n) && (n <? 192))%N.

(** A variation selector U+FE0E or U+FE0F starts here. *)
Definition startsSelector (s : string) : bool :=
  match s with
  | String c1 (String c2 (String c3 _)) =>
      ((N_of_ascii c1 =? 239) && (N_of_ascii c2 =? 184)
       && ((N_of_ascii c3 =? 142) || (N_of_ascii c3 =? 143)))%N
  | _ => false
  end.

(** What [isLength] of validator.js compares with its bounds:
    [str.length] minus the number of surrogate pairs and minus the
    number of variation selectors, that is one for every character
    other than a variation selector. *)
Fixpoint characters (s : string) : nat :=
  match s with
  | EmptyString => 0%nat
  | String c rest =>
      ((if isContinuation c || startsSelector s then 0 else 1)
       + characters rest)%nat
  end.

(** [isLength(s, { min, max })] of validator.js. *)
Definition isLength (min : nat) (max : option nat) (s : string) : bool :=
  (min <=? characters s)%nat
  && match max with
     | Some m => (characters s <=? m)%nat
     | None => true
     end.

(** [s.padStart(targetLength, c)] for a one-character filler. *)
Definition padStart (targetLength : nat) (c : ascii) (s : string) : string :=
  (repeat c (targetLength - length s) ++ s)%string.

(** [String(z)] on an integer. *)
Definition toString (z : Z) : string := NilEmpty.string_of_int (Z.to_int z).

(** [s.split(sep)] for a one-character separator. *)
Fixpoint split (sep : ascii) (s : string) : list string :=
  match s with
  | EmptyString => [EmptyString]
  | String c rest =>
      if Ascii.eqb c sep then EmptyString :: split sep rest
      else match split sep rest with
           | h :: t => String c h :: t
           | [] => [String c EmptyString]
           end
  end.

(** The white space of ECMAScript (WhiteSpace and LineTerminator, which
    is also [\s] of a regular expression), by the length of its
    encoding. One byte: TAB, LF, VT, FF, CR and the space. *)
Definition isWhiteSpace (c : ascii) : bool :=
  let n := N_of_ascii c in
  ((n =? 32) || ((9 <=? n) && (n <=? 13)))%N.

(** Two bytes: the no-break space U+00A0. *)
Definition isWhiteSpace2 (c1 c2 : ascii) : bool :=
  ((N_of_ascii c1 =? 194) && (N_of_ascii c2 =? 160))%N.

(** Three bytes: U+1680, U+2000 to U+200A, U+2028, U+2029, U+202F,
    U+205F, U+3000 and the byte order mark U+FEFF. *)
Definition isWhiteSpace3 (c1 c2 c3 : ascii) : bool :=
  let a := N_of_ascii c1 in
  let b := N_of_ascii c2 in
  let c := N_of_ascii c3 in
  ((a =? 225) && (b =? 154) && (c =? 128)
   || (a =? 226) && (b =? 128)
      && ((128 <=? c) && (c <=? 138) || (c =? 168) || (c =? 169) || (c =? 175))
   || (a =? 226) && (b =? 129) && (c =? 159)
   || (a =? 227) && (b =? 128) && (c =? 128)
   || (a =? 239) && (b =? 187) && (c =? 191))%N.

(** [s.trimStart()] *)
Fixpoint trimStart (s : string) : string :=
  match s with
  | EmptyString => EmptyString
  | String c1 r1 =>
      if isWhiteSpace c1 then trimStart r1
      else
        match r1 with
        | EmptyString => s
        | String c2 r2 =>
            if isWhiteSpace2 c1 c2 then trimStart r2
            else
              match r2 with
              | EmptyString => s
              | String c3 r3 =>
                  if isWhiteSpace3 c1 c2 c3 then trimStart r3 else s
              end
        end
  end.

(** The string is one white space character. *)
Definition isWhiteSpaceChar (s : string) : bool :=
  match s with
  | String c1 EmptyString => isWhiteSpace c1
  | String c1 (String c2 EmptyString) => isWhiteSpace2 c1 c2
  | String c1 (String c2 (String c3 EmptyString)) => isWhiteSpace3 c1 c2 c3
  | _ => false
  end.

(** [s.trimEnd()]: from the right, what is left of the rest is kept
    unless it is nothing but one white space character. *)
Fixpoint trimEnd (s : string) : string :=
  match s with
  | EmptyString => EmptyString
  | String c rest =>
      let t := String c (trimEnd rest) in
      if isWhiteSpaceChar t then EmptyString else t
  end.

(** [s.trim()], also the sanitizer [trim()] of validator.js and the
    setter [trim: true] of a schema. *)
Definition trim (s : string) : string := trimEnd (trimStart s).

(** The value of a digit in the given radix, if it is one. *)
Definition digitValue (radix : N) (c : ascii) : option N :=
  let n := N_of_ascii c in
  let v := (if (48 <=? n) && (n <=? 57) then Some (n - 48)
            else if (97 <=? n) && (n <=? 122) then Some (n - 87)
            else if (65 <=? n) && (n <=? 90) then Some (n - 55)
            else None)%N in
  match v with
  | Some d => if (d <? radix)%N then Some d else None
  | None => None
  end.

(** The longest prefix of digits, read as a number; [acc] is [None]
    until a first digit has been read. *)
Fixpoint parseDigits (radix : N) (s : string) (acc : option N) : option N :=
  match s with
  | EmptyString => acc
  | String c rest =>
      match digitValue radix c with
      | Some d => parseDigits radix rest (Some (radix * orElse acc 0 + d)%N)
      | None => acc
      end
  end.

(** [parseInt(s)] without a radix argument; [None] is NaN. *)
Definition parseInt (s : string) : option Z :=
  let s1 := trimStart s in
  let '(negative, s2) :=
    match s1 with
    | String "-" rest => (true, rest)
    | String "+" rest => (false, rest)
    | _ => (false, s1)
    end in
  let '(radix, s3) :=
    match s2 with
    | String "0" (String "x" rest) => (16%N, rest)
    | String "0" (String "X" rest) => (16%N, rest)
    | _ => (10%N, s2)
    end in
  match parseDigits radix s3 None with
  | Some n => Some (if negative : bool then - Z.of_N n else Z.of_N n)
  | None => None
  end.

(** [parseInt(x)] where [x] may be undefined: ["undefined"] has no digit. *)
Definition parseIntOpt (x : option string) : option Z :=
  match x with Some s => parseInt s | None => None end.

(** Truthiness of a string that may be undefined. *)
Definition truthy (x : option string) : bool :=
  match x with
  | Some s => negb (String.eqb s EmptyString)
  | None => false
  end.

(** [Math.ceil(a / b)] for a positive divisor, on integers. *)
Definition ceilDiv (a b : Z) : Z := - ((- a) / b).

(** The characters 0 to 9, and the strings made of them. *)
Definition isDigit (c : ascii) : bool :=
  ((48 <=? N_of_ascii c) && (N_of_ascii c <=? 57))%N.

Fixpoint allDigits (s : string) : bool :=
  match s with
  | EmptyString => true
  | String c rest => isDigit c && allDigits rest
  end.

(** A string of exactly [k] digits that reads as the number [n]. *)
Definition digitsOf (k : nat) (n : Z) (s : string) : bool :=
  (String.length s =? k)%nat && allDigits s
  && match parseInt s with Some m => (m =? n)%Z | None => false end.

End JS.


(** ** models/Equipment.js: the schema *)
Module equipmentSchema.

Inductive Category : Type :=
| Weapons | Communication | ProtectiveGear | Vehicles | Surveillance
| ForensicEquipment | MedicalSupplies | OfficeEquipment | Other.

Inductive Condition : Type :=
| Excellent | Good | Fair | Poor | OutOfService.

Inductive Status : Type :=
| Available | Issued | UnderMaintenance | Retired.

Definition Status_eqb (a b : Status) : bool :=
  match a, b with
  | Available, Available | Issued, Issued
  | UnderMaintenance, UnderMaintenance | Retired, Retired => true
  | _, _ => false
  end.

Definition Category_eqb (a b : Category) : bool :=
  match a, b with
  | Weapons, Weapons | Communication, Communication
  | ProtectiveGear, ProtectiveGear | Vehicles, Vehicles
  | Surveillance, Surveillance | ForensicEquipment, ForensicEquipment
  | MedicalSupplies, MedicalSupplies | OfficeEquipment, OfficeEquipment
  | Other, Other => true
  | _, _ => false
  end.

(** The nested path [issuedTo]; the methods write its three leaves
    together and clear them together. *)
Record IssuedTo : Type := mkIssuedTo {
  userId : ObjectId;
  issuedDate : Date;
  expectedReturnDate : Date
}.

Record Maintenance : Type := mkMaintenance {
  date : Date;
  description : string;
  maintenanceCost : option Z;
  performedBy : string
}.

Record Image : Type := mkImage {
  url : option string;
  caption : option string
}.

Record WarrantyInfo : Type := mkWarrantyInfo {
  warrantyPeriod : option string;
  warrantyExpiry : option Date;
  warrantyProvider : option string
}.

(** A document of the collection, with the paths the schema declares
    and the two stamps of the option [timestamps], which are undefined
    until the first save. *)
Record t : Type := mk {
  _id : ObjectId;
  name : string;
  category : Category;
  model : string;
  serialNumber : string;
  manufacturer : string;
  purchaseDate : Date;
  cost : Z;
  condition : Condition;
  status : Status;
  location : string;
  issuedTo : option IssuedTo;
  maintenanceHistory : list Maintenance;
  specifications : list (string * string);
  images : list Image;
  notes : option string;
  warrantyInfo : WarrantyInfo;
  addedBy : ObjectId;
  lastModifiedBy : option ObjectId;
  createdAt : option Date;
  updatedAt : option Date
}.

End equipmentSchema.

(** ** models/Request.js: the schema *)
Module requestSchema.

Inductive RequestType : Type := Issue | Return | Maintenance.

Inductive Status : Type :=
| Pending | Approved | Rejected | Completed | Cancelled.

Inductive Priority : Type := Low | Medium | High | Urgent.

Definition Status_eqb (a b : Status) : bool :=
  match a, b with
  | Pending, Pending | Approved, Approved | Rejected, Rejected
  | Completed, Completed | Cancelled, Cancelled => true
  | _, _ => false
  end.

Definition RequestType_eqb (a b : RequestType) : bool :=
  match a, b with
  | Issue, Issue | Return, Return | Maintenance, Maintenance => true
  | _, _ => false
  end.

Record Attachment : Type := mkAttachment {
  filename : option string;
  url : option string;
  uploadDate : Date
}.

(** An element of [statusHistory]. *)
Module Entry.
Record t : Type := mk {
  status : Status;
  changedBy : ObjectId;
  changedDate : Date;
  notes : option string
}.
End Entry.

Record t : Type := mk {
  _id : ObjectId;
  requestId : option string;
  requestedBy : ObjectId;
  equipmentId : option ObjectId;
  requestType : RequestType;
  status : Status;
  priority : Priority;
  requestedDate : Date;
  expectedReturnDate : option Date;
  reason : string;
  adminNotes : option string;
  processedBy : option ObjectId;
  processedDate : option Date;
  approvedDate : option Date;
  completedDate : option Date;
  attachments : list Attachment;
  statusHistory : list Entry.t
}.

End requestSchema.

(** ** The equipment pool (models/EquipmentPool.js) *)
Module EquipmentPool.

Record t : Type := mk {
  _id : ObjectId;
  poolName : string;
  category : equipmentSchema.Category;
  model : string;
  totalQuantity : Z;
  availableCount : Z;
  issuedCount : Z;
  authorizedDesignations : list string
}.

(** Whether an equipment document belongs to the pool. *)
Definition matches (p : t) (e : equipmentSchema.t) : bool :=
  equipmentSchema.Category_eqb (equipmentSchema.category e) (category p)
  && String.eqb (equipmentSchema.model e) (model p).

(** Modelled from the spec: [updateCounts] of models/EquipmentPool.js,
    which is not among the sources. The number of issued items is the
    count of the equipment of the pool's model and category whose
    status is Issued, and the number of available items is the total
    quantity minus that count. *)
Definition updateCounts (population : gmap N equipmentSchema.t) (p : t) : t :=
  let issued :=
    Z.of_nat (List.length
      (List.filter
         (fun e => matches p e
                   && equipmentSchema.Status_eqb (equipmentSchema.status e)
                        equipmentSchema.Issued)
         (List.map snd (map_to_list population)))) in
  {| _id := _id p; poolName := poolName p; category := category p;
     model := model p; totalQuantity := totalQuantity p;
     availableCount := totalQuantity p - issued;
     issuedCount := issued;
     authorizedDesignations := authorizedDesignations p |}.

End EquipmentPool.

(** ** The database and the environment of a call *)

Record DB : Type := mkDB {
  equipment : gmap N equipmentSchema.t;
  equipmentpools : gmap N EquipmentPool.t;
  requests : list requestSchema.t
}.

Record Env : Type := mkEnv {
  now : Date;               (* Date.now() or new Date(), at the first reading *)
  reading : nat -> Date;    (* the clock at the k-th reading after the first *)
  fullYear : Z;             (* new Date().getFullYear() *)
  month : Z;                (* new Date().getMonth(), from 0 *)
  dayOfMonth : Z;           (* new Date().getDate() *)
  random : string;          (* Math.random().toString(36).substr(2, 9) *)
  findOneFails : bool;      (* the query of the identifier hook rejects *)
  freshId : ObjectId        (* the _id given to a document by new *)
}.

Definition withEquipment (db : DB) (c : gmap N equipmentSchema.t) : DB :=
  {| equipment := c; equipmentpools := equipmentpools db; requests := requests db |}.

Definition withRequests (db : DB) (rs : list requestSchema.t) : DB :=
  {| equipment := equipment db; equipmentpools := equipmentpools db; requests := rs |}.

(** ** models/Equipment.js: virtuals and methods *)
Module Equipment.

Export equipmentSchema.

(** The two assignments [this.status = s; this.issuedTo = c]. *)
Definition setCustody (s : Status) (c : option IssuedTo) (e : t) : t :=
  {| _id := _id e; name := name e; category := category e; model := model e;
     serialNumber := serialNumber e; manufacturer := manufacturer e;
     purchaseDate := purchaseDate e; cost := cost e; condition := condition e;
     status := s;
     location := location e;
     issuedTo := c;
     maintenanceHistory := maintenanceHistory e;
     specifications := specifications e; images := images e; notes := notes e;
     warrantyInfo := warrantyInfo e; addedBy := addedBy e;
     lastModifiedBy := lastModifiedBy e;
     createdAt := createdAt e; updatedAt := updatedAt e |}.

(** The stamp that the option [timestamps] writes at a save. *)
Definition setUpdatedAt (stamp : Date) (e : t) : t :=
  {| _id := _id e; name := name e; category := category e; model := model e;
     serialNumber := serialNumber e; manufacturer := manufacturer e;
     purchaseDate := purchaseDate e; cost := cost e; condition := condition e;
     status := status e;
     location := location e;
     issuedTo := issuedTo e;
     maintenanceHistory := maintenanceHistory e;
     specifications := specifications e; images := images e; notes := notes e;
     warrantyInfo := warrantyInfo e; addedBy := addedBy e;
     lastModifiedBy := lastModifiedBy e;
     createdAt := createdAt e; updatedAt := Some stamp |}.

Definition msPerDay : Z := 1000 * 60 * 60 * 24.

(** The virtual [age], evaluated when the clock shows [today]. *)
Definition age (today : Date) (e : t) : Z :=
  let diffTime := Z.abs (today - purchaseDate e) in
  let diffDays := JS.ceilDiv diffTime msPerDay in
  diffDays / 365.

(** *** Validation against the schema *)

(** The first entry of the maintenance history that fails its schema
    ([description] and [performedBy] required, [cost] with [min: 0]),
    as the path of the failure; [k] is the index of the head. *)
Fixpoint validateHistory (k : Z) (h : list Maintenance) : option string :=
  match h with
  | [] => None
  | m :: rest =>
      let at_ (leaf : string) : option string :=
        Some ("maintenanceHistory." ++ JS.toString k ++ "." ++ leaf)%string in
      if String.eqb (description m) "" then at_ "description"%string
      else if match maintenanceCost m with Some c => c <? 0 | None => false end
      then at_ "cost"%string
      else if String.eqb (performedBy m) "" then at_ "performedBy"%string
      else validateHistory (k + 1) rest
  end.

(** Validation of a document: the first path, in the order of the
    schema, that fails, if any. [required] refuses the empty string,
    [maxlength] compares [length]; the enumerations and the required
    dates and identifiers hold by typing. A save validates every path
    of a loaded document, not only those that were assigned. *)
Definition validate (e : t) : option string :=
  if String.eqb (name e) "" || (100 <? JS.length (name e))%nat
  then Some "name"%string
  else if String.eqb (model e) "" then Some "model"%string
  else if String.eqb (serialNumber e) "" then Some "serialNumber"%string
  else if String.eqb (manufacturer e) "" then Some "manufacturer"%string
  else if cost e <? 0 then Some "cost"%string
  else if String.eqb (location e) "" then Some "location"%string
  else match validateHistory 0 (maintenanceHistory e) with
       | Some path => Some path
       | None =>
           if (500 <? JS.length (orElse (notes e) ""%string))%nat
           then Some "notes"%string
           else None
       end.

(** *** Saving a loaded document *)

(** What [save()] sends once [status] and [issuedTo] have been assigned
    on a loaded document: [$set] (or [$unset]) of these two paths and
    [$set] of [updatedAt]; the other paths of the stored document stay
    as they are stored. *)
Definition writeCustody (stamp : Date) (this stored : t) : t :=
  {| _id := _id stored; name := name stored; category := category stored;
     model := model stored; serialNumber := serialNumber stored;
     manufacturer := manufacturer stored;
     purchaseDate := purchaseDate stored; cost := cost stored;
     condition := condition stored;
     status := status this;
     location := location stored;
     issuedTo := issuedTo this;
     maintenanceHistory := maintenanceHistory stored;
     specifications := specifications stored; images := images stored;
     notes := notes stored;
     warrantyInfo := warrantyInfo stored; addedBy := addedBy stored;
     lastModifiedBy := lastModifiedBy stored;
     createdAt := createdAt stored; updatedAt := Some stamp |}.

(** [this.save()] in the two methods, on a document that was loaded and
    on which the method has assigned [status] and [issuedTo]: the
    document is validated, the stamp is taken, and the update is sent
    for the stored document of the same [_id]; when there is none the
    save is rejected. The fulfilled promise gives the document itself. *)
Definition save (stamp : Date) (db : DB) (this : t) : Exn + (DB * t) :=
  match validate this with
  | Some path => inl (ValidationError path)
  | None =>
      match equipment db !! _id this with
      | None => inl DocumentNotFoundError
      | Some stored =>
          inr (withEquipment db
                 (<[_id this := writeCustody stamp this stored]> (equipment db)),
               setUpdatedAt stamp this)
      end
  end.

(** [issueToUser(userId, expectedReturnDate)]. The clock is read for
    the issue date, read again ([Date.now()]) when the return date is
    defaulted, and read by the stamp of the save. Both assignments
    change the document: the status was Available, and the new block
    carries the issue date just read. *)
Definition issueToUser (env : Env) (db : DB) (uid : ObjectId)
    (expected : option Date) (this : t) : Exn + (DB * t) :=
  if negb (Status_eqb (status this) Available)
  then inl (Error "Equipment is not available for issue")
  else save (match expected with
             | Some _ => reading env 1
             | None => reading env 2
             end) db
         (setCustody Issued
            (Some {| userId := uid;
                     issuedDate := now env;
                     expectedReturnDate :=
                       orElse expected (reading env 1 + 30 * 24 * 60 * 60 * 1000) |})
            this).

(** [returnFromUser()]; the only reading of the clock is the stamp. *)
Definition returnFromUser (env : Env) (db : DB) (this : t) : Exn + (DB * t) :=
  if negb (Status_eqb (status this) Issued)
  then inl (Error "Equipment is not currently issued")
  else save (now env) db (setCustody Available None this).

(** The custody invariant of the data model: the custody block is
    there exactly when the status is Issued. *)
Definition custodyInvariant (e : t) : Prop :=
  status e = Issued <-> issuedTo e <> None.

(** The invariant on every document of the collection. *)
Definition custodyConsistent (db : DB) : Prop :=
  forall (i : ObjectId) (e : t), equipment db !! i = Some e -> custodyInvariant e.

(** *** Statics and the creation of a document *)

(** The documents of the collection, in no particular order. *)
Definition documents (db : DB) : list t :=
  List.map snd (map_to_list (equipment db)).

(** The filter [{ status: 'Available', ...(category && { category }) }]:
    it has the key [category] only when the argument is truthy. *)
Definition wantedBy (wanted : option Category) (e : t) : bool :=
  Status_eqb (status e) Available
  && match wanted with
     | Some c => Category_eqb (category e) c
     | None => true
     end.

(** [getAvailableByCategory(category)] *)
Definition getAvailableByCategory (db : DB) (wanted : option Category) : list t :=
  List.filter (wantedBy wanted) (documents db).

(** The paths a caller passes to [new Equipment({ ... })]. *)
Record Init : Type := mkInit {
  init_name : string;
  init_category : Category;
  init_model : string;
  init_serialNumber : string;
  init_manufacturer : string;
  init_purchaseDate : Date;
  init_cost : Z;
  init_location : string;
  init_condition : option Condition;
  init_notes : option string;
  init_specifications : list (string * string);
  init_warrantyInfo : WarrantyInfo;
  init_addedBy : ObjectId
}.

(** [new Equipment(init)]: the [trim] setters of the schema run on the
    strings, the defaults of the schema fill the rest. *)
Definition new (env : Env) (i : Init) : t :=
  {| _id := freshId env;
     name := JS.trim (init_name i);
     category := init_category i;
     model := JS.trim (init_model i);
     serialNumber := JS.trim (init_serialNumber i);
     manufacturer := JS.trim (init_manufacturer i);
     purchaseDate := init_purchaseDate i;
     cost := init_cost i;
     condition := orElse (init_condition i) Good;
     status := Available;
     location := JS.trim (init_location i);
     issuedTo := None;
     maintenanceHistory := [];
     specifications := init_specifications i;
     images := [];
     notes := init_notes i;
     warrantyInfo := init_warrantyInfo i;
     addedBy := init_addedBy i;
     lastModifiedBy := None;
     createdAt := None;
     updatedAt := None |}.

(** The two stamps of a first save. *)
Definition stampNew (stamp : Date) (e : t) : t :=
  {| _id := _id e; name := name e; category := category e; model := model e;
     serialNumber := serialNumber e; manufacturer := manufacturer e;
     purchaseDate := purchaseDate e; cost := cost e; condition := condition e;
     status := status e;
     location := location e;
     issuedTo := issuedTo e;
     maintenanceHistory := maintenanceHistory e;
     specifications := specifications e; images := images e; notes := notes e;
     warrantyInfo := warrantyInfo e; addedBy := addedBy e;
     lastModifiedBy := lastModifiedBy e;
     createdAt := Some (orElse (createdAt e) stamp);
     updatedAt := Some (orElse (createdAt e) stamp) |}.

(** The unique index on [serialNumber]: a stored document has it. *)
Definition serialTaken (db : DB) (serial : string) : bool :=
  List.existsb (fun e => String.eqb (serialNumber e) serial) (documents db).

(** [save()] of a new document: validation, the stamps, then the
    insertion, which the unique index on [serialNumber] may refuse. *)
Definition insert (env : Env) (db : DB) (e : t) : Exn + (DB * t) :=
  match validate e with
  | Some path => inl (ValidationError path)
  | None =>
      if serialTaken db (serialNumber e)
      then inl (MongoServerError 11000)
      else inr (withEquipment db (<[_id e := stampNew (now env) e]> (equipment db)),
                stampNew (now env) e)
  end.

(** Every document is stored under its own [_id]. *)
Definition keyed (db : DB) : Prop :=
  forall (i : ObjectId) (e : t), equipment db !! i = Some e -> _id e = i.

(** No two documents have the same serial number. *)
Definition serialsUnique (db : DB) : Prop :=
  forall (i j : ObjectId) (a b : t),
    equipment db !! i = Some a -> equipment db !! j = Some b ->
    serialNumber a = serialNumber b -> i = j.

End Equipment.

(** ** models/Request.js: hooks and methods *)
Module Request.

Export requestSchema.
Local Open Scope string_scope.

(** The paths that the hooks, the methods and the routes assign. *)
Inductive Path : Type :=
| requestIdPath | statusPath | adminNotesPath | processedByPath
| processedDatePath | approvedDatePath | completedDatePath.

Definition Path_eqb (a b : Path) : bool :=
  match a, b with
  | requestIdPath, requestIdPath | statusPath, statusPath
  | adminNotesPath, adminNotesPath | processedByPath, processedByPath
  | processedDatePath, processedDatePath | approvedDatePath, approvedDatePath
  | completedDatePath, completedDatePath => true
  | _, _ => false
  end.

(** A Mongoose document: the data, whether it has never been saved, and
    the paths that have been assigned a different value since it was
    loaded or saved. *)
Record Doc : Type := mkDoc {
  this : t;
  isNew : bool;
  modified : list Path
}.

(** [this.isModified(path)] *)
Definition isModified (p : Path) (d : Doc) : bool :=
  List.existsb (Path_eqb p) (modified d).

(** The document that [findById] and [findOne] hand out. *)
Definition loaded (r : t) : Doc :=
  {| this := r; isNew := false; modified := [] |}.

(** Equality of two values that may be undefined. *)
Definition same {A : Type} (eqb : A -> A -> bool) (x y : option A) : bool :=
  match x, y with
  | Some a, Some b => eqb a b
  | None, None => true
  | _, _ => false
  end.

(** The modified paths after a series of assignments on [d]; each is
    given with whether it changes the value. An assignment that leaves
    the value as it is marks nothing, except on a new document. *)
Definition touch (d : Doc) (assignments : list (Path * bool)) : list Path :=
  (modified d
   ++ List.map fst (List.filter (fun a => isNew d || snd a) assignments))%list.

(** *** The identifier hook, [pre('validate')] *)

Definition dayStamp (env : Env) : string :=
  (JS.toString (fullYear env)
   ++ JS.padStart 2 "0" (JS.toString (month env + 1))
   ++ JS.padStart 2 "0" (JS.toString (dayOfMonth env)))%string.

(** The regular expression [^REQ-YYYYMMDD] on an identifier. *)
Definition ofDay (env : Env) (r : t) : bool :=
  match requestId r with
  | Some id => String.prefix ("REQ-" ++ dayStamp env) id
  | None => false
  end.

(** The greater of two documents in [sort({ requestId: -1 })]. *)
Definition later (a b : t) : t :=
  if String.ltb (orElse (requestId a) "") (orElse (requestId b) "")
  then b else a.

(** [findOne({ requestId: /^REQ-YYYYMMDD/ }).sort({ requestId: -1 })] *)
Definition findLastOfDay (env : Env) (rs : list t) : option t :=
  List.fold_left
    (fun best r =>
       if ofDay env r
       then Some (match best with Some b => later b r | None => r end)
       else best)
    rs None.

(** The query as the hook sees it: it may reject. *)
Definition queryLastOfDay (env : Env) (db : DB) : Exn + option t :=
  if findOneFails env then inl (Error "MongoNetworkError")
  else inr (findLastOfDay env (requests db)).

Definition setRequestId (id : string) (r : t) : t :=
  {| _id := _id r; requestId := Some id; requestedBy := requestedBy r;
     equipmentId := equipmentId r; requestType := requestType r;
     status := status r; priority := priority r;
     requestedDate := requestedDate r;
     expectedReturnDate := expectedReturnDate r; reason := reason r;
     adminNotes := adminNotes r; processedBy := processedBy r;
     processedDate := processedDate r; approvedDate := approvedDate r;
     completedDate := completedDate r; attachments := attachments r;
     statusHistory := statusHistory r |}.

(** The sequence number that follows the last request of the day. *)
Definition nextSequence (lastRequest : option t) : Z :=
  match lastRequest with
  | Some l =>
      if JS.truthy (requestId l) then
        match JS.parseIntOpt
                (nth_error (JS.split "-" (orElse (requestId l) "")) 2) with
        | Some lastSequence => lastSequence + 1
        | None => 1
        end
      else 1
  | None => 1
  end.

Definition primaryId (env : Env) (sequence : Z) : string :=
  ("REQ-" ++ dayStamp env ++ "-"
   ++ JS.padStart 4 "0" (JS.toString sequence))%string.

Definition fallbackId (env : Env) : string :=
  ("REQ-" ++ JS.toString (now env) ++ "-" ++ random env)%string.

(** The body of the hook, given the outcome of its query. *)
Definition generateRequestId (env : Env) (found : Exn + option t) (r : t) : t :=
  if negb (JS.truthy (requestId r)) then
    match found with
    | inr lastRequest => setRequestId (primaryId env (nextSequence lastRequest)) r
    | inl _ => setRequestId (fallbackId env) r
    end
  else r.

Definition preValidate (env : Env) (db : DB) (d : Doc) : Doc :=
  {| this := generateRequestId env (queryLastOfDay env db) (this d);
     isNew := isNew d;
     modified :=
       touch d (if JS.truthy (requestId (this d)) then []
                else [(requestIdPath, true)]) |}.

(** *** Validation against the schema *)

(** The first path, in the order of the schema, that fails, if any:
    [required] refuses an undefined value and the empty string,
    [maxlength] compares [length]. A save validates every path. *)
Definition validate (r : t) : option string :=
  if negb (match equipmentId r with Some _ => true | None => false end)
  then Some "equipmentId"%string
  else if RequestType_eqb (requestType r) Issue
          && negb (match expectedReturnDate r with Some _ => true | None => false end)
  then Some "expectedReturnDate"%string
  else if String.eqb (reason r) "" || (500 <? JS.length (reason r))%nat
  then Some "reason"%string
  else if (500 <? JS.length (orElse (adminNotes r) ""))%nat
  then Some "adminNotes"%string
  else None.

(** *** The history hook, [pre('save')] *)

Definition pushHistory (e : Entry.t) (r : t) : t :=
  {| _id := _id r; requestId := requestId r; requestedBy := requestedBy r;
     equipmentId := equipmentId r; requestType := requestType r;
     status := status r; priority := priority r;
     requestedDate := requestedDate r;
     expectedReturnDate := expectedReturnDate r; reason := reason r;
     adminNotes := adminNotes r; processedBy := processedBy r;
     processedDate := processedDate r; approvedDate := approvedDate r;
     completedDate := completedDate r; attachments := attachments r;
     statusHistory := (statusHistory r ++ [e])%list |}.

Definition historyEntry (env : Env) (r : t) : Entry.t :=
  {| Entry.status := status r;
     Entry.changedBy := orElse (processedBy r) (requestedBy r);
     Entry.changedDate := now env;
     Entry.notes := adminNotes r |}.

(** The entries that the hook pushes: one when [status] is modified on
    a document that is not new. *)
Definition pushed (env : Env) (d : Doc) : list Entry.t :=
  if isModified statusPath d && negb (isNew d)
  then [historyEntry env (this d)]
  else [].

Definition preSave (env : Env) (d : Doc) : Doc :=
  if isModified statusPath d && negb (isNew d)
  then {| this := pushHistory (historyEntry env (this d)) (this d);
          isNew := isNew d; modified := modified d |}
  else d.

(** *** Writing the document *)

(** The unique index on [requestId]: another document has the value. *)
Definition duplicateKey (rs : list t) (r : t) : bool :=
  List.existsb
    (fun x => negb (_id x =? _id r)%N
              && String.eqb (orElse (requestId x) "") (orElse (requestId r) ""))
    rs.

(** [updateOne({ _id: id }, ...)]: the stored document of that [_id]
    is changed by [f], the others stay. *)
Definition amend (id : ObjectId) (f : t -> t) (rs : list t) : list t :=
  List.map (fun x => if (_id x =? id)%N then f x else x) rs.

(** The collection once it holds the document [r]: inserted last when
    [r] is new, in the place of the stored document of its [_id]
    otherwise. *)
Definition store (new : bool) (r : t) (rs : list t) : list t :=
  if new then (rs ++ [r])%list
  else amend (_id r) (fun _ => r) rs.

(** A stored document has the [_id]. *)
Definition holds (id : ObjectId) (rs : list t) : bool :=
  List.existsb (fun x => (_id x =? id)%N) rs.

(** The value of a path after the update: that of the document in
    memory when the path is modified, the stored one otherwise. *)
Definition pick {A : Type} (m : list Path) (p : Path) (f : t -> A)
    (this stored : t) : A :=
  if List.existsb (Path_eqb p) m then f this else f stored.

(** The stored document after the update that [save()] sends for a
    loaded document: [$set] of the modified paths with the values in
    memory, [$push] of the entries that the hook has pushed. A path
    that was not assigned keeps its stored value, whatever the copy in
    memory holds. *)
Definition written (m : list Path) (entries : list Entry.t) (this stored : t) : t :=
  {| _id := _id stored;
     requestId := pick m requestIdPath requestId this stored;
     requestedBy := requestedBy stored;
     equipmentId := equipmentId stored;
     requestType := requestType stored;
     status := pick m statusPath status this stored;
     priority := priority stored;
     requestedDate := requestedDate stored;
     expectedReturnDate := expectedReturnDate stored;
     reason := reason stored;
     adminNotes := pick m adminNotesPath adminNotes this stored;
     processedBy := pick m processedByPath processedBy this stored;
     processedDate := pick m processedDatePath processedDate this stored;
     approvedDate := pick m approvedDatePath approvedDate this stored;
     completedDate := pick m completedDatePath completedDate this stored;
     attachments := attachments stored;
     statusHistory := (statusHistory stored ++ entries)%list |}.

(** What [save()] does once the identifier hook has run: validation,
    the history hook, the write. A new document is inserted, and the
    unique index may refuse it. For a loaded document the update is
    sent to the stored document of the same [_id]: the save is rejected
    when there is none, and the index is consulted when [requestId] is
    among the modified paths. The fulfilled promise gives the document
    in memory, with nothing modified any more. *)
Definition commit (env : Env) (db : DB) (d : Doc) : Exn + (DB * Doc) :=
  match validate (this d) with
  | Some path => inl (ValidationError path)
  | None =>
      let d' := preSave env d in
      let saved := {| this := this d'; isNew := false; modified := [] |} in
      if isNew d then
        if duplicateKey (requests db) (this d')
        then inl (MongoServerError 11000)
        else inr (withRequests db (store true (this d') (requests db)), saved)
      else if negb (holds (_id (this d)) (requests db))
      then inl DocumentNotFoundError
      else if isModified requestIdPath d && duplicateKey (requests db) (this d')
      then inl (MongoServerError 11000)
      else inr (withRequests db
                  (amend (_id (this d))
                     (written (modified d) (pushed env d) (this d'))
                     (requests db)),
                saved)
  end.

(** [this.save()] *)
Definition save (env : Env) (db : DB) (d : Doc) : Exn + (DB * Doc) :=
  commit env db (preValidate env db d).

(** *** Methods *)

(** [approve(adminId, notes)] *)
Definition approve (env : Env) (db : DB) (adminId : ObjectId)
    (notes : option string) (d : Doc) : Exn + (DB * Doc) :=
  let r := this d in
  save env db
    {| this :=
         {| _id := _id r; requestId := requestId r; requestedBy := requestedBy r;
            equipmentId := equipmentId r; requestType := requestType r;
            status := Approved;
            priority := priority r; requestedDate := requestedDate r;
            expectedReturnDate := expectedReturnDate r; reason := reason r;
            adminNotes := notes;
            processedBy := Some adminId;
            processedDate := Some (now env);
            approvedDate := Some (now env);
            completedDate := completedDate r; attachments := attachments r;
            statusHistory := statusHistory r |};
       isNew := isNew d;
       modified :=
         touch d
           [(statusPath, negb (Status_eqb (status r) Approved));
            (processedByPath, negb (same N.eqb (processedBy r) (Some adminId)));
            (processedDatePath, negb (same Z.eqb (processedDate r) (Some (now env))));
            (approvedDatePath, negb (same Z.eqb (approvedDate r) (Some (now env))));
            (adminNotesPath, negb (same String.eqb (adminNotes r) notes))] |}.

(** [reject(adminId, reason)] *)
Definition reject (env : Env) (db : DB) (adminId : ObjectId)
    (why : option string) (d : Doc) : Exn + (DB * Doc) :=
  let r := this d in
  save env db
    {| this :=
         {| _id := _id r; requestId := requestId r; requestedBy := requestedBy r;
            equipmentId := equipmentId r; requestType := requestType r;
            status := Rejected;
            priority := priority r; requestedDate := requestedDate r;
            expectedReturnDate := expectedReturnDate r; reason := reason r;
            adminNotes := why;
            processedBy := Some adminId;
            processedDate := Some (now env);
            approvedDate := approvedDate r;
            completedDate := completedDate r; attachments := attachments r;
            statusHistory := statusHistory r |};
       isNew := isNew d;
       modified :=
         touch d
           [(statusPath, negb (Status_eqb (status r) Rejected));
            (processedByPath, negb (same N.eqb (processedBy r) (Some adminId)));
            (processedDatePath, negb (same Z.eqb (processedDate r) (Some (now env))));
            (adminNotesPath, negb (same String.eqb (adminNotes r) why))] |}.

(** [complete(adminId, notes)] *)
Definition complete (env : Env) (db : DB) (adminId : ObjectId)
    (notes : option string) (d : Doc) : Exn + (DB * Doc) :=
  let r := this d in
  save env db
    {| this :=
         {| _id := _id r; requestId := requestId r; requestedBy := requestedBy r;
            equipmentId := equipmentId r; requestType := requestType r;
            status := Completed;
            priority := priority r; requestedDate := requestedDate r;
            expectedReturnDate := expectedReturnDate r; reason := reason r;
            adminNotes := if JS.truthy notes then notes else adminNotes r;
            processedBy := Some adminId;
            processedDate := processedDate r;
            approvedDate := approvedDate r;
            completedDate := Some (now env);
            attachments := attachments r;
            statusHistory := statusHistory r |};
       isNew := isNew d;
       modified :=
         touch d
           ([(statusPath, negb (Status_eqb (status r) Completed));
             (processedByPath, negb (same N.eqb (processedBy r) (Some adminId)));
             (completedDatePath,
              negb (same Z.eqb (completedDate r) (Some (now env))))]
            ++ (if JS.truthy notes
                then [(adminNotesPath, negb (same String.eqb (adminNotes r) notes))]
                else []))%list |}.

(** The assignment [request.status = s] of a route. *)
Definition setStatus (s : Status) (d : Doc) : Doc :=
  let r := this d in
  {| this :=
       {| _id := _id r; requestId := requestId r; requestedBy := requestedBy r;
          equipmentId := equipmentId r; requestType := requestType r;
          status := s;
          priority := priority r; requestedDate := requestedDate r;
          expectedReturnDate := expectedReturnDate r; reason := reason r;
          adminNotes := adminNotes r; processedBy := processedBy r;
          processedDate := processedDate r; approvedDate := approvedDate r;
          completedDate := completedDate r; attachments := attachments r;
          statusHistory := statusHistory r |};
     isNew := isNew d;
     modified := touch d [(statusPath, negb (Status_eqb (status r) s))] |}.

(** The paths a caller passes to [new Request({ ... })]; the schema
    knows neither [poolId] nor [poolName]. *)
Record Init : Type := mkInit {
  init_requestedBy : ObjectId;
  init_equipmentId : option ObjectId;
  init_poolId : option ObjectId;
  init_poolName : option string;
  init_requestType : RequestType;
  init_reason : string;
  init_priority : option Priority;
  init_expectedReturnDate : option Date
}.

(** [new Request(init)]: the paths of the schema are copied, the
    defaults of the schema fill the rest. *)
Definition new (env : Env) (i : Init) : Doc :=
  {| this :=
       {| _id := freshId env; requestId := None;
          requestedBy := init_requestedBy i;
          equipmentId := init_equipmentId i;
          requestType := init_requestType i;
          status := Pending;
          priority := orElse (init_priority i) Medium;
          requestedDate := now env;
          expectedReturnDate := init_expectedReturnDate i;
          reason := init_reason i;
          adminNotes := None; processedBy := None; processedDate := None;
          approvedDate := None; completedDate := None;
          attachments := []; statusHistory := [] |};
     isNew := true;
     modified := [] |}.

(** The virtual [daysSinceRequest], evaluated when the clock shows [today]. *)
Definition daysSinceRequest (today : Date) (r : t) : Z :=
  let diffTime := Z.abs (today - requestedDate r) in
  JS.ceilDiv diffTime (1000 * 60 * 60 * 24).

(** *** The vocabulary of the identifier scheme *)

(** The sequence number that an identifier carries, 0 when it has none. *)
Definition sequenceOf (r : t) : Z :=
  orElse (JS.parseIntOpt (nth_error (JS.split "-" (orElse (requestId r) "")) 2)) 0.

(** The highest sequence number among the requests of the day, 0 when
    the day has none. *)
Definition highestSequence (env : Env) (rs : list t) : Z :=
  List.fold_right Z.max 0 (List.map sequenceOf (List.filter (ofDay env) rs)).

(** A calendar date with a year of four digits. *)
Definition calendar (env : Env) : Prop :=
  1000 <= fullYear env <= 9999 /\ 0 <= month env <= 11 /\ 1 <= dayOfMonth env <= 31.

(** Every identifier of the day comes from the primary scheme, with a
    sequence number of at most four digits. *)
Definition dayWellFormed (env : Env) (rs : list t) : Prop :=
  forall r : t,
    In r rs -> ofDay env r = true ->
    exists n : Z, 1 <= n <= 9999 /\ requestId r = Some (primaryId env n).

(** An identifier of the shape REQ-YYYYMMDD-SEQ, for the date of [env]
    and the sequence number [n] on four digits. *)
Definition primaryShape (env : Env) (n : Z) (id : string) : Prop :=
  exists yyyy mm dd seq : string,
    id = "REQ-" ++ yyyy ++ mm ++ dd ++ "-" ++ seq
    /\ JS.digitsOf 4 (fullYear env) yyyy = true
    /\ JS.digitsOf 2 (month env + 1) mm = true
    /\ JS.digitsOf 2 (dayOfMonth env) dd = true
    /\ JS.digitsOf 4 n seq = true.

(** The state of the scan of [findLastOfDay]: nothing yet, and [top] is
    0, or a request of the primary scheme with sequence number [top]. *)
Definition scanned (env : Env) (best : option t) (top : Z) : Prop :=
  match best with
  | None => top = 0
  | Some b => 1 <= top <= 9999 /\ requestId b = Some (primaryId env top)
  end.

End Request.

(** ** routes/equipment.js: the routes that change one equipment document *)
Module EquipmentRoutes.

Import equipmentSchema.

(** The body of [PUT /api/equipment/:id]; an absent key is [None]. *)
Record UpdateBody : Type := mkUpdateBody {
  name : option string;
  category : option Category;
  model : option string;
  manufacturer : option string;
  cost : option Z;
  location : option string;
  condition : option Condition;
  status : option Status;
  notes : option string;
  specifications : option (list (string * string));
  warrantyInfo : option WarrantyInfo
}.

(** The [trim()] sanitizers of the validation chain rewrite the body. *)
Definition sanitize (b : UpdateBody) : UpdateBody :=
  {| name := option_map JS.trim (name b);
     category := category b;
     model := option_map JS.trim (model b);
     manufacturer := option_map JS.trim (manufacturer b);
     cost := cost b;
     location := option_map JS.trim (location b);
     condition := condition b;
     status := status b;
     notes := notes b;
     specifications := specifications b;
     warrantyInfo := warrantyInfo b |}.

(** [optional().isLength({ min, max })] *)
Definition lengthWithin (lo hi : nat) (x : option string) : bool :=
  match x with
  | Some s => JS.isLength lo (Some hi) s
  | None => true
  end.

(** [optional().isLength({ min })] *)
Definition lengthAtLeast (lo : nat) (x : option string) : bool :=
  match x with
  | Some s => JS.isLength lo None s
  | None => true
  end.

(** [validationResult(req).isEmpty()] on the sanitized body; the
    [isIn] and [isNumeric] checks hold by typing. *)
Definition bodyValid (b : UpdateBody) : bool :=
  lengthWithin 1 100 (name b) && lengthAtLeast 1 (model b)
  && lengthAtLeast 1 (manufacturer b) && lengthAtLeast 1 (location b)
  && lengthWithin 0 500 (notes b).

(** [$set] of the keys of [updates] on the stored document, and of
    [updatedAt], which the option [timestamps] adds to every update. *)
Definition applyUpdates (stamp : Date) (b : UpdateBody) (admin : ObjectId) (e : t)
    : t :=
  {| _id := _id e;
     equipmentSchema.name := assign (name b) (equipmentSchema.name e);
     equipmentSchema.category := assign (category b) (equipmentSchema.category e);
     equipmentSchema.model := assign (model b) (equipmentSchema.model e);
     serialNumber := serialNumber e;
     equipmentSchema.manufacturer :=
       assign (manufacturer b) (equipmentSchema.manufacturer e);
     purchaseDate := purchaseDate e;
     equipmentSchema.cost := assign (cost b) (equipmentSchema.cost e);
     equipmentSchema.condition :=
       assign (condition b) (equipmentSchema.condition e);
     equipmentSchema.status := assign (status b) (equipmentSchema.status e);
     equipmentSchema.location := assign (location b) (equipmentSchema.location e);
     issuedTo := issuedTo e;
     maintenanceHistory := maintenanceHistory e;
     equipmentSchema.specifications :=
       assign (specifications b) (equipmentSchema.specifications e);
     images := images e;
     equipmentSchema.notes :=
       match notes b with Some n => Some n | None => equipmentSchema.notes e end;
     equipmentSchema.warrantyInfo :=
       assign (warrantyInfo b) (equipmentSchema.warrantyInfo e);
     addedBy := addedBy e;
     lastModifiedBy := Some admin;
     createdAt := createdAt e;
     updatedAt := Some stamp |}.

(** The update validators that [runValidators: true] runs on the paths
    of [updates]: [required] and [maxlength] on the strings, [min: 0]
    on the cost. The validation chain has compared the characters of
    the name and of the notes with the same bounds, the schema
    compares their [length]. *)
Definition updateValidators (b : UpdateBody) : bool :=
  match name b with
  | Some n => negb (String.eqb n "") && (JS.length n <=? 100)%nat
  | None => true
  end
  && match model b with Some m => negb (String.eqb m "") | None => true end
  && match manufacturer b with Some m => negb (String.eqb m "") | None => true end
  && match cost b with Some c => 0 <=? c | None => true end
  && match location b with Some l => negb (String.eqb l "") | None => true end
  && match notes b with Some n => (JS.length n <=? 500)%nat | None => true end.

(** [PUT /api/equipment/:id] by administrator [admin]. *)
Definition update (env : Env) (db : DB) (admin id : ObjectId) (body : UpdateBody)
    : Response * DB :=
  let b := sanitize body in
  if negb (bodyValid b) then (failure 400 "Validation errors", db)
  else match equipment db !! id with
       | None => (failure 404 "Equipment not found", db)
       | Some e =>
           if negb (updateValidators b)
           then (failure 500 "Server error updating equipment", db)
           else (ok 200 "Equipment updated successfully",
                 withEquipment db
                   (<[id := applyUpdates (now env) b admin e]> (equipment db)))
       end.

(** [PUT /api/equipment/:id/issue] *)
Definition issue (env : Env) (db : DB) (id uid : ObjectId)
    (expectedReturnDate : option Date) : Response * DB :=
  match equipment db !! id with
  | None => (failure 404 "Equipment not found", db)
  | Some e =>
      match Equipment.issueToUser env db uid expectedReturnDate e with
      | inl err => (failure 400 (exnMessage err), db)
      | inr (db', _) => (ok 200 "Equipment issued successfully", db')
      end
  end.

(** [PUT /api/equipment/:id/return] *)
Definition return_ (env : Env) (db : DB) (id : ObjectId) : Response * DB :=
  match equipment db !! id with
  | None => (failure 404 "Equipment not found", db)
  | Some e =>
      match Equipment.returnFromUser env db e with
      | inl err => (failure 400 (exnMessage err), db)
      | inr (db', _) => (ok 200 "Equipment returned successfully", db')
      end
  end.

(** The body of [POST /api/equipment]; an absent string is empty. *)
Record CreateBody : Type := mkCreateBody {
  new_name : string;
  new_category : Category;
  new_model : string;
  new_serialNumber : string;
  new_manufacturer : string;
  new_purchaseDate : Date;
  new_cost : Z;
  new_location : string;
  new_condition : option Condition;
  new_notes : option string;
  new_specifications : option (list (string * string));
  new_warrantyInfo : option WarrantyInfo
}.

(** The validation chain of the route, on the trimmed strings. *)
Definition createBodyValid (b : CreateBody) : bool :=
  lengthWithin 1 100 (Some (JS.trim (new_name b)))
  && lengthAtLeast 1 (Some (JS.trim (new_model b)))
  && lengthAtLeast 1 (Some (JS.trim (new_serialNumber b)))
  && lengthAtLeast 1 (Some (JS.trim (new_manufacturer b)))
  && lengthAtLeast 1 (Some (JS.trim (new_location b)))
  && lengthWithin 0 500 (new_notes b).

(** The argument of [new Equipment] in the route. *)
Definition createInit (admin : ObjectId) (b : CreateBody) : Equipment.Init :=
  {| Equipment.init_name := JS.trim (new_name b);
     Equipment.init_category := new_category b;
     Equipment.init_model := JS.trim (new_model b);
     Equipment.init_serialNumber := JS.trim (new_serialNumber b);
     Equipment.init_manufacturer := JS.trim (new_manufacturer b);
     Equipment.init_purchaseDate := new_purchaseDate b;
     Equipment.init_cost := new_cost b;
     Equipment.init_location := JS.trim (new_location b);
     Equipment.init_condition := Some (orElse (new_condition b) Good);
     Equipment.init_notes := new_notes b;
     Equipment.init_specifications := orElse (new_specifications b) [];
     Equipment.init_warrantyInfo :=
       orElse (new_warrantyInfo b) (mkWarrantyInfo None None None);
     Equipment.init_addedBy := admin |}.

(** [POST /api/equipment] by administrator [admin]. *)
Definition create (env : Env) (db : DB) (admin : ObjectId) (body : CreateBody)
    : Response * DB :=
  if negb (createBodyValid body) then (failure 400 "Validation errors", db)
  else if Equipment.serialTaken db (JS.trim (new_serialNumber body))
  then (failure 400 "Equipment with this serial number already exists", db)
  else
    match Equipment.insert env db (Equipment.new env (createInit admin body)) with
    | inr (db', _) => (ok 201 "Equipment added successfully", db')
    | inl (MongoServerError 11000) =>
        (failure 400 "Equipment with this serial number already exists", db)
    | inl _ => (failure 500 "Server error adding equipment", db)
    end.

(** [DELETE /api/equipment/:id] *)
Definition delete (db : DB) (id : ObjectId) : Response * DB :=
  match equipment db !! id with
  | None => (failure 404 "Equipment not found", db)
  | Some e =>
      if Status_eqb (equipmentSchema.status e) Issued
      then (failure 400 "Cannot delete equipment that is currently issued", db)
      else (ok 200 "Equipment deleted successfully",
            withEquipment db (base.delete id (equipment db)))
  end.

End EquipmentRoutes.

(** ** routes/officer.js: the routes that create or change a request *)
Module OfficerRoutes.

Import requestSchema.
Local Open Scope string_scope.

(** [req.user], as the authentication layer provides it. *)
Record User : Type := mkUser {
  _id : ObjectId;
  designation : string
}.

(** The body of [POST /api/officer/requests]. *)
Record RequestBody : Type := mkRequestBody {
  equipmentId : ObjectId;
  requestType : RequestType;
  reason : string;
  priority : option Priority;
  expectedReturnDate : option Date
}.

(** [findOne({ requestedBy, equipmentId, requestType: 'Issue',
    status: 'Pending' })] *)
Definition pendingIssue (user eq : ObjectId) (r : t) : bool :=
  (requestedBy r =? user)%N
  && match requestSchema.equipmentId r with
     | Some e => (e =? eq)%N
     | None => false
     end
  && RequestType_eqb (requestSchema.requestType r) Issue
  && Status_eqb (status r) Pending.

(** [POST /api/officer/requests] *)
Definition createRequest (env : Env) (db : DB) (user : User)
    (body : RequestBody) : Response * DB :=
  if negb (JS.isLength 1 (Some 500%nat) (reason body))
  then (failure 400 "Validation errors", db)
  else
    match equipment db !! equipmentId body with
    | None => (failure 404 "Equipment not found", db)
    | Some e =>
        let rejected : option string :=
          match requestType body with
          | Issue =>
              if negb (equipmentSchema.Status_eqb (equipmentSchema.status e)
                         equipmentSchema.Available)
              then Some "Equipment is not available for issue"
              else if List.existsb (pendingIssue (_id user) (equipmentId body))
                        (requests db)
              then Some "You already have a pending request for this equipment"
              else None
          | Return =>
              if negb (equipmentSchema.Status_eqb (equipmentSchema.status e)
                         equipmentSchema.Issued)
                 || negb (match equipmentSchema.issuedTo e with
                          | Some c => (equipmentSchema.userId c =? _id user)%N
                          | None => false
                          end)
              then Some "Equipment is not issued to you"
              else None
          | Maintenance => None
          end in
        match rejected with
        | Some msg => (failure 400 msg, db)
        | None =>
            let request :=
              Request.new env
                {| Request.init_requestedBy := _id user;
                   Request.init_equipmentId := Some (equipmentId body);
                   Request.init_poolId := None;
                   Request.init_poolName := None;
                   Request.init_requestType := requestType body;
                   Request.init_reason := reason body;
                   Request.init_priority := Some (orElse (priority body) Medium);
                   Request.init_expectedReturnDate := expectedReturnDate body |} in
            match Request.save env db request with
            | inr (db', _) => (ok 201 "Request submitted successfully", db')
            | inl _ => (failure 500 "Server error creating request", db)
            end
        end
    end.

(** [PUT /api/officer/requests/:id/cancel] *)
Definition cancelRequest (env : Env) (db : DB) (user : User) (id : ObjectId)
    : Response * DB :=
  match List.find (fun r => (requestSchema._id r =? id)%N
                            && (requestedBy r =? _id user)%N)
                  (requests db) with
  | None => (failure 404 "Request not found", db)
  | Some r =>
      if negb (Status_eqb (status r) Pending)
      then (failure 400 "Only pending requests can be cancelled", db)
      else
        match Request.save env db (Request.setStatus Cancelled (Request.loaded r)) with
        | inr (db', _) => (ok 200 "Request cancelled successfully", db')
        | inl _ => (failure 500 "Server error cancelling request", db)
        end
  end.

(** The body of [POST /api/officer/equipment-requests/from-pool]. *)
Record PoolRequestBody : Type := mkPoolRequestBody {
  poolId : ObjectId;
  poolName : string;
  pool_reason : string;
  pool_priority : option Priority;
  expectedDuration : option string
}.

(** The argument of [new Request] in the pool route. *)
Definition poolRequestInit (env : Env) (user : User) (body : PoolRequestBody)
    : Request.Init :=
  {| Request.init_requestedBy := _id user;
     Request.init_equipmentId := None;
     Request.init_poolId := Some (poolId body);
     Request.init_poolName := Some (JS.trim (poolName body));
     Request.init_requestType := Issue;
     Request.init_reason := JS.trim (pool_reason body);
     Request.init_priority := Some (orElse (pool_priority body) Medium);
     Request.init_expectedReturnDate :=
       if JS.truthy (expectedDuration body)
       then Some (now env + 7 * 24 * 60 * 60 * 1000)
       else None |}.

(** [POST /api/officer/equipment-requests/from-pool] *)
Definition requestFromPool (env : Env) (db : DB) (user : User)
    (body : PoolRequestBody) : Response * DB :=
  if negb (JS.isLength 1 None (JS.trim (poolName body))
           && JS.isLength 1 None (JS.trim (pool_reason body)))
  then (failure 400 "Validation errors", db)
  else
    match equipmentpools db !! poolId body with
    | None => (failure 404 "Equipment pool not found", db)
    | Some stored =>
        let pool := EquipmentPool.updateCounts (equipment db) stored in
        if (EquipmentPool.availableCount pool =? 0)%Z
        then (failure 400 "No equipment available in this pool", db)
        else if negb (List.existsb (String.eqb (designation user))
                        (EquipmentPool.authorizedDesignations pool))
        then (failure 403
                "You are not authorized to request equipment from this pool", db)
        else
          match Request.save env db (Request.new env (poolRequestInit env user body)) with
          | inr (db', _) => (ok 201 "Equipment request submitted successfully", db')
          | inl _ => (failure 500 "Server error creating equipment request", db)
          end
    end.

(** The unique index on [requestId], as a property of the collection:
    two documents with the same identifier are the same document. *)
Definition indexed (rs : list t) : Prop :=
  forall x y : t,
    In x rs -> In y rs ->
    orElse (requestId x) "" = orElse (requestId y) "" ->
    requestSchema._id x = requestSchema._id y.

(** Every document of the collection carries an identifier. *)
Definition identified (rs : list t) : Prop :=
  forall x : t, In x rs -> JS.truthy (requestId x) = true.

(** At most one Pending Issue request for each requester and item. *)
Definition pendingIssueUnique (db : DB) : Prop :=
  forall user eq : ObjectId,
    (List.length (List.filter (pendingIssue user eq) (requests db)) <= 1)%nat.

(** The argument of [new Request] in the create route. *)
Definition requestInit (user : User) (body : RequestBody) : Request.Init :=
  {| Request.init_requestedBy := _id user;
     Request.init_equipmentId := Some (equipmentId body);
     Request.init_poolId := None;
     Request.init_poolName := None;
     Request.init_requestType := requestType body;
     Request.init_reason := reason body;
     Request.init_priority := Some (orElse (priority body) Medium);
     Request.init_expectedReturnDate := expectedReturnDate body |}.

(** The checks of the create route on the item [e] of the body pass. *)
Definition admissible (db : DB) (user : User) (body : RequestBody)
    (e : equipmentSchema.t) : Prop :=
  match requestType body with
  | Issue =>
      equipmentSchema.status e = equipmentSchema.Available
      /\ forall r : t,
           In r (requests db) ->
           pendingIssue (_id user) (equipmentId body) r = false
  | Return =>
      equipmentSchema.status e = equipmentSchema.Issued
      /\ option_map equipmentSchema.userId (equipmentSchema.issuedTo e)
         = Some (_id user)
  | Maintenance => True
  end.

(** [_id] is the primary key of the collection. *)
Definition distinct (rs : list t) : Prop :=
  forall x y : t,
    In x rs -> In y rs -> requestSchema._id x = requestSchema._id y -> x = y.

(** The reason of a body passes the validation chain of the create
    route: [body('reason').isLength({ min: 1, max: 500 })]. *)
Definition reasonFits (body : RequestBody) : Prop :=
  JS.isLength 1 (Some 500%nat) (reason body) = true.

End OfficerRoutes.

(** ** Handlers that create requests at the same time

    [save()] of a new request suspends twice: on the query of the
    identifier hook and on the write. A handler is therefore two steps,
    and the steps of several handlers interleave in any order. *)
Module Concurrent.

Inductive Task : Type :=
| Created (env : Env) (d : Request.Doc)      (* save() has been called *)
| Identified (env : Env) (d : Request.Doc)   (* the identifier hook has run *)
| Settled (outcome : Exn + Request.Doc).     (* the promise of save() is settled *)

Definition step (db : DB) (t : Task) : DB * Task :=
  match t with
  | Created env d => (db, Identified env (Request.preValidate env db d))
  | Identified env d =>
      match Request.commit env db d with
      | inr (db', d') => (db', Settled (inr d'))
      | inl e => (db, Settled (inl e))
      end
  | Settled _ => (db, t)
  end.

(** Runs the handlers in the order of the schedule, one step at a time. *)
Fixpoint run (schedule : list nat) (db : DB) (tasks : list Task)
    : DB * list Task :=
  match schedule with
  | [] => (db, tasks)
  | i :: rest =>
      match tasks !! i with
      | Some t => let '(db', t') := step db t in run rest db' (<[i := t']> tasks)
      | None => run rest db tasks
      end
  end.

(** The identifiers of the requests that were created. *)
Definition createdIds (tasks : list Task) : list string :=
  List.flat_map
    (fun t => match t with
              | Settled (inr d) =>
                  match requestSchema.requestId (Request.this d) with
                  | Some id => [id]
                  | None => []
                  end
              | _ => []
              end)
    tasks.

End Concurrent.

(** ** The request life cycle as one interface

    The four operations that change the status of a stored request: the
    three methods of the model, and the assignment and save of the
    cancel route. *)
Module Lifecycle.

Import requestSchema.
Local Open Scope string_scope.

Inductive Operation : Type :=
| Approve (adminId : ObjectId) (notes : option string)
| Reject (adminId : ObjectId) (why : option string)
| Complete (adminId : ObjectId) (notes : option string)
| Cancel.

Definition perform (op : Operation) (env : Env) (db : DB) (d : Request.Doc)
    : Exn + (DB * Request.Doc) :=
  match op with
  | Approve a n => Request.approve env db a n d
  | Reject a w => Request.reject env db a w d
  | Complete a n => Request.complete env db a n d
  | Cancel => Request.save env db (Request.setStatus Cancelled d)
  end.

(** The status the operation writes. *)
Definition target (op : Operation) : Status :=
  match op with
  | Approve _ _ => Approved
  | Reject _ _ => Rejected
  | Complete _ _ => Completed
  | Cancel => Cancelled
  end.

(** The administrator notes once the operation has run. *)
Definition notesAfter (op : Operation) (r : t) : option string :=
  match op with
  | Approve _ n => n
  | Reject _ w => w
  | Complete _ n => if JS.truthy n then n else adminNotes r
  | Cancel => adminNotes r
  end.

(** The value of [processedBy] once the operation has run. *)
Definition processedByAfter (op : Operation) (r : t) : option ObjectId :=
  match op with
  | Approve a _ | Reject a _ | Complete a _ => Some a
  | Cancel => processedBy r
  end.

(** A request as the collection holds it and as [findById] returns it:
    nothing is modified, it carries its identifier, passes validation,
    no other document has its identifier, and it is the document that
    the collection holds under its [_id]. *)
Definition stored (db : DB) (d : Request.Doc) : Prop :=
  Request.isNew d = false
  /\ Request.modified d = []
  /\ JS.truthy (requestId (Request.this d)) = true
  /\ Request.validate (Request.this d) = None
  /\ Request.duplicateKey (requests db) (Request.this d) = false
  /\ In (Request.this d) (requests db)
  /\ (forall x : t,
        In x (requests db) -> _id x = _id (Request.this d) -> x = Request.this d).

Definition notesFit (op : Operation) (r : t) : Prop :=
  (JS.length (orElse (notesAfter op r) "") <= 500)%nat.

(** The history entry of the operation on request [r]. *)
Definition entry (op : Operation) (env : Env) (r : t) : Entry.t :=
  {| Entry.status := target op;
     Entry.changedBy := orElse (processedByAfter op r) (requestedBy r);
     Entry.changedDate := now env;
     Entry.notes := notesAfter op r |}.

End Lifecycle.

(** ** Concrete data for the examples *)
Module Sample.

Local Open Scope string_scope.

Definition officer : ObjectId := 1%N.
Definition admin : ObjectId := 2%N.

(** 3 November 2025, 06:40 UTC. *)
Definition env : Env :=
  {| now := 1762152000000; reading := fun k => 1762152000000 + Z.of_nat k;
     fullYear := 2025; month := 10; dayOfMonth := 3;
     random := "k3j9x0q1z"; findOneFails := false; freshId := 101%N |}.

Definition radio : equipmentSchema.t :=
  {| equipmentSchema._id := 10%N;
     equipmentSchema.name := "Handheld radio";
     equipmentSchema.category := equipmentSchema.Communication;
     equipmentSchema.model := "XTS-2500";
     equipmentSchema.serialNumber := "SN-1";
     equipmentSchema.manufacturer := "Motorola";
     equipmentSchema.purchaseDate := 0;
     equipmentSchema.cost := 45000;
     equipmentSchema.condition := equipmentSchema.Good;
     equipmentSchema.status := equipmentSchema.Available;
     equipmentSchema.location := "Armoury";
     equipmentSchema.issuedTo := None;
     equipmentSchema.maintenanceHistory := [];
     equipmentSchema.specifications := [];
     equipmentSchema.images := [];
     equipmentSchema.notes := None;
     equipmentSchema.warrantyInfo := equipmentSchema.mkWarrantyInfo None None None;
     equipmentSchema.addedBy := admin;
     equipmentSchema.lastModifiedBy := None;
     equipmentSchema.createdAt := Some 1700000000000;
     equipmentSchema.updatedAt := Some 1700000000000 |}.

(** The same item once it has been retired. *)
Definition retiredRadio : equipmentSchema.t :=
  Equipment.setCustody equipmentSchema.Retired None radio.

(** A request of [officer] for [radio], in the given state. *)
Definition request (id : ObjectId) (rid : string) (s : requestSchema.Status)
    : requestSchema.t :=
  {| requestSchema._id := id;
     requestSchema.requestId := Some rid;
     requestSchema.requestedBy := officer;
     requestSchema.equipmentId := Some 10%N;
     requestSchema.requestType := requestSchema.Issue;
     requestSchema.status := s;
     requestSchema.priority := requestSchema.Medium;
     requestSchema.requestedDate := 1762065600000;
     requestSchema.expectedReturnDate := Some 1762670400000;
     requestSchema.reason := "Night patrol";
     requestSchema.adminNotes := None;
     requestSchema.processedBy := None;
     requestSchema.processedDate := None;
     requestSchema.approvedDate := None;
     requestSchema.completedDate := None;
     requestSchema.attachments := [];
     requestSchema.statusHistory := [] |}.

Definition approvedRequest : requestSchema.t :=
  request 50%N "REQ-20251102-0001" requestSchema.Approved.

Definition rejectedRequest : requestSchema.t :=
  request 51%N "REQ-20251102-0002" requestSchema.Rejected.

Definition pendingRequest : requestSchema.t :=
  request 52%N "REQ-20251103-0001" requestSchema.Pending.

(** The rejected request as a handler loaded it before it was rejected. *)
Definition staleRequest : requestSchema.t :=
  request 51%N "REQ-20251102-0002" requestSchema.Pending.

Definition db : DB :=
  {| equipment := {[ 10%N := radio ]};
     equipmentpools := ∅;
     requests := [approvedRequest; rejectedRequest; pendingRequest] |}.

Definition officerUser : OfficerRoutes.User :=
  {| OfficerRoutes._id := officer; OfficerRoutes.designation := "Constable" |}.

(** Two officers ask for the radio at the same moment. *)
Definition envB : Env :=
  {| now := 1762152000000; reading := fun k => 1762152000000 + Z.of_nat k;
     fullYear := 2025; month := 10; dayOfMonth := 3;
     random := "p0d4m7w2c"; findOneFails := false; freshId := 102%N |}.

Definition issueRequest (who : ObjectId) : Request.Init :=
  {| Request.init_requestedBy := who;
     Request.init_equipmentId := Some 10%N;
     Request.init_poolId := None;
     Request.init_poolName := None;
     Request.init_requestType := requestSchema.Issue;
     Request.init_reason := "Night patrol";
     Request.init_priority := Some requestSchema.Medium;
     Request.init_expectedReturnDate := Some 1762670400000 |}.

(** A pool of one radio, open to inspectors. *)
Definition pool : EquipmentPool.t :=
  {| EquipmentPool._id := 20%N;
     EquipmentPool.poolName := "Radios";
     EquipmentPool.category := equipmentSchema.Communication;
     EquipmentPool.model := "XTS-2500";
     EquipmentPool.totalQuantity := 1;
     EquipmentPool.availableCount := 1;
     EquipmentPool.issuedCount := 0;
     EquipmentPool.authorizedDesignations := ["Inspector"] |}.

Definition issuedRadio : equipmentSchema.t :=
  Equipment.setCustody equipmentSchema.Issued
    (Some (equipmentSchema.mkIssuedTo 3%N 1762065600000 1762670400000)) radio.

(** The only radio of the pool is out. *)
Definition exhausted : DB :=
  {| equipment := {[ 10%N := issuedRadio ]};
     equipmentpools := {[ 20%N := pool ]};
     requests := [] |}.


Definition inspector : OfficerRoutes.User :=
  {| OfficerRoutes._id := 3%N; OfficerRoutes.designation := "Inspector" |}.


(** A second radio to be added to the inventory. *)
Definition newRadio : EquipmentRoutes.CreateBody :=
  {| EquipmentRoutes.new_name := " Handheld radio ";
     EquipmentRoutes.new_category := equipmentSchema.Communication;
     EquipmentRoutes.new_model := "XTS-2500";
     EquipmentRoutes.new_serialNumber := " SN-2 ";
     EquipmentRoutes.new_manufacturer := "Motorola";
     EquipmentRoutes.new_purchaseDate := 1735689600000;
     EquipmentRoutes.new_cost := 45000;
     EquipmentRoutes.new_location := "Armoury";
     EquipmentRoutes.new_condition := None;
     EquipmentRoutes.new_notes := None;
     EquipmentRoutes.new_specifications := None;
     EquipmentRoutes.new_warrantyInfo := None |}.

(** The same body with the serial number of the radio in stock. *)
Definition duplicateRadio : EquipmentRoutes.CreateBody :=
  {| EquipmentRoutes.new_name := "Handheld radio";
     EquipmentRoutes.new_category := equipmentSchema.Communication;
     EquipmentRoutes.new_model := "XTS-2500";
     EquipmentRoutes.new_serialNumber := "SN-1  ";
     EquipmentRoutes.new_manufacturer := "Motorola";
     EquipmentRoutes.new_purchaseDate := 1735689600000;
     EquipmentRoutes.new_cost := 45000;
     EquipmentRoutes.new_location := "Armoury";
     EquipmentRoutes.new_condition := None;
     EquipmentRoutes.new_notes := None;
     EquipmentRoutes.new_specifications := None;
     EquipmentRoutes.new_warrantyInfo := None |}.

(** A day on which 9999 requests have been made. *)
Definition busyDay : DB :=
  {| equipment := {[ 10%N := radio ]};
     equipmentpools := ∅;
     requests := [request 60%N "REQ-20251103-9999" requestSchema.Pending] |}.

(** The query of the identifier hook fails. *)
Definition offline : Env :=
  {| now := 1762152000000; reading := fun k => 1762152000000 + Z.of_nat k;
     fullYear := 2025; month := 10; dayOfMonth := 3;
     random := "k3j9x0q1z"; findOneFails := true; freshId := 101%N |}.

Definition handlers : list Concurrent.Task :=
  [ Concurrent.Created env (Request.new env (issueRequest 1%N));
    Concurrent.Created envB (Request.new envB (issueRequest 3%N)) ].

(** The same instant, on a clock that does not advance during a call. *)
Definition instant : Env :=
  {| now := 1762152000000; reading := fun _ => 1762152000000;
     fullYear := 2025; month := 10; dayOfMonth := 3;
     random := "k3j9x0q1z"; findOneFails := false; freshId := 101%N |}.

(** One hour later. *)
Definition later : Env :=
  {| now := 1762155600000; reading := fun k => 1762155600000 + Z.of_nat k;
     fullYear := 2025; month := 10; dayOfMonth := 3;
     random := "t8r2a6v5n"; findOneFails := false; freshId := 103%N |}.

(** A second radio in stock. *)
Definition spareRadio : equipmentSchema.t :=
  {| equipmentSchema._id := 11%N;
     equipmentSchema.name := "Handheld radio";
     equipmentSchema.category := equipmentSchema.Communication;
     equipmentSchema.model := "XTS-2500";
     equipmentSchema.serialNumber := "SN-9";
     equipmentSchema.manufacturer := "Motorola";
     equipmentSchema.purchaseDate := 0;
     equipmentSchema.cost := 45000;
     equipmentSchema.condition := equipmentSchema.Fair;
     equipmentSchema.status := equipmentSchema.Available;
     equipmentSchema.location := "Armoury";
     equipmentSchema.issuedTo := None;
     equipmentSchema.maintenanceHistory := [];
     equipmentSchema.specifications := [];
     equipmentSchema.images := [];
     equipmentSchema.notes := None;
     equipmentSchema.warrantyInfo := equipmentSchema.mkWarrantyInfo None None None;
     equipmentSchema.addedBy := admin;
     equipmentSchema.lastModifiedBy := None;
     equipmentSchema.createdAt := Some 1700000000000;
     equipmentSchema.updatedAt := Some 1700000000000 |}.

Definition twoRadios : DB :=
  {| equipment := {[ 10%N := radio; 11%N := spareRadio ]};
     equipmentpools := ∅;
     requests := [] |}.

(** The no-break space U+00A0, in UTF-8. *)
Definition nbsp : string := String "194" (String "160" "").

(** The body of an update that sets the name to a no-break space. *)
Definition blankName : EquipmentRoutes.UpdateBody :=
  EquipmentRoutes.mkUpdateBody (Some nbsp) None None None None None None None
    None None None.

(** The body of an update that only sets the cost. *)
Definition costOnly (c : Z) : EquipmentRoutes.UpdateBody :=
  EquipmentRoutes.mkUpdateBody None None None None (Some c) None None None
    None None None.

(** [n] copies of [s]. *)
Fixpoint copies (n : nat) (s : string) : string :=
  match n with
  | O => EmptyString
  | S k => s ++ copies k s
  end.

(** The euro sign U+20AC: three bytes, one code unit. *)
Definition euro : string := String "226" (String "130" (String "172" "")).

(** A character of two code units (U+1F46E, a police officer), and 51
    of them: 102 code units. *)
Definition officerBadge : string :=
  String "240" (String "159" (String "145" (String "174" ""))).

Definition badges : string := copies 51 officerBadge.

(** The body of an update that sets the name to [badges]. *)
Definition badgesName : EquipmentRoutes.UpdateBody :=
  EquipmentRoutes.mkUpdateBody (Some badges) None None None None None None None
    None None None.

(** A radio with a negative cost. *)
Definition negativeCost : EquipmentRoutes.CreateBody :=
  {| EquipmentRoutes.new_name := "Handheld radio";
     EquipmentRoutes.new_category := equipmentSchema.Communication;
     EquipmentRoutes.new_model := "XTS-2500";
     EquipmentRoutes.new_serialNumber := "SN-3";
     EquipmentRoutes.new_manufacturer := "Motorola";
     EquipmentRoutes.new_purchaseDate := 1735689600000;
     EquipmentRoutes.new_cost := -5;
     EquipmentRoutes.new_location := "Armoury";
     EquipmentRoutes.new_condition := None;
     EquipmentRoutes.new_notes := None;
     EquipmentRoutes.new_specifications := None;
     EquipmentRoutes.new_warrantyInfo := None |}.

(** A radio whose model is a no-break space. *)
Definition blankModel : EquipmentRoutes.CreateBody :=
  {| EquipmentRoutes.new_name := "Handheld radio";
     EquipmentRoutes.new_category := equipmentSchema.Communication;
     EquipmentRoutes.new_model := nbsp;
     EquipmentRoutes.new_serialNumber := "SN-3";
     EquipmentRoutes.new_manufacturer := "Motorola";
     EquipmentRoutes.new_purchaseDate := 1735689600000;
     EquipmentRoutes.new_cost := 45000;
     EquipmentRoutes.new_location := "Armoury";
     EquipmentRoutes.new_condition := None;
     EquipmentRoutes.new_notes := None;
     EquipmentRoutes.new_specifications := None;
     EquipmentRoutes.new_warrantyInfo := None |}.

(** The body of an update that only sets the status. *)
Definition statusOnly (s : equipmentSchema.Status) : EquipmentRoutes.UpdateBody :=
  EquipmentRoutes.mkUpdateBody None None None None None None None (Some s)
    None None None.

End Sample.

(** * Properties *)

(** ** Equipment: issue, return, update, age *)
Section EquipmentFacts.

Import equipmentSchema.

Lemma Status_eqb_eq (a b : Status) : Status_eqb a b = true <-> a = b.
Proof. destruct a, b; simpl; split; intros H; try reflexivity; discriminate. Qed.

Lemma Status_eqb_neq (a b : Status) : Status_eqb a b = false <-> a <> b.
Proof. destruct a, b; simpl; split; intros H; congruence. Qed.

Lemma setCustody_status s c e : status (Equipment.setCustody s c e) = s.
Proof. reflexivity. Qed.

Lemma setCustody_issuedTo s c e : issuedTo (Equipment.setCustody s c e) = c.
Proof. reflexivity. Qed.

Lemma setCustody_id s c e : _id (Equipment.setCustody s c e) = _id e.
Proof. reflexivity. Qed.

Lemma validate_setCustody s c e :
  Equipment.validate (Equipment.setCustody s c e) = Equipment.validate e.
Proof. reflexivity. Qed.

(** The stamp of the save in [issueToUser]: the reading that follows
    those of the method. *)
Local Abbreviation issueStamp env expected :=
  (match expected : option Date with
   | Some _ => reading env 1
   | None => reading env 2
   end).

(** The custody block that [issueToUser] assigns. *)
Local Abbreviation custodyBlock env uid expected :=
  {| userId := uid;
     issuedDate := now env;
     expectedReturnDate := orElse expected (reading env 1 + 30 * Equipment.msPerDay) |}.

(** A save succeeds exactly on a valid document whose [_id] is stored. *)
Lemma equipment_save_inr stamp db e db' e' :
  Equipment.save stamp db e = inr (db', e') ->
  Equipment.validate e = None
  /\ exists stored,
       equipment db !! _id e = Some stored
       /\ e' = Equipment.setUpdatedAt stamp e
       /\ db' = withEquipment db
                  (<[_id e := Equipment.writeCustody stamp e stored]> (equipment db)).
Proof.
  unfold Equipment.save.
  destruct (Equipment.validate e); [discriminate|].
  destruct (equipment db !! _id e) as [stored|]; [|discriminate].
  intros H. injection H as <- <-. split; [reflexivity|]. exists stored. auto.
Qed.

Lemma equipment_save_stored stamp db e :
  Equipment.validate e = None ->
  forall stored, equipment db !! _id e = Some stored ->
  Equipment.save stamp db e
  = inr (withEquipment db
           (<[_id e := Equipment.writeCustody stamp e stored]> (equipment db)),
         Equipment.setUpdatedAt stamp e).
Proof. intros Hv stored Hs. unfold Equipment.save. rewrite Hv, Hs. reflexivity. Qed.

(** What a successful issue returns and writes. *)
Lemma issueToUser_inr env db uid expected e db' e' :
  Equipment.issueToUser env db uid expected e = inr (db', e') ->
  status e = Available
  /\ Equipment.validate e = None
  /\ exists stored,
       equipment db !! _id e = Some stored
       /\ e' = Equipment.setUpdatedAt (issueStamp env expected)
                 (Equipment.setCustody Issued
                    (Some (custodyBlock env uid expected)) e)
       /\ db' = withEquipment db
                  (<[_id e := Equipment.writeCustody (issueStamp env expected)
                                e' stored]> (equipment db)).
Proof.
  unfold Equipment.issueToUser.
  destruct (Status_eqb (status e) Available) eqn:Hs; simpl; [|discriminate].
  intros H. apply equipment_save_inr in H as (Hv & stored & Hst & -> & ->).
  apply Status_eqb_eq in Hs. split; [exact Hs|]. split; [exact Hv|].
  exists stored. split; [exact Hst|]. split; reflexivity.
Qed.

(** What a successful return returns and writes. *)
Lemma returnFromUser_inr env db e db' e' :
  Equipment.returnFromUser env db e = inr (db', e') ->
  status e = Issued
  /\ Equipment.validate e = None
  /\ exists stored,
       equipment db !! _id e = Some stored
       /\ e' = Equipment.setUpdatedAt (now env)
                 (Equipment.setCustody Available None e)
       /\ db' = withEquipment db
                  (<[_id e := Equipment.writeCustody (now env) e' stored]>
                     (equipment db)).
Proof.
  unfold Equipment.returnFromUser.
  destruct (Status_eqb (status e) Issued) eqn:Hs; simpl; [|discriminate].
  intros H. apply equipment_save_inr in H as (Hv & stored & Hst & -> & ->).
  apply Status_eqb_eq in Hs. split; [exact Hs|]. split; [exact Hv|].
  exists stored. split; [exact Hst|]. split; reflexivity.
Qed.

(** On the stored document itself the update gives the document in
    memory. *)
Lemma writeCustody_fresh stamp s c e :
  Equipment.writeCustody stamp (Equipment.setCustody s c e) e
  = Equipment.setUpdatedAt stamp (Equipment.setCustody s c e).
Proof. reflexivity. Qed.

(** The issue of a stored, valid, Available document. *)
Lemma issueToUser_stored env db uid expected e :
  equipment db !! _id e = Some e ->
  Equipment.validate e = None ->
  status e = Available ->
  let e' := Equipment.setUpdatedAt (issueStamp env expected)
              (Equipment.setCustody Issued (Some (custodyBlock env uid expected)) e) in
  Equipment.issueToUser env db uid expected e
  = inr (withEquipment db (<[_id e := e']> (equipment db)), e').
Proof.
  intros Hst Hv Hs e'. unfold Equipment.issueToUser. rewrite Hs. cbn [Status_eqb negb].
  unfold Equipment.save. rewrite validate_setCustody, Hv.
  cbn [_id Equipment.setCustody]. rewrite Hst. reflexivity.
Qed.

(** The return of a stored, valid, Issued document. *)
Lemma returnFromUser_stored env db e :
  equipment db !! _id e = Some e ->
  Equipment.validate e = None ->
  status e = Issued ->
  let e' := Equipment.setUpdatedAt (now env) (Equipment.setCustody Available None e) in
  Equipment.returnFromUser env db e
  = inr (withEquipment db (<[_id e := e']> (equipment db)), e').
Proof.
  intros Hst Hv Hs e'. unfold Equipment.returnFromUser. rewrite Hs. cbn [Status_eqb negb].
  unfold Equipment.save. rewrite validate_setCustody, Hv.
  cbn [_id Equipment.setCustody]. rewrite Hst. reflexivity.
Qed.

(** When the clock advances by one millisecond between the two readings
    of [issueToUser], the default return date is not the issue date plus
    30 days. *)
Lemma default_return_date_follows_second_reading :
  exists db' e' c,
    Equipment.issueToUser Sample.env Sample.db Sample.officer None Sample.radio
    = inr (db', e')
    /\ issuedTo e' = Some c
    /\ issuedDate c = 1762152000000
    /\ expectedReturnDate c = 1764744000001
    /\ expectedReturnDate c <> issuedDate c + 30 * Equipment.msPerDay.
Proof.
  eexists _, _, _. split; [reflexivity|]. split; [reflexivity|].
  split; [reflexivity|]. split; [reflexivity|]. discriminate.
Qed.

(** C6: on a record of the collection, that is a stored document that
    satisfies the schema, [issueToUser] succeeds exactly when the status
    is Available, and otherwise throws and writes nothing. On success
    the status is Issued and the custody block holds the user, the
    instant the clock first shows as issue date, and as expected return
    date the one given or, when it is omitted, 30 days after the next
    reading of the clock, which is the issue date plus 30 days when the
    two readings show the same instant; the stored record is the
    returned one and no other record is written. *)
Theorem issueToUser_exactly_when_available :
  forall (env : Env) (db : DB) (uid : ObjectId) (expected : option Date) (e : t),
    equipment db !! _id e = Some e ->
    Equipment.validate e = None ->
    (status e = Available ->
     exists db' e',
       Equipment.issueToUser env db uid expected e = inr (db', e')
       /\ status e' = Issued
       /\ issuedTo e' =
            Some {| userId := uid;
                    issuedDate := now env;
                    expectedReturnDate :=
                      match expected with
                      | Some d => d
                      | None => reading env 1 + 30 * Equipment.msPerDay
                      end |}
       /\ (expected = None -> reading env 1 = now env ->
           issuedTo e' =
             Some {| userId := uid;
                     issuedDate := now env;
                     expectedReturnDate := now env + 30 * Equipment.msPerDay |})
       /\ equipment db' !! _id e = Some e'
       /\ (forall k, k <> _id e -> equipment db' !! k = equipment db !! k))
    /\ (status e <> Available ->
        Equipment.issueToUser env db uid expected e
        = inl (Error "Equipment is not available for issue"))
    /\ (forall db' e',
          Equipment.issueToUser env db uid expected e = inr (db', e') ->
          status e = Available).
Proof.
  intros env db uid expected e Hst Hv. split; [|split].
  - intros Hs. rewrite (issueToUser_stored env db uid expected e Hst Hv Hs).
    eexists _, _. split; [reflexivity|]. cbn [status issuedTo Equipment.setUpdatedAt
      Equipment.setCustody equipment withEquipment].
    split; [reflexivity|]. split; [destruct expected; reflexivity|]. split.
    + intros -> ->. reflexivity.
    + split; [apply lookup_insert_eq|].
      intros k Hk. apply lookup_insert_ne. congruence.
  - intros Hs. unfold Equipment.issueToUser.
    apply Status_eqb_neq in Hs. rewrite Hs. reflexivity.
  - intros db' e' H. apply issueToUser_inr in H as (Hs & _). exact Hs.
Qed.

Lemma sample_radio_valid : Equipment.validate Sample.radio = None.
Proof. reflexivity. Qed.

Lemma sample_radio_stored : equipment Sample.db !! _id Sample.radio = Some Sample.radio.
Proof. apply lookup_singleton_eq. Qed.

Lemma issueToUser_exactly_when_available_witness :
  (exists db' e',
      Equipment.issueToUser Sample.instant Sample.db Sample.officer None Sample.radio
      = inr (db', e')
      /\ status e' = Issued
      /\ issuedTo e' = Some (mkIssuedTo Sample.officer 1762152000000 1764744000000)
      /\ equipment db' !! 10%N = Some e')
  /\ (exists db' e',
        Equipment.issueToUser Sample.env Sample.db Sample.officer
          (Some 1762670400000) Sample.radio
        = inr (db', e')
        /\ issuedTo e' = Some (mkIssuedTo Sample.officer 1762152000000 1762670400000))
  /\ Equipment.issueToUser Sample.env Sample.exhausted Sample.officer None
       Sample.issuedRadio
     = inl (Error "Equipment is not available for issue").
Proof.
  split; [|split].
  - destruct (proj1 (issueToUser_exactly_when_available
                       Sample.instant Sample.db Sample.officer None Sample.radio
                       sample_radio_stored sample_radio_valid) eq_refl)
      as (db' & e' & H & Hs & _ & Hc & Hl & _).
    exists db', e'. split; [exact H|]. split; [exact Hs|].
    split; [exact (Hc eq_refl eq_refl)|exact Hl].
  - destruct (proj1 (issueToUser_exactly_when_available
                       Sample.env Sample.db Sample.officer (Some 1762670400000)
                       Sample.radio sample_radio_stored sample_radio_valid) eq_refl)
      as (db' & e' & H & _ & Hc & _).
    exists db', e'. split; [exact H|exact Hc].
  - apply (proj1 (proj2 (issueToUser_exactly_when_available
                           Sample.env Sample.exhausted Sample.officer None
                           Sample.issuedRadio (lookup_singleton_eq _ _) eq_refl))).
    simpl. discriminate.
Defined.

(** The round trip on the sample radio changes its stamp [updatedAt]. *)
Lemma round_trip_changes_updatedAt :
  exists db1 e1 db2 e2,
    Equipment.issueToUser Sample.env Sample.db Sample.officer None Sample.radio
    = inr (db1, e1)
    /\ Equipment.returnFromUser Sample.later db1 e1 = inr (db2, e2)
    /\ equipment db2 !! 10%N = Some e2
    /\ updatedAt Sample.radio = Some 1700000000000
    /\ updatedAt e2 = Some 1762155600000.
Proof.
  eexists _, _, _, _. split; [reflexivity|]. split; [reflexivity|].
  split; [apply lookup_insert_eq|]. split; reflexivity.
Qed.

(** C7: on an Available record of the collection, [issueToUser] followed
    by [returnFromUser] succeeds; after the issue the record is Issued
    to the given user, and after the return it is Available with the
    custody block cleared and every path that the schema declares as it
    was before the issue. Of the two stamps of Mongoose, [createdAt] is
    kept and [updatedAt] shows the instant of the return; no other
    record is written. *)
Theorem issue_then_return_round_trip :
  forall (env env' : Env) (db : DB) (uid : ObjectId) (expected : option Date) (e : t),
    equipment db !! _id e = Some e ->
    Equipment.validate e = None ->
    status e = Available ->
    exists db1 e1 db2 e2,
      Equipment.issueToUser env db uid expected e = inr (db1, e1)
      /\ status e1 = Issued
      /\ option_map userId (issuedTo e1) = Some uid
      /\ equipment db1 !! _id e = Some e1
      /\ Equipment.returnFromUser env' db1 e1 = inr (db2, e2)
      /\ status e2 = Available
      /\ issuedTo e2 = None
      /\ (_id e2 = _id e /\ name e2 = name e /\ category e2 = category e
          /\ model e2 = model e /\ serialNumber e2 = serialNumber e
          /\ manufacturer e2 = manufacturer e /\ purchaseDate e2 = purchaseDate e
          /\ cost e2 = cost e /\ condition e2 = condition e
          /\ location e2 = location e
          /\ maintenanceHistory e2 = maintenanceHistory e
          /\ specifications e2 = specifications e /\ images e2 = images e
          /\ notes e2 = notes e /\ warrantyInfo e2 = warrantyInfo e
          /\ addedBy e2 = addedBy e /\ lastModifiedBy e2 = lastModifiedBy e
          /\ createdAt e2 = createdAt e)
      /\ updatedAt e2 = Some (now env')
      /\ (issuedTo e = None -> e2 = Equipment.setUpdatedAt (now env') e)
      /\ equipment db2 !! _id e = Some e2
      /\ (forall k, k <> _id e -> equipment db2 !! k = equipment db !! k).
Proof.
  intros env env' db uid expected e Hst Hv Hs.
  rewrite (issueToUser_stored env db uid expected e Hst Hv Hs).
  set (e1 := Equipment.setUpdatedAt _ (Equipment.setCustody Issued _ e)).
  set (db1 := withEquipment db (<[_id e := e1]> (equipment db))).
  assert (Hst1 : equipment db1 !! _id e1 = Some e1) by apply lookup_insert_eq.
  exists db1, e1. eexists _, _. split; [reflexivity|].
  split; [reflexivity|]. split; [reflexivity|]. split; [exact Hst1|].
  rewrite (returnFromUser_stored env' db1 e1 Hst1 Hv eq_refl).
  split; [reflexivity|].
  cbn [status issuedTo Equipment.setUpdatedAt Equipment.setCustody
       equipment withEquipment _id updatedAt].
  split; [reflexivity|]. split; [reflexivity|].
  split; [repeat match goal with |- _ /\ _ => split end; reflexivity|].
  split; [reflexivity|]. split.
  - intros Hc. destruct e; simpl in *. subst. reflexivity.
  - subst db1. cbn [equipment withEquipment]. split.
    + change (_id e1) with (_id e). apply lookup_insert_eq.
    + intros k Hk. change (_id e1) with (_id e).
      rewrite !lookup_insert_ne by congruence. reflexivity.
Qed.

Lemma issue_then_return_round_trip_witness :
  exists db1 e1 db2 e2,
    Equipment.issueToUser Sample.env Sample.db Sample.officer None Sample.radio
    = inr (db1, e1)
    /\ Equipment.returnFromUser Sample.later db1 e1 = inr (db2, e2)
    /\ e2 = Equipment.setUpdatedAt 1762155600000 Sample.radio
    /\ equipment db2 !! 10%N = Some e2.
Proof.
  destruct (issue_then_return_round_trip Sample.env Sample.later Sample.db
              Sample.officer None Sample.radio sample_radio_stored
              sample_radio_valid eq_refl)
    as (db1 & e1 & db2 & e2 & H1 & _ & _ & _ & H2 & _ & _ & _ & _ & H3 & H4 & _).
  exists db1, e1, db2, e2. split; [exact H1|]. split; [exact H2|].
  split; [apply H3; reflexivity|exact H4].
Defined.

(** *** The custody invariant *)

Lemma custodyInvariant_setCustody_Issued c e :
  Equipment.custodyInvariant (Equipment.setCustody Issued (Some c) e).
Proof. unfold Equipment.custodyInvariant. simpl. split; intros; congruence. Qed.

Lemma custodyInvariant_setCustody_Available e :
  Equipment.custodyInvariant (Equipment.setCustody Available None e).
Proof. unfold Equipment.custodyInvariant. simpl. split; intros; congruence. Qed.

(** The invariant reads [status] and [issuedTo] only, the two paths that
    the update of a save takes from the document in memory. *)
Lemma custodyInvariant_writeCustody stamp e stored :
  Equipment.custodyInvariant e ->
  Equipment.custodyInvariant (Equipment.writeCustody stamp e stored).
Proof. intros H. exact H. Qed.

Lemma custodyInvariant_setUpdatedAt stamp e :
  Equipment.custodyInvariant e ->
  Equipment.custodyInvariant (Equipment.setUpdatedAt stamp e).
Proof. intros H. exact H. Qed.

Lemma custodyConsistent_insert db i e :
  Equipment.custodyConsistent db ->
  Equipment.custodyInvariant e ->
  Equipment.custodyConsistent (withEquipment db (<[i := e]> (equipment db))).
Proof.
  intros Hdb He j x. simpl. rewrite lookup_insert.
  destruct (decide (i = j)) as [->|Hne]; simpl.
  - intros [= <-]. exact He.
  - apply Hdb.
Qed.

Lemma sample_db_consistent : Equipment.custodyConsistent Sample.db.
Proof.
  intros i x H. simpl in H. apply lookup_singleton_Some in H as [_ <-].
  unfold Equipment.custodyInvariant. simpl. split; intros; congruence.
Qed.

(** An update that sets the status to Issued writes no custody block. *)
Lemma update_breaks_custody_invariant :
  Equipment.custodyConsistent Sample.db
  /\ exists db' e',
       EquipmentRoutes.update Sample.env Sample.db Sample.admin 10%N
         (Sample.statusOnly Issued)
       = (ok 200 "Equipment updated successfully", db')
       /\ equipment db' !! 10%N = Some e'
       /\ status e' = Issued
       /\ issuedTo e' = None
       /\ ~ Equipment.custodyInvariant e'.
Proof.
  split; [exact sample_db_consistent|].
  eexists _, _. split; [reflexivity|].
  split; [apply lookup_insert_eq|].
  split; [reflexivity|]. split; [reflexivity|].
  unfold Equipment.custodyInvariant. simpl. intros [H _].
  apply H; reflexivity.
Qed.

(** C3: the custody invariant holds on the document that a successful
    [issueToUser] or [returnFromUser] returns, whatever held before; the
    issue route, the return route, and an update whose body leaves the
    status out or keeps the item on the same side of Issued, keep the
    invariant on the whole collection. *)
Theorem custody_invariant_preserved :
  forall (env : Env) (db : DB) (id : ObjectId),
    Equipment.custodyConsistent db ->
    (forall uid expected e db' e',
        Equipment.issueToUser env db uid expected e = inr (db', e') ->
        Equipment.custodyInvariant e' /\ Equipment.custodyConsistent db')
    /\ (forall e db' e',
          Equipment.returnFromUser env db e = inr (db', e') ->
          Equipment.custodyInvariant e' /\ Equipment.custodyConsistent db')
    /\ (forall uid expected,
          Equipment.custodyConsistent
            (snd (EquipmentRoutes.issue env db id uid expected)))
    /\ Equipment.custodyConsistent (snd (EquipmentRoutes.return_ env db id))
    /\ (forall admin body,
          (forall e s,
              equipment db !! id = Some e ->
              EquipmentRoutes.status body = Some s ->
              (s = Issued <-> status e = Issued)) ->
          Equipment.custodyConsistent
            (snd (EquipmentRoutes.update env db admin id body))).
Proof.
  intros env db id Hdb.
  assert (Hissue : forall uid expected e db' e',
             Equipment.issueToUser env db uid expected e = inr (db', e') ->
             Equipment.custodyInvariant e' /\ Equipment.custodyConsistent db').
  { intros uid expected e db' e' H.
    apply issueToUser_inr in H as (_ & _ & stored & _ & -> & ->).
    split; [apply custodyInvariant_setCustody_Issued|].
    apply custodyConsistent_insert; [exact Hdb|].
    apply custodyInvariant_setCustody_Issued. }
  assert (Hreturn : forall e db' e',
             Equipment.returnFromUser env db e = inr (db', e') ->
             Equipment.custodyInvariant e' /\ Equipment.custodyConsistent db').
  { intros e db' e' H.
    apply returnFromUser_inr in H as (_ & _ & stored & _ & -> & ->).
    split; [apply custodyInvariant_setCustody_Available|].
    apply custodyConsistent_insert; [exact Hdb|].
    apply custodyInvariant_setCustody_Available. }
  split; [exact Hissue|]. split; [exact Hreturn|].
  split; [|split].
  - intros uid expected. unfold EquipmentRoutes.issue.
    destruct (equipment db !! id) as [e|]; [|exact Hdb].
    destruct (Equipment.issueToUser env db uid expected e) as [err|[db' e']] eqn:H;
      [exact Hdb|].
    simpl. eapply Hissue, H.
  - unfold EquipmentRoutes.return_.
    destruct (equipment db !! id) as [e|]; [|exact Hdb].
    destruct (Equipment.returnFromUser env db e) as [err|[db' e']] eqn:H;
      [exact Hdb|].
    simpl. eapply Hreturn, H.
  - intros admin body Hside. unfold EquipmentRoutes.update.
    destruct (negb _); [exact Hdb|].
    destruct (equipment db !! id) as [e|] eqn:He; [|exact Hdb].
    destruct (negb _); [exact Hdb|].
    simpl. apply custodyConsistent_insert; [exact Hdb|].
    specialize (Hdb _ _ He). unfold Equipment.custodyInvariant in *. simpl.
    destruct (EquipmentRoutes.status body) as [s|] eqn:Hb; simpl.
    + rewrite (Hside e s eq_refl eq_refl). exact Hdb.
    + exact Hdb.
Qed.

Lemma custody_invariant_preserved_witness :
  Equipment.custodyConsistent
    (snd (EquipmentRoutes.issue Sample.env Sample.db 10%N Sample.officer None))
  /\ Equipment.custodyConsistent
       (snd (EquipmentRoutes.update Sample.env Sample.db Sample.admin 10%N
               (Sample.statusOnly Retired))).
Proof.
  destruct (custody_invariant_preserved Sample.env Sample.db 10%N
              sample_db_consistent) as (_ & _ & Hi & _ & Hu).
  split; [apply Hi|]. apply Hu.
  intros e s He Hs. simpl in He. apply lookup_singleton_Some in He as [_ <-].
  injection Hs as <-. simpl. split; discriminate.
Defined.

(** *** The age of an item *)

Lemma ceilDiv_bounds (a b : Z) :
  0 < b -> (JS.ceilDiv a b - 1) * b < a <= JS.ceilDiv a b * b.
Proof.
  intros Hb. unfold JS.ceilDiv.
  pose proof (Z.div_mod (- a) b ltac:(lia)) as Hdm.
  pose proof (Z.mod_pos_bound (- a) b Hb) as Hm.
  nia.
Qed.

Lemma ceilDiv_le_iff (a b n : Z) : 0 < b -> (JS.ceilDiv a b <= n <-> a <= n * b).
Proof. intros Hb. pose proof (ceilDiv_bounds a b Hb). split; intros; nia. Qed.

Lemma ceilDiv_exact (n b : Z) : 0 < b -> JS.ceilDiv (n * b) b = n.
Proof. intros Hb. pose proof (ceilDiv_bounds (n * b) b Hb). nia. Qed.

(** 364 days and one millisecond after the purchase the age is already 1. *)
Lemma age_one_before_a_full_year :
  let today := purchaseDate Sample.radio + 364 * Equipment.msPerDay + 1 in
  today - purchaseDate Sample.radio < 365 * Equipment.msPerDay
  /\ Equipment.age today Sample.radio = 1.
Proof. split; reflexivity. Qed.

(** C9: with the time between the purchase and today taken in absolute
    value, [age] is the number of started days divided by 365, rounded
    down: it is [k] exactly when more than [365 k - 1] and at most
    [365 k + 364] days have elapsed, so it is 0 exactly up to 364 days;
    when a whole number [n] of days has elapsed it is the floor of
    [n / 365]. *)
Theorem age_counts_started_days :
  forall (today : Date) (e : t),
    let elapsed := Z.abs (today - purchaseDate e) in
    (forall k : Z,
        0 <= k ->
        (Equipment.age today e = k <->
         (365 * k - 1) * Equipment.msPerDay < elapsed
         <= (365 * k + 364) * Equipment.msPerDay))
    /\ (Equipment.age today e = 0 <-> elapsed <= 364 * Equipment.msPerDay)
    /\ (forall n : Z, elapsed = n * Equipment.msPerDay -> Equipment.age today e = n / 365).
Proof.
  intros today e elapsed.
  assert (Hday : 0 < Equipment.msPerDay) by reflexivity.
  assert (Hel : 0 <= elapsed) by apply Z.abs_nonneg.
  pose proof (ceilDiv_bounds elapsed Equipment.msPerDay Hday) as Hc.
  assert (Hk : forall k : Z,
             0 <= k ->
             (Equipment.age today e = k <->
              (365 * k - 1) * Equipment.msPerDay < elapsed
              <= (365 * k + 364) * Equipment.msPerDay)).
  { intros k Hk. unfold Equipment.age. fold elapsed.
    set (c := JS.ceilDiv elapsed Equipment.msPerDay) in *.
    pose proof (Z.div_mod c 365 ltac:(lia)) as Hdm.
    pose proof (Z.mod_pos_bound c 365 ltac:(lia)) as Hm.
    split.
    - intros Hq. rewrite Hq in Hdm. nia.
    - intros [Hlo Hhi].
      assert (365 * k <= c <= 365 * k + 364) by nia.
      symmetry. apply Z.div_unique with (r := c - 365 * k); lia. }
  split; [exact Hk|]. split.
  - rewrite (Hk 0 ltac:(lia)). lia.
  - intros n Hn. unfold Equipment.age. fold elapsed.
    rewrite Hn, ceilDiv_exact by exact Hday. reflexivity.
Qed.

Lemma age_counts_started_days_witness :
  Equipment.age (364 * Equipment.msPerDay) Sample.radio = 0
  /\ Equipment.age (730 * Equipment.msPerDay) Sample.radio = 2.
Proof.
  destruct (age_counts_started_days (364 * Equipment.msPerDay) Sample.radio)
    as (_ & H0 & _).
  destruct (age_counts_started_days (730 * Equipment.msPerDay) Sample.radio)
    as (_ & _ & Hn).
  split.
  - apply H0. vm_compute. discriminate.
  - apply (Hn 730). reflexivity.
Defined.

End EquipmentFacts.

(** ** Requests: saving, the life cycle, the history *)
Section RequestFacts.

Import requestSchema.
Local Open Scope string_scope.

Lemma Request_Status_eqb_eq (a b : Status) : Status_eqb a b = true <-> a = b.
Proof. destruct a, b; simpl; split; intros H; try reflexivity; discriminate. Qed.

Lemma Request_Status_eqb_neq (a b : Status) : Status_eqb a b = false <-> a <> b.
Proof. destruct a, b; simpl; split; intros H; congruence. Qed.

(** Validation reads five paths only. *)
Lemma validate_agree (r r' : t) :
  Request.validate r = None ->
  equipmentId r' = equipmentId r ->
  requestType r' = requestType r ->
  expectedReturnDate r' = expectedReturnDate r ->
  reason r' = reason r ->
  (JS.length (orElse (adminNotes r') "") <= 500)%nat ->
  Request.validate r' = None.
Proof.
  unfold Request.validate. intros H -> -> -> -> Hn.
  destruct (negb _); [discriminate|].
  destruct (_ && _); [discriminate|].
  destruct (_ || _); [discriminate|].
  destruct (500 <? JS.length (orElse (adminNotes r') ""))%nat eqn:Hlen;
    [|reflexivity].
  apply Nat.ltb_lt in Hlen. lia.
Qed.

Lemma validate_notes_fit (r : t) :
  Request.validate r = None ->
  (JS.length (orElse (adminNotes r) "") <= 500)%nat.
Proof.
  unfold Request.validate. intros H.
  destruct (negb _); [discriminate|].
  destruct (_ && _); [discriminate|].
  destruct (_ || _); [discriminate|].
  destruct (500 <? JS.length (orElse (adminNotes r) ""))%nat eqn:Hlen;
    [discriminate|].
  apply Nat.ltb_ge in Hlen. exact Hlen.
Qed.

(** The unique index reads [_id] and [requestId] only. *)
Lemma duplicateKey_agree (rs : list t) (r r' : t) :
  _id r' = _id r -> requestId r' = requestId r ->
  Request.duplicateKey rs r' = Request.duplicateKey rs r.
Proof. unfold Request.duplicateKey. intros -> ->. reflexivity. Qed.

(** *** Modified paths *)

Lemma same_N_eq (x y : option N) : Request.same N.eqb x y = true -> x = y.
Proof.
  destruct x, y; simpl; intros H; try discriminate; try reflexivity.
  apply N.eqb_eq in H. congruence.
Qed.

Lemma same_Z_eq (x y : option Z) : Request.same Z.eqb x y = true -> x = y.
Proof.
  destruct x, y; simpl; intros H; try discriminate; try reflexivity.
  apply Z.eqb_eq in H. congruence.
Qed.

Lemma same_string_eq (x y : option string) :
  Request.same String.eqb x y = true -> x = y.
Proof.
  destruct x, y; simpl; intros H; try discriminate; try reflexivity.
  apply String.eqb_eq in H. congruence.
Qed.

(** A path is modified after a series of assignments when it was
    before, or when one of the assignments is to this path and changes
    its value (or the document is new). *)
Lemma isModified_touch (p : Request.Path) (d : Request.Doc)
    (assignments : list (Request.Path * bool)) :
  List.existsb (Request.Path_eqb p) (Request.touch d assignments)
  = Request.isModified p d
    || List.existsb
         (fun a => Request.Path_eqb p (fst a) && (Request.isNew d || snd a))
         assignments.
Proof.
  unfold Request.touch, Request.isModified. rewrite List.existsb_app. f_equal.
  induction assignments as [|a rest IH]; [reflexivity|].
  cbn [List.filter List.existsb]. destruct (Request.isNew d || snd a); simpl.
  - rewrite IH, andb_true_r. reflexivity.
  - rewrite IH, andb_false_r. reflexivity.
Qed.

(** *** The identifier hook *)

(** The identifier hook writes [requestId] only, and gives every
    document an identifier. *)
Lemma generateRequestId_keeps env found (r : t) :
  let r' := Request.generateRequestId env found r in
  JS.truthy (requestId r') = true
  /\ (JS.truthy (requestId r) = true -> r' = r)
  /\ _id r' = _id r /\ requestedBy r' = requestedBy r
  /\ equipmentId r' = equipmentId r /\ requestType r' = requestType r
  /\ status r' = status r /\ priority r' = priority r
  /\ requestedDate r' = requestedDate r
  /\ expectedReturnDate r' = expectedReturnDate r /\ reason r' = reason r
  /\ adminNotes r' = adminNotes r /\ processedBy r' = processedBy r
  /\ statusHistory r' = statusHistory r.
Proof.
  unfold Request.generateRequestId.
  destruct (JS.truthy (requestId r)) eqn:Hid; simpl.
  - repeat split; auto.
  - destruct found; simpl;
      (split; [reflexivity|]); (split; [discriminate|]); repeat split.
Qed.

Lemma generateRequestId_statusHistory env found (r : t) :
  statusHistory (Request.generateRequestId env found r) = statusHistory r.
Proof. apply generateRequestId_keeps. Qed.

Lemma validate_generateRequestId env found (r : t) :
  Request.validate (Request.generateRequestId env found r) = Request.validate r.
Proof.
  unfold Request.generateRequestId.
  destruct (negb _); [|reflexivity]. destruct found; reflexivity.
Qed.

(** A document that carries an identifier passes the identifier hook
    unchanged. *)
Lemma preValidate_identified env db (d : Request.Doc) :
  JS.truthy (requestId (Request.this d)) = true ->
  Request.preValidate env db d = d.
Proof.
  intros H. unfold Request.preValidate, Request.generateRequestId, Request.touch.
  rewrite H. destruct d as [r new m]. cbn. rewrite app_nil_r. reflexivity.
Qed.

(** The hook keeps the flags of the document, and modifies [requestId]
    exactly when it assigns it. *)
Lemma preValidate_flags env db (d : Request.Doc) :
  Request.isNew (Request.preValidate env db d) = Request.isNew d
  /\ (forall p, p <> Request.requestIdPath ->
                Request.isModified p (Request.preValidate env db d)
                = Request.isModified p d)
  /\ Request.isModified Request.requestIdPath (Request.preValidate env db d)
     = Request.isModified Request.requestIdPath d
       || negb (JS.truthy (requestId (Request.this d))).
Proof.
  split; [reflexivity|].
  unfold Request.isModified at 1 3. unfold Request.preValidate.
  cbn [Request.modified]. split.
  - intros p Hp. rewrite isModified_touch.
    destruct (JS.truthy _); cbn [List.existsb fst snd].
    + apply orb_false_r.
    + destruct p; try congruence; cbn; apply orb_false_r.
  - rewrite isModified_touch.
    destruct (JS.truthy _); cbn [List.existsb fst snd Request.Path_eqb negb];
      [reflexivity|].
    rewrite orb_true_r. cbn. reflexivity.
Qed.

(** *** What a save does *)

Lemma preSave_this env (d : Request.Doc) :
  Request.this (Request.preSave env d)
  = {| _id := _id (Request.this d); requestId := requestId (Request.this d);
       requestedBy := requestedBy (Request.this d);
       equipmentId := equipmentId (Request.this d);
       requestType := requestType (Request.this d);
       status := status (Request.this d); priority := priority (Request.this d);
       requestedDate := requestedDate (Request.this d);
       expectedReturnDate := expectedReturnDate (Request.this d);
       reason := reason (Request.this d);
       adminNotes := adminNotes (Request.this d);
       processedBy := processedBy (Request.this d);
       processedDate := processedDate (Request.this d);
       approvedDate := approvedDate (Request.this d);
       completedDate := completedDate (Request.this d);
       attachments := attachments (Request.this d);
       statusHistory := (statusHistory (Request.this d) ++ Request.pushed env d)%list |}.
Proof.
  unfold Request.preSave, Request.pushed.
  destruct (_ && _); [reflexivity|].
  destruct d as [[] ? ?]; cbn. rewrite app_nil_r. reflexivity.
Qed.

Lemma holds_In (id : ObjectId) (rs : list t) :
  Request.holds id rs = true <-> exists x, In x rs /\ _id x = id.
Proof.
  unfold Request.holds. rewrite List.existsb_exists. split.
  - intros (x & Hx & He). apply N.eqb_eq in He. eauto.
  - intros (x & Hx & He). exists x. split; [exact Hx|]. apply N.eqb_eq, He.
Qed.

(** What a successful [save] has done: the document passed validation
    with its identifier; a new document was inserted last; for a loaded
    document the stored documents of its [_id], of which there is one,
    received the update. Nothing but the requests is written. *)
Lemma save_inr env db (d : Request.Doc) db' d' :
  Request.save env db d = inr (db', d') ->
  let d1 := Request.preValidate env db d in
  Request.validate (Request.this d1) = None
  /\ Request.this d' = Request.this (Request.preSave env d1)
  /\ Request.isNew d' = false
  /\ Request.modified d' = []
  /\ equipment db' = equipment db
  /\ equipmentpools db' = equipmentpools db
  /\ (Request.isNew d = true ->
      requests db' = (requests db ++ [Request.this d'])%list
      /\ Request.duplicateKey (requests db) (Request.this d') = false)
  /\ (Request.isNew d = false ->
      Request.holds (_id (Request.this d)) (requests db) = true
      /\ requests db'
         = Request.amend (_id (Request.this d))
             (Request.written (Request.modified d1) (Request.pushed env d1)
                (Request.this d'))
             (requests db)
      /\ (Request.isModified Request.requestIdPath d1 = true ->
          Request.duplicateKey (requests db) (Request.this d') = false)).
Proof.
  intros H d1. unfold Request.save in H. fold d1 in H.
  assert (Hnew : Request.isNew d1 = Request.isNew d) by reflexivity.
  assert (Hid : _id (Request.this d1) = _id (Request.this d))
    by apply generateRequestId_keeps.
  unfold Request.commit in H.
  destruct (Request.validate (Request.this d1)) eqn:Hv; [discriminate|].
  split; [reflexivity|]. rewrite Hnew, Hid in H.
  destruct (Request.isNew d) eqn:Hn.
  - destruct (Request.duplicateKey _ _) eqn:Hd; [discriminate|].
    injection H as <- <-. cbn [Request.this Request.isNew Request.modified
      equipment equipmentpools requests withRequests Request.store].
    repeat split; try reflexivity; try discriminate; auto.
  - destruct (Request.holds _ _) eqn:Hh; cbn [negb] in H; [|discriminate].
    destruct (Request.isModified Request.requestIdPath d1) eqn:Hm;
      cbn [andb] in H.
    + destruct (Request.duplicateKey _ _) eqn:Hd; [discriminate|].
      injection H as <- <-. cbn [Request.this Request.isNew Request.modified
        equipment equipmentpools requests withRequests].
      repeat split; try reflexivity; try discriminate; auto.
    + injection H as <- <-. cbn [Request.this Request.isNew Request.modified
        equipment equipmentpools requests withRequests].
      repeat split; try reflexivity; try discriminate; auto.
Qed.

(** The update leaves the documents of another [_id], and the order. *)
Lemma amend_Forall2 (id : ObjectId) (f : t -> t) (rs : list t) :
  Forall2 (fun x x' => if (_id x =? id)%N then x' = f x else x' = x)
    rs (Request.amend id f rs).
Proof.
  unfold Request.amend. induction rs as [|a rs IH]; [constructor|].
  cbn [List.map]. constructor; [|exact IH].
  destruct (_id a =? id)%N; reflexivity.
Qed.

(** When the collection holds the document [r] under its [_id], an
    update that turns [r] into [r'] gives the collection that holds
    [r'] in its place. *)
Lemma amend_store (f : t -> t) (r r' : t) (rs : list t) :
  (forall x, In x rs -> _id x = _id r -> x = r) ->
  f r = r' -> _id r' = _id r ->
  Request.amend (_id r) f rs = Request.store false r' rs.
Proof.
  intros Hu Hf Hid. unfold Request.store, Request.amend. rewrite Hid.
  apply List.map_ext_in. intros x Hx.
  destruct (N.eqb_spec (_id x) (_id r)) as [He|]; [|reflexivity].
  rewrite (Hu x Hx He). exact Hf.
Qed.

(** On the stored document itself the update gives the document in
    memory, when the paths that are not modified have their stored
    value there. *)
Lemma written_agree (m : list Request.Path) (entries : list Entry.t) (mem r : t) :
  _id mem = _id r -> requestedBy mem = requestedBy r ->
  equipmentId mem = equipmentId r -> requestType mem = requestType r ->
  priority mem = priority r -> requestedDate mem = requestedDate r ->
  expectedReturnDate mem = expectedReturnDate r -> reason mem = reason r ->
  attachments mem = attachments r ->
  statusHistory mem = (statusHistory r ++ entries)%list ->
  (List.existsb (Request.Path_eqb Request.requestIdPath) m = false ->
   requestId mem = requestId r) ->
  (List.existsb (Request.Path_eqb Request.statusPath) m = false ->
   status mem = status r) ->
  (List.existsb (Request.Path_eqb Request.adminNotesPath) m = false ->
   adminNotes mem = adminNotes r) ->
  (List.existsb (Request.Path_eqb Request.processedByPath) m = false ->
   processedBy mem = processedBy r) ->
  (List.existsb (Request.Path_eqb Request.processedDatePath) m = false ->
   processedDate mem = processedDate r) ->
  (List.existsb (Request.Path_eqb Request.approvedDatePath) m = false ->
   approvedDate mem = approvedDate r) ->
  (List.existsb (Request.Path_eqb Request.completedDatePath) m = false ->
   completedDate mem = completedDate r) ->
  Request.written m entries mem r = mem.
Proof.
  intros H1 H2 H3 H4 H5 H6 H7 H8 H9 H10 P1 P2 P3 P4 P5 P6 P7.
  unfold Request.written, Request.pick.
  destruct mem; cbn in *.
  f_equal; try (symmetry; assumption);
    match goal with
    | |- (if ?b then _ else _) = _ =>
        destruct b; [reflexivity|symmetry; auto]
    end.
Qed.

(** *** The operations of the life cycle *)

(** From the flag of a path after an assignment: when the path is not
    modified, the assignment left the value as it was. *)
Ltac unmodified H :=
  unfold Request.isModified in H; cbn [Request.modified] in H;
  rewrite isModified_touch in H;
  cbn [List.existsb List.app fst snd Request.Path_eqb andb] in H;
  repeat match type of H with
         | context [Request.isNew ?d] => destruct (Request.isNew d)
         | context [Request.isModified ?p ?d] => destruct (Request.isModified p d)
         | context [negb (Request.same ?e ?x ?y)] =>
             let E := fresh "E" in destruct (Request.same e x y) eqn:E
         | context [negb (Status_eqb ?x ?y)] =>
             let E := fresh "E" in destruct (Status_eqb x y) eqn:E
         end;
  cbn in H; try discriminate H.

(** Every operation of the life cycle is a [save] of the document with
    its status and processing paths assigned: the status is the target
    of the operation, the paths that no operation assigns are kept, and
    a path that is not modified afterwards has the value it had. *)
Lemma perform_is_save (op : Lifecycle.Operation) env (db : DB) (d : Request.Doc) :
  exists d0 : Request.Doc,
    Lifecycle.perform op env db d = Request.save env db d0
    /\ Request.isNew d0 = Request.isNew d
    /\ status (Request.this d0) = Lifecycle.target op
    /\ adminNotes (Request.this d0) = Lifecycle.notesAfter op (Request.this d)
    /\ processedBy (Request.this d0) = Lifecycle.processedByAfter op (Request.this d)
    /\ (_id (Request.this d0) = _id (Request.this d)
        /\ requestId (Request.this d0) = requestId (Request.this d)
        /\ requestedBy (Request.this d0) = requestedBy (Request.this d)
        /\ equipmentId (Request.this d0) = equipmentId (Request.this d)
        /\ requestType (Request.this d0) = requestType (Request.this d)
        /\ priority (Request.this d0) = priority (Request.this d)
        /\ requestedDate (Request.this d0) = requestedDate (Request.this d)
        /\ expectedReturnDate (Request.this d0) = expectedReturnDate (Request.this d)
        /\ reason (Request.this d0) = reason (Request.this d)
        /\ attachments (Request.this d0) = attachments (Request.this d)
        /\ statusHistory (Request.this d0) = statusHistory (Request.this d))
    /\ Request.isModified Request.requestIdPath d0
       = Request.isModified Request.requestIdPath d
    /\ Request.isModified Request.statusPath d0
       = Request.isModified Request.statusPath d
         || (Request.isNew d
             || negb (Status_eqb (status (Request.this d)) (Lifecycle.target op)))
    /\ (Request.isModified Request.statusPath d0 = false ->
        status (Request.this d0) = status (Request.this d))
    /\ (Request.isModified Request.adminNotesPath d0 = false ->
        adminNotes (Request.this d0) = adminNotes (Request.this d))
    /\ (Request.isModified Request.processedByPath d0 = false ->
        processedBy (Request.this d0) = processedBy (Request.this d))
    /\ (Request.isModified Request.processedDatePath d0 = false ->
        processedDate (Request.this d0) = processedDate (Request.this d))
    /\ (Request.isModified Request.approvedDatePath d0 = false ->
        approvedDate (Request.this d0) = approvedDate (Request.this d))
    /\ (Request.isModified Request.completedDatePath d0 = false ->
        completedDate (Request.this d0) = completedDate (Request.this d)).
Proof.
  destruct op as [a n|a w|a n|]; cbn [Lifecycle.perform];
    unfold Request.approve, Request.reject, Request.complete, Request.setStatus;
    (eexists; split; [reflexivity|]);
    cbn [Request.this Request.isNew status adminNotes processedBy _id requestId
         requestedBy equipmentId requestType priority requestedDate
         expectedReturnDate reason attachments statusHistory processedDate
         approvedDate completedDate Lifecycle.target Lifecycle.notesAfter
         Lifecycle.processedByAfter];
    (split; [reflexivity|]); (split; [reflexivity|]); (split; [reflexivity|]);
    (split; [reflexivity|]);
    (split; [repeat split|]).
  - (* approve *)
    split; [unfold Request.isModified at 1; cbn [Request.modified];
            rewrite isModified_touch; cbn; apply orb_false_r|].
    split; [unfold Request.isModified at 1; cbn [Request.modified];
            rewrite isModified_touch; cbn; rewrite !orb_false_r; reflexivity|].
    repeat split; intros H; unmodified H;
      first [ reflexivity
            | symmetry; apply Request_Status_eqb_eq; assumption
            | symmetry; apply same_N_eq; assumption
            | symmetry; apply same_Z_eq; assumption
            | symmetry; apply same_string_eq; assumption ].
  - (* reject *)
    split; [unfold Request.isModified at 1; cbn [Request.modified];
            rewrite isModified_touch; cbn; apply orb_false_r|].
    split; [unfold Request.isModified at 1; cbn [Request.modified];
            rewrite isModified_touch; cbn; rewrite !orb_false_r; reflexivity|].
    repeat split; intros H; unmodified H;
      first [ reflexivity
            | symmetry; apply Request_Status_eqb_eq; assumption
            | symmetry; apply same_N_eq; assumption
            | symmetry; apply same_Z_eq; assumption
            | symmetry; apply same_string_eq; assumption ].
  - (* complete *)
    destruct (JS.truthy n) eqn:Hn.
    + split; [unfold Request.isModified at 1; cbn [Request.modified];
              rewrite isModified_touch; cbn; apply orb_false_r|].
      split; [unfold Request.isModified at 1; cbn [Request.modified];
              rewrite isModified_touch; cbn; rewrite !orb_false_r; reflexivity|].
      repeat split; intros H; unmodified H;
        first [ reflexivity
              | symmetry; apply Request_Status_eqb_eq; assumption
              | symmetry; apply same_N_eq; assumption
              | symmetry; apply same_Z_eq; assumption
              | symmetry; apply same_string_eq; assumption ].
    + split; [unfold Request.isModified at 1; cbn [Request.modified];
              rewrite isModified_touch; cbn; apply orb_false_r|].
      split; [unfold Request.isModified at 1; cbn [Request.modified];
              rewrite isModified_touch; cbn; rewrite !orb_false_r; reflexivity|].
      repeat split; intros H; unmodified H;
        first [ reflexivity
              | symmetry; apply Request_Status_eqb_eq; assumption
              | symmetry; apply same_N_eq; assumption
              | symmetry; apply same_Z_eq; assumption
              | symmetry; apply same_string_eq; assumption ].
  - (* cancel *)
    split; [unfold Request.isModified at 1; cbn [Request.modified];
            rewrite isModified_touch; cbn; apply orb_false_r|].
    split; [unfold Request.isModified at 1; cbn [Request.modified];
            rewrite isModified_touch; cbn; rewrite !orb_false_r; reflexivity|].
    repeat split; intros H; unmodified H;
      first [ reflexivity
            | symmetry; apply Request_Status_eqb_eq; assumption ].
Qed.

(** The entry that the hook pushes after an operation. *)
Lemma historyEntry_entry op env (d d0 : Request.Doc) :
  status (Request.this d0) = Lifecycle.target op ->
  adminNotes (Request.this d0) = Lifecycle.notesAfter op (Request.this d) ->
  processedBy (Request.this d0) = Lifecycle.processedByAfter op (Request.this d) ->
  requestedBy (Request.this d0) = requestedBy (Request.this d) ->
  Request.historyEntry env (Request.this d0) = Lifecycle.entry op env (Request.this d).
Proof.
  intros H1 H2 H3 H4. unfold Request.historyEntry, Lifecycle.entry.
  rewrite H1, H2, H3, H4. reflexivity.
Qed.

(** An operation on a stored request succeeds whatever the state of the
    request; it writes the target status, keeps the identity of the
    request, appends one history entry when the status changes and none
    otherwise, and the collection holds the result in the place of the
    request. *)
Lemma perform_stored (op : Lifecycle.Operation) env db (d : Request.Doc) :
  Lifecycle.stored db d ->
  Lifecycle.notesFit op (Request.this d) ->
  exists r' : t,
    Lifecycle.perform op env db d
    = inr (withRequests db (Request.store false r' (requests db)),
           {| Request.this := r'; Request.isNew := false;
              Request.modified := [] |})
    /\ status r' = Lifecycle.target op
    /\ statusHistory r'
       = (statusHistory (Request.this d)
          ++ (if Status_eqb (status (Request.this d)) (Lifecycle.target op)
              then []
              else [Lifecycle.entry op env (Request.this d)]))%list
    /\ adminNotes r' = Lifecycle.notesAfter op (Request.this d)
    /\ processedBy r' = Lifecycle.processedByAfter op (Request.this d)
    /\ _id r' = _id (Request.this d)
    /\ requestId r' = requestId (Request.this d)
    /\ requestedBy r' = requestedBy (Request.this d)
    /\ equipmentId r' = equipmentId (Request.this d).
Proof.
  intros (Hnew & Hmod & Hid & Hv & Hd & Hin & Huniq) Hfit.
  destruct (perform_is_save op env db d)
    as (d0 & Hp & Hnew0 & Hst0 & Hn0 & Hb0
        & (K1 & K2 & K3 & K4 & K5 & K6 & K7 & K8 & K9 & K10 & K11)
        & Hmid & Hms & A1 & A2 & A3 & A4 & A5 & A6).
  assert (Hnomod : forall p, Request.isModified p d = false).
  { intros p. unfold Request.isModified. rewrite Hmod. reflexivity. }
  rewrite Hnomod in Hmid. rewrite Hnomod, Hnew in Hms. cbn [orb] in Hms.
  assert (Hpushed : Request.pushed env d0
                    = if Status_eqb (status (Request.this d)) (Lifecycle.target op)
                      then [] else [Lifecycle.entry op env (Request.this d)]).
  { unfold Request.pushed. rewrite Hms, Hnew0, Hnew.
    destruct (Status_eqb _ _); cbn [negb andb]; [reflexivity|].
    rewrite (historyEntry_entry op env d d0) by assumption. reflexivity. }
  set (mem := Request.this (Request.preSave env d0)).
  assert (M : _id mem = _id (Request.this d0)
              /\ requestId mem = requestId (Request.this d0)
              /\ requestedBy mem = requestedBy (Request.this d0)
              /\ equipmentId mem = equipmentId (Request.this d0)
              /\ requestType mem = requestType (Request.this d0)
              /\ status mem = status (Request.this d0)
              /\ priority mem = priority (Request.this d0)
              /\ requestedDate mem = requestedDate (Request.this d0)
              /\ expectedReturnDate mem = expectedReturnDate (Request.this d0)
              /\ reason mem = reason (Request.this d0)
              /\ adminNotes mem = adminNotes (Request.this d0)
              /\ processedBy mem = processedBy (Request.this d0)
              /\ processedDate mem = processedDate (Request.this d0)
              /\ approvedDate mem = approvedDate (Request.this d0)
              /\ completedDate mem = completedDate (Request.this d0)
              /\ attachments mem = attachments (Request.this d0)
              /\ statusHistory mem
                 = (statusHistory (Request.this d0) ++ Request.pushed env d0)%list)
    by (subst mem; rewrite preSave_this; cbn; repeat split).
  destruct M as (M1 & M2 & M3 & M4 & M5 & M6 & M7 & M8 & M9 & M10 & M11 & M12
                 & M13 & M14 & M15 & M16 & M17).
  exists mem. split.
  - rewrite Hp. unfold Request.save.
    rewrite preValidate_identified by (rewrite K2; exact Hid).
    unfold Request.commit.
    rewrite (validate_agree (Request.this d) (Request.this d0) Hv K4 K5 K8 K9)
      by (rewrite Hn0; exact Hfit).
    rewrite Hnew0, Hnew, K1.
    assert (Hh : Request.holds (_id (Request.this d)) (requests db) = true)
      by (apply holds_In; eauto).
    rewrite Hh, Hmid. cbn [negb andb]. fold mem.
    rewrite (amend_store _ (Request.this d) mem (requests db) Huniq);
      [reflexivity| |congruence].
    apply written_agree; try congruence.
    + intros H. rewrite M6. apply A1, H.
    + intros H. rewrite M11. apply A2, H.
    + intros H. rewrite M12. apply A3, H.
    + intros H. rewrite M13. apply A4, H.
    + intros H. rewrite M14. apply A5, H.
    + intros H. rewrite M15. apply A6, H.
  - rewrite M6, M17, M11, M12, M1, M2, M3, M4, Hpushed.
    repeat split; congruence.
Qed.

(** The operations write the collection of requests and nothing else. *)
Lemma perform_writes_requests_only op env db (d : Request.Doc) db' d' :
  Lifecycle.perform op env db d = inr (db', d') ->
  equipment db' = equipment db /\ equipmentpools db' = equipmentpools db.
Proof.
  destruct (perform_is_save op env db d) as (d0 & -> & _).
  intros H. apply save_inr in H as (_ & _ & _ & _ & He & Hp & _). auto.
Qed.

(** What a successful operation on a loaded document records, whether
    the document is the stored one or an older copy of it: the copy in
    memory and every stored document of its [_id] get the entries that
    the hook pushes, one when the operation modifies the status and
    none otherwise, and the other documents are left as they are. *)
Lemma perform_history op env db (d : Request.Doc) db' d' :
  Request.isNew d = false ->
  Lifecycle.perform op env db d = inr (db', d') ->
  let entries :=
    if Request.isModified Request.statusPath d
       || negb (Status_eqb (status (Request.this d)) (Lifecycle.target op))
    then [Lifecycle.entry op env (Request.this d)] else [] in
  status (Request.this d') = Lifecycle.target op
  /\ adminNotes (Request.this d') = Lifecycle.notesAfter op (Request.this d)
  /\ processedBy (Request.this d') = Lifecycle.processedByAfter op (Request.this d)
  /\ requestedBy (Request.this d') = requestedBy (Request.this d)
  /\ statusHistory (Request.this d')
     = (statusHistory (Request.this d) ++ entries)%list
  /\ Request.holds (_id (Request.this d)) (requests db) = true
  /\ Forall2
       (fun x x' =>
          if (_id x =? _id (Request.this d))%N
          then statusHistory x' = (statusHistory x ++ entries)%list
          else x' = x)
       (requests db) (requests db').
Proof.
  intros Hnew Hp entries.
  destruct (perform_is_save op env db d)
    as (d0 & Hp0 & Hnew0 & Hst0 & Hn0 & Hb0
        & (K1 & K2 & K3 & K4 & K5 & K6 & K7 & K8 & K9 & K10 & K11)
        & Hmid & Hms & _).
  rewrite Hp0 in Hp. rewrite Hnew in Hnew0, Hms. cbn [orb] in Hms.
  pose proof (generateRequestId_keeps env (Request.queryLastOfDay env db)
                (Request.this d0))
    as (_ & _ & G1 & G2 & _ & _ & G3 & _ & _ & _ & _ & G4 & G5 & G6).
  pose proof (proj1 (proj2 (preValidate_flags env db d0)) Request.statusPath
                ltac:(discriminate)) as Hflag.
  set (d1 := Request.preValidate env db d0) in *.
  change (Request.generateRequestId env (Request.queryLastOfDay env db)
            (Request.this d0)) with (Request.this d1) in *.
  assert (Hpushed : Request.pushed env d1 = entries).
  { unfold Request.pushed, entries. rewrite Hflag.
    change (Request.isNew d1) with (Request.isNew d0). rewrite Hnew0, Hms.
    rewrite andb_true_r.
    destruct (_ || _); [|reflexivity].
    rewrite (historyEntry_entry op env d d1); [reflexivity|congruence..]. }
  apply save_inr in Hp as (_ & Hthis & _ & _ & _ & _ & _ & Hold).
  fold d1 in Hthis, Hold. rewrite preSave_this, Hpushed in Hthis.
  destruct (Hold Hnew0) as (Hh & Hrs & _). rewrite K1 in Hh, Hrs.
  rewrite Hthis. cbn [status adminNotes processedBy requestedBy statusHistory].
  split; [congruence|]. split; [congruence|]. split; [congruence|].
  split; [congruence|]. split; [congruence|]. split; [exact Hh|].
  rewrite Hrs, Hpushed.
  eapply Forall2_impl; [apply amend_Forall2|].
  intros x x'. cbn beta. destruct (_id x =? _)%N; [|auto].
  intros ->. reflexivity.
Qed.

Lemma sample_rejected_stored :
  Lifecycle.stored Sample.db (Request.loaded Sample.rejectedRequest).
Proof.
  repeat split; [simpl; auto|].
  intros x Hx He. simpl in Hx.
  destruct Hx as [<-|[<-|[<-|[]]]]; try reflexivity; discriminate He.
Qed.

Lemma sample_approved_stored :
  Lifecycle.stored Sample.db (Request.loaded Sample.approvedRequest).
Proof.
  repeat split; [simpl; auto|].
  intros x Hx He. simpl in Hx.
  destruct Hx as [<-|[<-|[<-|[]]]]; try reflexivity; discriminate He.
Qed.

Lemma sample_pending_stored :
  Lifecycle.stored Sample.db (Request.loaded Sample.pendingRequest).
Proof.
  repeat split; [simpl; auto|].
  intros x Hx He. simpl in Hx.
  destruct Hx as [<-|[<-|[<-|[]]]]; try reflexivity; discriminate He.
Qed.

(** *** The guards of the life cycle *)

(** [approve] on a Rejected request succeeds and makes it Approved. *)
Lemma approve_succeeds_on_rejected_request :
  status Sample.rejectedRequest = Rejected
  /\ exists db' d',
       Request.approve Sample.env Sample.db Sample.admin None
         (Request.loaded Sample.rejectedRequest)
       = inr (db', d')
       /\ status (Request.this d') = Approved
       /\ In (Request.this d') (requests db').
Proof.
  split; [reflexivity|].
  eexists _, _. split; [reflexivity|]. split; [reflexivity|].
  simpl. right. left. reflexivity.
Qed.

(** C1: the cancel route accepts a request only when it is Pending, and
    otherwise answers 400 and leaves the database as it is; on a stored
    Pending request it succeeds and stores the request as Cancelled. The
    methods [approve], [reject] and [complete] do not look at the state:
    on a stored request in any state they succeed and write their target
    status. *)
Theorem lifecycle_guards :
  forall (env : Env) (db : DB),
    (forall user id r,
        List.find (fun r => (_id r =? id)%N
                            && (requestedBy r =? OfficerRoutes._id user)%N)
                  (requests db) = Some r ->
        (status r <> Pending ->
         OfficerRoutes.cancelRequest env db user id
         = (failure 400 "Only pending requests can be cancelled", db))
        /\ (status r = Pending ->
            Lifecycle.stored db (Request.loaded r) ->
            exists r',
              OfficerRoutes.cancelRequest env db user id
              = (ok 200 "Request cancelled successfully",
                 withRequests db (Request.store false r' (requests db)))
              /\ _id r' = _id r /\ status r' = Cancelled))
    /\ (forall op d,
          op <> Lifecycle.Cancel ->
          Lifecycle.stored db d ->
          Lifecycle.notesFit op (Request.this d) ->
          exists db' d',
            Lifecycle.perform op env db d = inr (db', d')
            /\ status (Request.this d') = Lifecycle.target op).
Proof.
  intros env db. split.
  - intros user id r Hfind. unfold OfficerRoutes.cancelRequest. rewrite Hfind.
    split.
    + intros Hs. apply Request_Status_eqb_neq in Hs. rewrite Hs. reflexivity.
    + intros Hs Hst. rewrite Hs. simpl.
      destruct (perform_stored Lifecycle.Cancel env db (Request.loaded r) Hst)
        as (r' & Hp & Hstatus & _ & _ & _ & Hid & _).
      { destruct Hst as (_ & _ & _ & Hv & _). apply validate_notes_fit, Hv. }
      simpl in Hp. rewrite Hp. exists r'. auto.
  - intros op d _ Hst Hfit.
    destruct (perform_stored op env db d Hst Hfit) as (r' & Hp & Hstatus & _).
    eexists _, _. split; [exact Hp|exact Hstatus].
Qed.

Lemma lifecycle_guards_witness :
  OfficerRoutes.cancelRequest Sample.env Sample.db Sample.officerUser 51%N
  = (failure 400 "Only pending requests can be cancelled", Sample.db)
  /\ (exists r',
        OfficerRoutes.cancelRequest Sample.env Sample.db Sample.officerUser 52%N
        = (ok 200 "Request cancelled successfully",
           withRequests Sample.db (Request.store false r' (requests Sample.db)))
        /\ _id r' = 52%N /\ status r' = Cancelled)
  /\ exists db' d',
       Lifecycle.perform (Lifecycle.Complete Sample.admin None) Sample.env Sample.db
         (Request.loaded Sample.rejectedRequest)
       = inr (db', d')
       /\ status (Request.this d') = Completed.
Proof.
  destruct (lifecycle_guards Sample.env Sample.db) as [Hcancel Hmethods].
  split; [|split].
  - apply (proj1 (Hcancel Sample.officerUser 51%N Sample.rejectedRequest eq_refl)).
    simpl. discriminate.
  - apply (proj2 (Hcancel Sample.officerUser 52%N Sample.pendingRequest eq_refl)).
    + reflexivity.
    + exact sample_pending_stored.
  - apply Hmethods.
    + discriminate.
    + exact sample_rejected_stored.
    + unfold Lifecycle.notesFit. simpl. lia.
Defined.

(** *** Requests and custody *)

(** Completing an approved Issue request leaves the requested item
    Available and without a holder. *)
Lemma complete_leaves_equipment_available :
  requestType Sample.approvedRequest = Issue
  /\ status Sample.approvedRequest = Approved
  /\ equipmentId Sample.approvedRequest = Some 10%N
  /\ exists db' d',
       Request.complete Sample.env Sample.db Sample.admin None
         (Request.loaded Sample.approvedRequest)
       = inr (db', d')
       /\ status (Request.this d') = Completed
       /\ equipment db' !! 10%N = Some Sample.radio
       /\ equipmentSchema.status Sample.radio = equipmentSchema.Available
       /\ equipmentSchema.issuedTo Sample.radio = None.
Proof.
  repeat (split; [reflexivity|]).
  eexists _, _. split; [reflexivity|]. split; [reflexivity|].
  split; [|split; reflexivity].
  simpl. apply lookup_singleton_eq.
Qed.

(** C2: neither [approve] nor [complete], nor any other operation on a
    request, changes an equipment document or a pool: the operations
    write the collection of requests only, and on a stored request they
    do succeed. The custody of an item is transferred by [issueToUser]
    alone: when it succeeds, on the stored document or on an older copy
    of it, the document it returns and the stored document are Issued
    to the user it is given. *)
Theorem requests_do_not_transfer_custody :
  forall (op : Lifecycle.Operation) (env : Env) (db : DB) (d : Request.Doc),
    (forall db' d',
        Lifecycle.perform op env db d = inr (db', d') ->
        equipment db' = equipment db /\ equipmentpools db' = equipmentpools db)
    /\ (Lifecycle.stored db d ->
        Lifecycle.notesFit op (Request.this d) ->
        exists db' d',
          Lifecycle.perform op env db d = inr (db', d')
          /\ status (Request.this d') = Lifecycle.target op
          /\ equipment db' = equipment db)
    /\ (forall uid expected e db' e',
          Equipment.issueToUser env db uid expected e = inr (db', e') ->
          equipmentSchema.status e' = equipmentSchema.Issued
          /\ option_map equipmentSchema.userId (equipmentSchema.issuedTo e')
             = Some uid
          /\ exists before after,
               equipment db !! equipmentSchema._id e = Some before
               /\ equipment db' !! equipmentSchema._id e = Some after
               /\ equipmentSchema.status after = equipmentSchema.Issued
               /\ equipmentSchema.issuedTo after = equipmentSchema.issuedTo e'
               /\ equipmentSchema.serialNumber after
                  = equipmentSchema.serialNumber before).
Proof.
  intros op env db d. split; [|split].
  - intros db' d' H. eapply perform_writes_requests_only, H.
  - intros Hst Hfit.
    destruct (perform_stored op env db d Hst Hfit) as (r' & Hp & Hstatus & _).
    eexists _, _. split; [exact Hp|]. split; [exact Hstatus|reflexivity].
  - intros uid expected e db' e' H.
    apply issueToUser_inr in H as (_ & _ & stored & Hs & -> & ->). simpl.
    split; [reflexivity|]. split; [reflexivity|].
    exists stored. eexists. split; [exact Hs|].
    split; [apply lookup_insert_eq|]. repeat split.
Qed.

Lemma requests_do_not_transfer_custody_witness :
  exists db' d',
    Lifecycle.perform (Lifecycle.Complete Sample.admin None) Sample.env Sample.db
      (Request.loaded Sample.approvedRequest)
    = inr (db', d')
    /\ status (Request.this d') = Completed
    /\ equipment db' = equipment Sample.db.
Proof.
  apply (proj1 (proj2 (requests_do_not_transfer_custody
                         (Lifecycle.Complete Sample.admin None) Sample.env
                         Sample.db (Request.loaded Sample.approvedRequest)))).
  - exact sample_approved_stored.
  - unfold Lifecycle.notesFit. simpl. lia.
Defined.

(** *** The status history *)

(** C10: an operation (approve, reject, complete, cancel) on a stored
    request succeeds. Whenever an operation succeeds on a loaded
    request, be it the stored document or an older copy of it, and the
    status is modified, exactly one entry is appended to [statusHistory],
    of the copy in memory and of the stored request alike: the new
    status, [changedBy] equal to [processedBy] when it is set and to the
    requester otherwise, the instant of the call, and [notes] equal to
    the administrator notes; when the status is not modified, none is
    appended. No operation removes an entry or writes the history of
    another request, and the save of a new request appends none. *)
Theorem status_change_appends_history :
  forall (op : Lifecycle.Operation) (env : Env) (db : DB) (d : Request.Doc),
    (Lifecycle.stored db d ->
     Lifecycle.notesFit op (Request.this d) ->
     exists db' d', Lifecycle.perform op env db d = inr (db', d'))
    /\ (forall db' d',
          Request.isNew d = false ->
          Lifecycle.perform op env db d = inr (db', d') ->
          let entries :=
            if Request.isModified Request.statusPath d
               || negb (Status_eqb (status (Request.this d)) (Lifecycle.target op))
            then [ {| Entry.status := status (Request.this d');
                      Entry.changedBy :=
                        match processedBy (Request.this d') with
                        | Some admin => admin
                        | None => requestedBy (Request.this d')
                        end;
                      Entry.changedDate := now env;
                      Entry.notes := adminNotes (Request.this d') |} ]
            else [] in
          status (Request.this d') = Lifecycle.target op
          /\ statusHistory (Request.this d')
             = (statusHistory (Request.this d) ++ entries)%list
          /\ (exists x, In x (requests db) /\ _id x = _id (Request.this d))
          /\ Forall2
               (fun x x' =>
                  if (_id x =? _id (Request.this d))%N
                  then statusHistory x' = (statusHistory x ++ entries)%list
                  else x' = x)
               (requests db) (requests db'))
    /\ (forall db' d',
          Request.isNew d = true ->
          Request.save env db d = inr (db', d') ->
          statusHistory (Request.this d') = statusHistory (Request.this d)
          /\ requests db' = (requests db ++ [Request.this d'])%list).
Proof.
  intros op env db d. split; [|split].
  - intros Hst Hfit.
    destruct (perform_stored op env db d Hst Hfit) as (r' & Hp & _).
    eexists _, _. exact Hp.
  - intros db' d' Hnew Hp.
    destruct (perform_history op env db d db' d' Hnew Hp)
      as (Hs & Hn & Hb & Hr & Hh & Hholds & Hall).
    cbv zeta.
    assert (He : {| Entry.status := status (Request.this d');
                    Entry.changedBy :=
                      match processedBy (Request.this d') with
                      | Some admin => admin
                      | None => requestedBy (Request.this d')
                      end;
                    Entry.changedDate := now env;
                    Entry.notes := adminNotes (Request.this d') |}
                 = Lifecycle.entry op env (Request.this d)).
    { unfold Lifecycle.entry. rewrite Hs, Hn, Hb, Hr. reflexivity. }
    rewrite He. split; [exact Hs|]. split; [exact Hh|].
    split; [apply holds_In; exact Hholds|exact Hall].
  - intros db' d' Hnew H.
    apply save_inr in H as (_ & Hthis & _ & _ & _ & _ & Hins & _).
    destruct (Hins Hnew) as [Hrs _]. split; [|exact Hrs].
    rewrite Hthis, preSave_this. cbn [statusHistory].
    unfold Request.pushed. change (Request.isNew (Request.preValidate env db d))
      with (Request.isNew d). rewrite Hnew, andb_false_r, app_nil_r.
    apply generateRequestId_statusHistory.
Qed.

Lemma status_change_appends_history_witness :
  (exists db' d',
      Lifecycle.perform (Lifecycle.Approve Sample.admin (Some "for night patrol"))
        Sample.env Sample.db (Request.loaded Sample.pendingRequest)
      = inr (db', d')
      /\ statusHistory (Request.this d')
         = [ Entry.mk Approved Sample.admin 1762152000000 (Some "for night patrol") ]
      /\ Forall2
           (fun x x' =>
              if (_id x =? 52)%N
              then statusHistory x'
                   = (statusHistory x
                      ++ [ Entry.mk Approved Sample.admin 1762152000000
                             (Some "for night patrol") ])%list
              else x' = x)
           (requests Sample.db) (requests db')).
Proof.
  destruct (proj1 (status_change_appends_history
                     (Lifecycle.Approve Sample.admin (Some "for night patrol"))
                     Sample.env Sample.db (Request.loaded Sample.pendingRequest))
              sample_pending_stored)
    as (db' & d' & Hp).
  { unfold Lifecycle.notesFit. simpl. lia. }
  destruct (proj1 (proj2 (status_change_appends_history
                            (Lifecycle.Approve Sample.admin (Some "for night patrol"))
                            Sample.env Sample.db
                            (Request.loaded Sample.pendingRequest)))
              db' d' eq_refl Hp)
    as (Hs & Hh & _ & Hall).
  exists db', d'. split; [exact Hp|].
  vm_compute in Hp. injection Hp as Hdb Hd. subst d'.
  split; [reflexivity|exact Hall].
Defined.

End RequestFacts.

(** ** Identifiers under concurrent creation *)
Section ConcurrentFacts.

Import requestSchema.
Local Open Scope string_scope.

Lemma validate_setRequestId id (r : t) :
  Request.validate (Request.setRequestId id r) = Request.validate r.
Proof. reflexivity. Qed.

(** The query of the hook depends on the environment through the
    calendar date only. *)
Lemma findLastOfDay_same_day (envA envB : Env) (rs : list t) :
  fullYear envA = fullYear envB -> month envA = month envB ->
  dayOfMonth envA = dayOfMonth envB ->
  Request.findLastOfDay envA rs = Request.findLastOfDay envB rs.
Proof.
  intros Hy Hm Hd. unfold Request.findLastOfDay, Request.ofDay, Request.dayStamp.
  rewrite Hy, Hm, Hd. reflexivity.
Qed.

Lemma primaryId_same_day (envA envB : Env) (n : Z) :
  fullYear envA = fullYear envB -> month envA = month envB ->
  dayOfMonth envA = dayOfMonth envB ->
  Request.primaryId envA n = Request.primaryId envB n.
Proof.
  intros Hy Hm Hd. unfold Request.primaryId, Request.dayStamp.
  rewrite Hy, Hm, Hd. reflexivity.
Qed.

(** What the hook assigns to a document without identifier when its
    query succeeds. *)
Lemma preValidate_generates env db (d : Request.Doc) :
  JS.truthy (requestId (Request.this d)) = false ->
  findOneFails env = false ->
  Request.this (Request.preValidate env db d)
  = Request.setRequestId
      (Request.primaryId env
         (Request.nextSequence (Request.findLastOfDay env (requests db))))
      (Request.this d).
Proof.
  intros Hid Hq. unfold Request.preValidate, Request.generateRequestId,
    Request.queryLastOfDay. simpl. rewrite Hid, Hq. reflexivity.
Qed.

(** Two handlers that run the hook on the same collection on the same
    day obtain the same identifier. *)
Lemma same_snapshot_same_identifier (envA envB : Env) db (dA dB : Request.Doc) :
  fullYear envA = fullYear envB -> month envA = month envB ->
  dayOfMonth envA = dayOfMonth envB ->
  findOneFails envA = false -> findOneFails envB = false ->
  JS.truthy (requestId (Request.this dA)) = false ->
  JS.truthy (requestId (Request.this dB)) = false ->
  requestId (Request.this (Request.preValidate envA db dA))
  = requestId (Request.this (Request.preValidate envB db dB)).
Proof.
  intros Hy Hm Hd HqA HqB HA HB.
  rewrite !preValidate_generates by assumption. simpl.
  rewrite (findLastOfDay_same_day envA envB) by assumption.
  rewrite (primaryId_same_day envA envB) by assumption.
  reflexivity.
Qed.

Lemma duplicateKey_after_insert (rs : list t) (a b : t) :
  _id a <> _id b -> requestId a = requestId b ->
  Request.duplicateKey (rs ++ [a]) b = true.
Proof.
  intros Hne Heq. unfold Request.duplicateKey.
  rewrite existsb_app. simpl. rewrite Heq, String.eqb_refl.
  apply N.eqb_neq in Hne. rewrite Hne. simpl.
  apply orb_true_r.
Qed.

Lemma commit_new env db (d : Request.Doc) :
  Request.isNew d = true ->
  Request.validate (Request.this d) = None ->
  Request.commit env db d
  = if Request.duplicateKey (requests db) (Request.this d)
    then inl (MongoServerError 11000)
    else inr (withRequests db (requests db ++ [Request.this d])%list,
              {| Request.this := Request.this d; Request.isNew := false;
                 Request.modified := [] |}).
Proof.
  intros Hnew Hv. unfold Request.commit. rewrite Hv, Hnew.
  assert (Hsame : Request.preSave env d = d)
    by (unfold Request.preSave; rewrite Hnew, andb_false_r; reflexivity).
  rewrite Hsame. reflexivity.
Qed.

(** C4: the identifier is read from the last request of the day and
    incremented in a separate step. When two handlers create a request
    on the same day and both run the identifier hook before either
    writes, they hold the same identifier: the first write succeeds, the
    second is refused by the unique index with error 11000, and one
    request instead of two is created. *)
Theorem concurrent_creation_collides :
  forall (envA envB : Env) (db : DB) (dA dB : Request.Doc),
    fullYear envA = fullYear envB -> month envA = month envB ->
    dayOfMonth envA = dayOfMonth envB ->
    findOneFails envA = false -> findOneFails envB = false ->
    JS.truthy (requestId (Request.this dA)) = false ->
    JS.truthy (requestId (Request.this dB)) = false ->
    Request.isNew dA = true -> Request.isNew dB = true ->
    Request.validate (Request.this dA) = None ->
    Request.validate (Request.this dB) = None ->
    _id (Request.this dA) <> _id (Request.this dB) ->
    Request.duplicateKey (requests db)
      (Request.this (Request.preValidate envA db dA)) = false ->
    exists db' dA',
      Concurrent.run [0; 1; 0; 1]%nat db
        [Concurrent.Created envA dA; Concurrent.Created envB dB]
      = (db', [Concurrent.Settled (inr dA');
               Concurrent.Settled (inl (MongoServerError 11000))])
      /\ requestId (Request.this dA')
         = requestId (Request.this (Request.preValidate envB db dB))
      /\ requests db' = (requests db ++ [Request.this dA'])%list.
Proof.
  intros envA envB db dA dB Hy Hm Hd HqA HqB HA HB HnA HnB HvA HvB Hne Hfree.
  pose proof (same_snapshot_same_identifier envA envB db dA dB
                Hy Hm Hd HqA HqB HA HB) as Hsame.
  assert (HvA' : Request.validate (Request.this (Request.preValidate envA db dA))
                 = None).
  { rewrite preValidate_generates by assumption. exact HvA. }
  assert (HvB' : Request.validate (Request.this (Request.preValidate envB db dB))
                 = None).
  { rewrite preValidate_generates by assumption. exact HvB. }
  assert (HidA : _id (Request.this (Request.preValidate envA db dA))
                 = _id (Request.this dA)).
  { rewrite preValidate_generates by assumption. reflexivity. }
  assert (HidB : _id (Request.this (Request.preValidate envB db dB))
                 = _id (Request.this dB)).
  { rewrite preValidate_generates by assumption. reflexivity. }
  cbn [Concurrent.run Concurrent.step lookup list_lookup insert list_insert].
  rewrite (commit_new envA db) by (simpl; assumption).
  rewrite Hfree.
  cbn [Concurrent.run Concurrent.step lookup list_lookup insert list_insert].
  rewrite commit_new by (simpl; assumption).
  cbn [requests withRequests].
  rewrite duplicateKey_after_insert by congruence.
  eexists _, _. split; [reflexivity|]. split; [exact Hsame|reflexivity].
Qed.

Lemma concurrent_creation_collides_witness :
  exists db' dA',
    Concurrent.run [0; 1; 0; 1]%nat Sample.db Sample.handlers
    = (db', [Concurrent.Settled (inr dA');
             Concurrent.Settled (inl (MongoServerError 11000))])
    /\ requestId (Request.this dA') = Some "REQ-20251103-0002"
    /\ requests db' = (requests Sample.db ++ [Request.this dA'])%list.
Proof.
  destruct (concurrent_creation_collides Sample.env Sample.envB Sample.db
              (Request.new Sample.env (Sample.issueRequest 1%N))
              (Request.new Sample.envB (Sample.issueRequest 3%N)))
    as (db' & dA' & Hrun & Hid & Hdb);
    try reflexivity; [simpl; discriminate|].
  exists db', dA'. split; [exact Hrun|]. split; [|exact Hdb].
  rewrite Hid. reflexivity.
Defined.

(** One after the other, the two handlers obtain consecutive identifiers. *)
Example sequential_creation_distinct :
  Concurrent.createdIds (snd (Concurrent.run [0; 0; 1; 1]%nat Sample.db Sample.handlers))
  = ["REQ-20251103-0002"; "REQ-20251103-0003"].
Proof. reflexivity. Qed.

End ConcurrentFacts.

(** ** The identifier of a new request *)
Section IdentifierFacts.

Import requestSchema.
Local Open Scope string_scope.

(** A property checked on every number of a range holds on the range. *)
Lemma range_check (P : Z -> bool) (lo len : nat) :
  List.forallb (fun k => P (Z.of_nat k)) (List.seq lo len) = true ->
  forall z : Z, Z.of_nat lo <= z < Z.of_nat (lo + len) -> P z = true.
Proof.
  intros H z Hz. rewrite forallb_forall in H.
  specialize (H (Z.to_nat z)). rewrite Z2Nat.id in H by lia.
  apply H. apply in_seq. lia.
Qed.

Local Abbreviation pad4 n := (JS.padStart 4 "0" (JS.toString n)).
Local Abbreviation pad2 n := (JS.padStart 2 "0" (JS.toString n)).

Lemma digitsOf_spec (k : nat) (n : Z) (s : string) :
  JS.digitsOf k n s = true ->
  String.length s = k /\ JS.allDigits s = true /\ JS.parseInt s = Some n.
Proof.
  unfold JS.digitsOf. intros H.
  apply andb_prop in H as [H H3]. apply andb_prop in H as [H1 H2].
  split; [apply Nat.eqb_eq, H1|]. split; [exact H2|].
  destruct (JS.parseInt s); [|discriminate].
  apply Z.eqb_eq in H3. congruence.
Qed.

(** The decimal strings of the numbers below 10000, by enumeration. *)
Lemma decimal_shape (n : Z) :
  0 <= n <= 9999 ->
  JS.digitsOf 4 n (pad4 n) = true
  /\ (n < 9999 -> String.ltb (pad4 n) (pad4 (n + 1)) = true)
  /\ (1000 <= n -> JS.digitsOf 4 n (JS.toString n) = true)
  /\ (n <= 99 -> JS.digitsOf 2 n (pad2 n) = true).
Proof.
  intros Hn.
  pose proof (range_check
                (fun z => JS.digitsOf 4 z (pad4 z)
                          && ((9999 <=? z)%Z || String.ltb (pad4 z) (pad4 (z + 1)))
                          && ((z <? 1000)%Z || JS.digitsOf 4 z (JS.toString z))
                          && ((99 <? z)%Z || JS.digitsOf 2 z (pad2 z)))
                0 (Z.to_nat 10000) ltac:(vm_compute; reflexivity) n ltac:(lia))
    as H.
  simpl in H.
  apply andb_prop in H as [H H4]. apply andb_prop in H as [H H3].
  apply andb_prop in H as [H1 H2].
  split; [exact H1|]. split; [|split].
  - intros Hlt. apply orb_prop in H2 as [H2|H2]; [|exact H2].
    apply Z.leb_le in H2. lia.
  - intros Hge. apply orb_prop in H3 as [H3|H3]; [|exact H3].
    apply Z.ltb_lt in H3. lia.
  - intros Hle. apply orb_prop in H4 as [H4|H4]; [|exact H4].
    apply Z.ltb_lt in H4. lia.
Qed.

Lemma length_append (a b : string) :
  String.length (a ++ b) = (String.length a + String.length b)%nat.
Proof. induction a as [|c a IH]; simpl; [reflexivity|]. rewrite IH. reflexivity. Qed.

Lemma append_assoc (a b c : string) : (a ++ b) ++ c = a ++ (b ++ c).
Proof.
  induction a as [|x a IH]; [reflexivity|].
  change (String x ((a ++ b) ++ c) = String x (a ++ b ++ c)).
  f_equal. exact IH.
Qed.

Lemma allDigits_append (a b : string) :
  JS.allDigits (a ++ b) = JS.allDigits a && JS.allDigits b.
Proof.
  induction a as [|c a IH]; simpl; [reflexivity|].
  rewrite IH, andb_assoc. reflexivity.
Qed.

Lemma isDigit_not_dash (c : ascii) : JS.isDigit c = true -> Ascii.eqb c "-" = false.
Proof.
  intros H. destruct (Ascii.eqb_spec c "-") as [->|]; [|reflexivity].
  vm_compute in H. discriminate.
Qed.

(** [split] on a string of digits, and across a dash that follows one. *)
Lemma split_digits (a : string) : JS.allDigits a = true -> JS.split "-" a = [a].
Proof.
  induction a as [|c a IH]; simpl; [reflexivity|].
  intros H. apply andb_prop in H as [Hc Ha].
  rewrite (isDigit_not_dash c Hc), (IH Ha). reflexivity.
Qed.

Lemma split_digits_dash (a b : string) :
  JS.allDigits a = true ->
  JS.split "-" (a ++ String "-" b) = a :: JS.split "-" b.
Proof.
  induction a as [|c a IH]; simpl; [reflexivity|].
  intros H. apply andb_prop in H as [Hc Ha].
  rewrite (isDigit_not_dash c Hc), (IH Ha). reflexivity.
Qed.

(** *** The order of identifiers *)

Lemma ascii_compare_refl (c : ascii) : Ascii.compare c c = Eq.
Proof. apply N.compare_refl. Qed.

Lemma string_compare_refl (a : string) : String.compare a a = Eq.
Proof.
  induction a as [|c a IH]; simpl; [reflexivity|].
  rewrite ascii_compare_refl. exact IH.
Qed.

Lemma string_compare_prefix (p a b : string) :
  String.compare (p ++ a) (p ++ b) = String.compare a b.
Proof.
  induction p as [|c p IH]; simpl; [reflexivity|].
  rewrite ascii_compare_refl. exact IH.
Qed.

Lemma string_compare_lt_trans (a b c : string) :
  String.compare a b = Lt -> String.compare b c = Lt -> String.compare a c = Lt.
Proof.
  revert b c. induction a as [|x a IH]; intros [|y b] [|z c]; simpl;
    try discriminate; try reflexivity.
  unfold Ascii.compare.
  destruct (N.compare_spec (N_of_ascii x) (N_of_ascii y)) as [Hxy|Hxy|Hxy];
    try discriminate;
    destruct (N.compare_spec (N_of_ascii y) (N_of_ascii z)) as [Hyz|Hyz|Hyz];
    try discriminate; intros H1 H2.
  - rewrite Hxy, Hyz, N.compare_refl. eapply IH; eassumption.
  - rewrite Hxy. apply N.compare_lt_iff in Hyz. rewrite Hyz. reflexivity.
  - rewrite <- Hyz. apply N.compare_lt_iff in Hxy. rewrite Hxy. reflexivity.
  - assert (Hxz : (N_of_ascii x < N_of_ascii z)%N) by lia.
    apply N.compare_lt_iff in Hxz. rewrite Hxz. reflexivity.
Qed.

(** On four digits the order of the strings is the order of the numbers. *)
Lemma pad4_increasing (a b : Z) :
  0 <= a -> a < b -> b <= 9999 -> String.compare (pad4 a) (pad4 b) = Lt.
Proof.
  intros Ha Hab Hb.
  assert (Hstep : forall k : nat,
             a + 1 + Z.of_nat k <= 9999 ->
             String.compare (pad4 a) (pad4 (a + 1 + Z.of_nat k)) = Lt).
  { induction k as [|k IH]; intros Hk.
    - destruct (decimal_shape a ltac:(lia)) as (_ & Hlt & _).
      specialize (Hlt ltac:(lia)). unfold String.ltb in Hlt.
      replace (a + 1 + Z.of_nat 0) with (a + 1) by lia.
      destruct (String.compare (pad4 a) (pad4 (a + 1))); congruence.
    - eapply string_compare_lt_trans; [apply IH; lia|].
      destruct (decimal_shape (a + 1 + Z.of_nat k) ltac:(lia))
        as (_ & Hlt & _).
      specialize (Hlt ltac:(lia)). unfold String.ltb in Hlt.
      replace (a + 1 + Z.of_nat (S k)) with (a + 1 + Z.of_nat k + 1) by lia.
      destruct (String.compare _ (pad4 (a + 1 + Z.of_nat k + 1))); congruence. }
  specialize (Hstep (Z.to_nat (b - a - 1)) ltac:(lia)).
  replace (a + 1 + Z.of_nat (Z.to_nat (b - a - 1))) with b in Hstep by lia.
  exact Hstep.
Qed.

Lemma pad4_ltb (a b : Z) :
  0 <= a <= 9999 -> 0 <= b <= 9999 ->
  String.ltb (pad4 a) (pad4 b) = (a <? b)%Z.
Proof.
  intros Ha Hb. unfold String.ltb.
  destruct (Z.ltb_spec a b) as [Hlt|Hge].
  - rewrite pad4_increasing by lia. reflexivity.
  - destruct (Z.eq_dec a b) as [->|Hne].
    + rewrite string_compare_refl. reflexivity.
    + rewrite String.compare_antisym, pad4_increasing by lia. reflexivity.
Qed.

(** *** The primary scheme *)

Lemma dayStamp_shape (env : Env) :
  Request.calendar env ->
  String.length (Request.dayStamp env) = 8%nat
  /\ JS.allDigits (Request.dayStamp env) = true.
Proof.
  intros (Hy & Hm & Hd). unfold Request.dayStamp.
  destruct (decimal_shape (fullYear env) ltac:(lia)) as (_ & _ & Hyear & _).
  destruct (digitsOf_spec _ _ _ (Hyear ltac:(lia))) as (Hy1 & Hy2 & _).
  destruct (decimal_shape (month env + 1) ltac:(lia)) as (_ & _ & _ & Hmon).
  destruct (digitsOf_spec _ _ _ (Hmon ltac:(lia))) as (Hm1 & Hm2 & _).
  destruct (decimal_shape (dayOfMonth env) ltac:(lia)) as (_ & _ & _ & Hday).
  destruct (digitsOf_spec _ _ _ (Hday ltac:(lia))) as (Hd1 & Hd2 & _).
  rewrite !length_append, !allDigits_append, Hy1, Hy2, Hm1, Hm2, Hd1, Hd2.
  split; reflexivity.
Qed.

Lemma primaryId_split (env : Env) (n : Z) :
  Request.calendar env -> 0 <= n <= 9999 ->
  JS.split "-" (Request.primaryId env n) = ["REQ"; Request.dayStamp env; pad4 n].
Proof.
  intros Hcal Hn. unfold Request.primaryId.
  destruct (dayStamp_shape env Hcal) as [_ Hstamp].
  destruct (decimal_shape n Hn) as (Hseq & _).
  apply digitsOf_spec in Hseq as (_ & Hseq & _).
  change ("REQ-" ++ Request.dayStamp env ++ "-" ++ pad4 n)
    with (String "R" (String "E" (String "Q" (String "-"
            (Request.dayStamp env ++ String "-" (pad4 n)))))).
  cbn [JS.split Ascii.eqb Bool.eqb].
  rewrite split_digits_dash by exact Hstamp.
  rewrite split_digits by exact Hseq. reflexivity.
Qed.

(** The request that carries the identifier of sequence number [n]. *)
Lemma sequenceOf_primary (env : Env) (r : t) (n : Z) :
  Request.calendar env -> 0 <= n <= 9999 ->
  requestId r = Some (Request.primaryId env n) ->
  Request.sequenceOf r = n /\ Request.nextSequence (Some r) = n + 1.
Proof.
  intros Hcal Hn Hid. unfold Request.sequenceOf, Request.nextSequence.
  rewrite Hid. cbn [orElse].
  rewrite primaryId_split by assumption. cbn [nth_error JS.parseIntOpt].
  destruct (decimal_shape n Hn) as (Hparse & _).
  apply digitsOf_spec in Hparse as (_ & _ & Hparse). rewrite Hparse.
  split; reflexivity.
Qed.

Lemma primaryId_ltb (env : Env) (a b : Z) :
  0 <= a <= 9999 -> 0 <= b <= 9999 ->
  String.ltb (Request.primaryId env a) (Request.primaryId env b) = (a <? b)%Z.
Proof.
  intros Ha Hb. rewrite <- (pad4_ltb a b Ha Hb).
  unfold String.ltb, Request.primaryId.
  rewrite !string_compare_prefix. reflexivity.
Qed.

Lemma highestSequence_nonneg (env : Env) (rs : list t) :
  0 <= Request.highestSequence env rs.
Proof.
  unfold Request.highestSequence.
  induction (List.map Request.sequenceOf (List.filter (Request.ofDay env) rs))
    as [|x l IH]; simpl; lia.
Qed.

Lemma highestSequence_cons (env : Env) (r : t) (rs : list t) :
  Request.highestSequence env (r :: rs)
  = if Request.ofDay env r
    then Z.max (Request.sequenceOf r) (Request.highestSequence env rs)
    else Request.highestSequence env rs.
Proof.
  unfold Request.highestSequence. simpl.
  destruct (Request.ofDay env r); reflexivity.
Qed.

(** The scan keeps the request with the highest sequence number. *)
Lemma findLastOfDay_scan (env : Env) (rs : list t) :
  Request.calendar env ->
  Request.dayWellFormed env rs ->
  forall (best : option t) (top : Z),
    Request.scanned env best top ->
    Request.scanned env
      (List.fold_left
         (fun best r =>
            if Request.ofDay env r
            then Some (match best with Some b => Request.later b r | None => r end)
            else best)
         rs best)
      (Z.max top (Request.highestSequence env rs)).
Proof.
  intros Hcal. induction rs as [|r rs IH]; intros Hwf best top Hbest.
  - simpl. replace (Z.max top (Request.highestSequence env [])) with top; [exact Hbest|].
    unfold Request.highestSequence. simpl.
    destruct best; simpl in Hbest; lia.
  - assert (Hwf' : Request.dayWellFormed env rs).
    { intros x Hx. apply Hwf. right. exact Hx. }
    rewrite highestSequence_cons. cbn [List.fold_left].
    destruct (Request.ofDay env r) eqn:Hday.
    + destruct (Hwf r ltac:(left; reflexivity) Hday) as (n & Hn & Hid).
      destruct (sequenceOf_primary env r n Hcal ltac:(lia) Hid) as [Hseq _].
      rewrite Hseq, Z.max_assoc. apply IH; [exact Hwf'|].
      destruct best as [b|]; simpl in Hbest.
      * destruct Hbest as [Htop Hb]. unfold Request.later.
        rewrite Hb, Hid. cbn [orElse].
        rewrite primaryId_ltb by lia.
        destruct (Z.ltb_spec top n); simpl.
        -- split; [lia|]. rewrite Hid. f_equal. f_equal. lia.
        -- split; [lia|]. rewrite Hb. f_equal. f_equal. lia.
      * subst top. simpl. split; [lia|]. rewrite Hid. f_equal. f_equal. lia.
    + apply IH; assumption.
Qed.

(** With well-formed identifiers, the sequence number the hook computes
    is one more than the highest of the day. *)
Lemma nextSequence_highest (env : Env) (rs : list t) :
  Request.calendar env ->
  Request.dayWellFormed env rs ->
  Request.nextSequence (Request.findLastOfDay env rs)
  = Request.highestSequence env rs + 1.
Proof.
  intros Hcal Hwf.
  pose proof (findLastOfDay_scan env rs Hcal Hwf None 0 eq_refl) as H.
  pose proof (highestSequence_nonneg env rs) as Hpos.
  rewrite Z.max_r in H by exact Hpos.
  fold (Request.findLastOfDay env rs) in H.
  destruct (Request.findLastOfDay env rs) as [b|]; simpl in H.
  - destruct H as [Htop Hb].
    apply (sequenceOf_primary env b (Request.highestSequence env rs) Hcal);
      [lia|exact Hb].
  - rewrite H. reflexivity.
Qed.

Lemma primaryId_shape (env : Env) (n : Z) :
  Request.calendar env -> 0 <= n <= 9999 ->
  Request.primaryShape env n (Request.primaryId env n).
Proof.
  intros (Hy & Hm & Hd) Hn.
  exists (JS.toString (fullYear env)), (pad2 (month env + 1)),
    (pad2 (dayOfMonth env)), (pad4 n).
  split.
  - unfold Request.primaryId, Request.dayStamp.
    rewrite !append_assoc. reflexivity.
  - split; [apply (decimal_shape (fullYear env)); lia|].
    split; [apply (decimal_shape (month env + 1)); lia|].
    split; [apply (decimal_shape (dayOfMonth env)); lia|].
    apply (decimal_shape n); lia.
Qed.

(** After 9999 requests in a day the sequence number has five digits. *)
Lemma ten_thousandth_identifier_has_five_digits :
  Request.calendar Sample.env
  /\ exists db' d',
       Request.save Sample.env Sample.busyDay
         (Request.new Sample.env (Sample.issueRequest 1%N))
       = inr (db', d')
       /\ requestId (Request.this d') = Some "REQ-20251103-10000".
Proof.
  split; [unfold Request.calendar; simpl; lia|].
  eexists _, _. split; reflexivity.
Qed.

(** C5: a request saved without identifier, on a date whose year has
    four digits, gets one from the identifier hook. When the query of the
    hook succeeds, the identifiers of the day come from the primary
    scheme and the highest sequence number of the day is below 9999, the
    identifier is REQ-YYYYMMDD-SEQ: the date of the day on eight digits
    and, on four digits padded with zeros, one more than the highest
    sequence number of the day (0001 on a day without requests). When the
    query fails, the identifier is REQ-, the clock in milliseconds, a
    dash and the random suffix, and the save goes on: a new valid request
    whose identifier is free is stored with it. *)
Theorem generated_identifier :
  forall (env : Env) (db : DB) (d : Request.Doc),
    Request.calendar env ->
    JS.truthy (requestId (Request.this d)) = false ->
    (findOneFails env = false ->
     Request.dayWellFormed env (requests db) ->
     Request.highestSequence env (requests db) < 9999 ->
     exists id : string,
       requestId (Request.this (Request.preValidate env db d)) = Some id
       /\ Request.primaryShape env (Request.highestSequence env (requests db) + 1) id)
    /\ (findOneFails env = true ->
        requestId (Request.this (Request.preValidate env db d))
        = Some ("REQ-" ++ JS.toString (now env) ++ "-" ++ random env)
        /\ (Request.isNew d = true ->
            Request.validate (Request.this d) = None ->
            Request.duplicateKey (requests db)
              (Request.this (Request.preValidate env db d)) = false ->
            exists db' d',
              Request.save env db d = inr (db', d')
              /\ requestId (Request.this d')
                 = Some ("REQ-" ++ JS.toString (now env) ++ "-" ++ random env)
              /\ In (Request.this d') (requests db'))).
Proof.
  intros env db d Hcal Hid. split.
  - intros Hq Hwf Hmax.
    rewrite preValidate_generates by assumption. simpl.
    rewrite nextSequence_highest by assumption.
    eexists. split; [reflexivity|].
    apply primaryId_shape; [exact Hcal|].
    pose proof (highestSequence_nonneg env (requests db)). lia.
  - intros Hq.
    assert (Hthis : Request.this (Request.preValidate env db d)
                    = Request.setRequestId (Request.fallbackId env) (Request.this d)).
    { unfold Request.preValidate, Request.generateRequestId, Request.queryLastOfDay.
      simpl. rewrite Hid, Hq. reflexivity. }
    split; [rewrite Hthis; reflexivity|].
    intros Hnew Hv Hfree. unfold Request.save.
    rewrite commit_new; [|exact Hnew|rewrite Hthis; exact Hv].
    rewrite Hfree. eexists _, _. split; [reflexivity|].
    cbn [Request.this requests withRequests].
    split; [rewrite Hthis; reflexivity|].
    apply in_or_app. right. left. reflexivity.
Qed.

Lemma generated_identifier_witness :
  (exists id,
      requestId (Request.this
                   (Request.preValidate Sample.env Sample.db
                      (Request.new Sample.env (Sample.issueRequest 1%N))))
      = Some id
      /\ Request.primaryShape Sample.env 2 id)
  /\ exists db' d',
       Request.save Sample.offline Sample.db
         (Request.new Sample.offline (Sample.issueRequest 1%N))
       = inr (db', d')
       /\ requestId (Request.this d') = Some "REQ-1762152000000-k3j9x0q1z"
       /\ In (Request.this d') (requests db').
Proof.
  assert (Hcal : Request.calendar Sample.env) by (unfold Request.calendar; simpl; lia).
  assert (Hcal' : Request.calendar Sample.offline)
    by (unfold Request.calendar; simpl; lia).
  split.
  - apply (proj1 (generated_identifier Sample.env Sample.db
                    (Request.new Sample.env (Sample.issueRequest 1%N))
                    Hcal eq_refl)).
    + reflexivity.
    + intros r Hr Hday. simpl in Hr.
      destruct Hr as [<-|[<-|[<-|[]]]]; try discriminate Hday.
      exists 1. split; [lia|reflexivity].
    + vm_compute. reflexivity.
  - apply (proj2 (generated_identifier Sample.offline Sample.db
                    (Request.new Sample.offline (Sample.issueRequest 1%N))
                    Hcal' eq_refl)); reflexivity.
Defined.

End IdentifierFacts.

(** ** Requests from a pool *)
Section PoolFacts.

Import requestSchema.
Local Open Scope string_scope.

(** The identifier hook leaves the paths that validation reads. *)
Lemma validate_preValidate env db (d : Request.Doc) :
  Request.validate (Request.this (Request.preValidate env db d))
  = Request.validate (Request.this d).
Proof.
  unfold Request.preValidate, Request.generateRequestId. simpl.
  destruct (negb _); [|reflexivity].
  destruct (Request.queryLastOfDay env db); reflexivity.
Qed.




End PoolFacts.
(** ** Equipment: the routes on the collection *)
Section EquipmentRouteFacts.

Import equipmentSchema.
Local Open Scope string_scope.

(** *** Trimming *)

Lemma trimStart_eq (s : string) :
  JS.trimStart s =
  match s with
  | EmptyString => EmptyString
  | String c1 r1 =>
      if JS.isWhiteSpace c1 then JS.trimStart r1
      else match r1 with
           | EmptyString => s
           | String c2 r2 =>
               if JS.isWhiteSpace2 c1 c2 then JS.trimStart r2
               else match r2 with
                    | EmptyString => s
                    | String c3 r3 =>
                        if JS.isWhiteSpace3 c1 c2 c3 then JS.trimStart r3 else s
                    end
           end
  end.
Proof. destruct s; reflexivity. Qed.

Lemma trimStart_shorter (s : string) :
  (String.length (JS.trimStart s) <= String.length s)%nat.
Proof.
  remember (String.length s) as n eqn:Hn.
  revert s Hn. induction n as [n IH] using lt_wf_ind. intros s ->.
  rewrite trimStart_eq.
  destruct s as [|c1 r1]; [simpl; lia|].
  destruct (JS.isWhiteSpace c1).
  { pose proof (IH (String.length r1) ltac:(simpl; lia) r1 eq_refl). simpl. lia. }
  destruct r1 as [|c2 r2]; [simpl; lia|].
  destruct (JS.isWhiteSpace2 c1 c2).
  { pose proof (IH (String.length r2) ltac:(simpl; lia) r2 eq_refl). simpl. lia. }
  destruct r2 as [|c3 r3]; [simpl; lia|].
  destruct (JS.isWhiteSpace3 c1 c2 c3); [|simpl; lia].
  pose proof (IH (String.length r3) ltac:(simpl; lia) r3 eq_refl). simpl. lia.
Qed.

Lemma trimStart_idempotent (s : string) :
  JS.trimStart (JS.trimStart s) = JS.trimStart s.
Proof.
  remember (String.length s) as n eqn:Hn.
  revert s Hn. induction n as [n IH] using lt_wf_ind. intros s ->.
  rewrite (trimStart_eq s).
  destruct s as [|c1 r1]; [reflexivity|].
  destruct (JS.isWhiteSpace c1) eqn:H1.
  { apply (IH (String.length r1)); [simpl; lia|reflexivity]. }
  destruct r1 as [|c2 r2].
  { rewrite trimStart_eq, H1. reflexivity. }
  destruct (JS.isWhiteSpace2 c1 c2) eqn:H2.
  { apply (IH (String.length r2)); [simpl; lia|reflexivity]. }
  destruct r2 as [|c3 r3].
  { rewrite trimStart_eq, H1, H2. reflexivity. }
  destruct (JS.isWhiteSpace3 c1 c2 c3) eqn:H3.
  { apply (IH (String.length r3)); [simpl; lia|reflexivity]. }
  rewrite trimStart_eq, H1, H2, H3. reflexivity.
Qed.

(** A string that [trimStart] keeps does not start with white space. *)
Lemma trimStart_fixed (c1 : ascii) (r1 : string) :
  JS.trimStart (String c1 r1) = String c1 r1 ->
  JS.isWhiteSpace c1 = false
  /\ forall c2 r2, r1 = String c2 r2 ->
       JS.isWhiteSpace2 c1 c2 = false
       /\ forall c3 r3, r2 = String c3 r3 -> JS.isWhiteSpace3 c1 c2 c3 = false.
Proof.
  intros H.
  assert (Hshort : forall r, (String.length r < String.length (String c1 r1))%nat ->
                             JS.trimStart r <> String c1 r1).
  { intros r Hr E. pose proof (trimStart_shorter r) as L. rewrite E in L. lia. }
  rewrite trimStart_eq in H.
  destruct (JS.isWhiteSpace c1).
  { exfalso. apply (Hshort r1); [simpl; lia|exact H]. }
  split; [reflexivity|]. intros c2 r2 ->. cbv beta iota in H.
  destruct (JS.isWhiteSpace2 c1 c2).
  { exfalso. apply (Hshort r2); [simpl; lia|exact H]. }
  split; [reflexivity|]. intros c3 r3 ->. cbv beta iota in H.
  destruct (JS.isWhiteSpace3 c1 c2 c3); [|reflexivity].
  exfalso. apply (Hshort r3); [simpl; lia|exact H].
Qed.

Lemma trimEnd_eq (c : ascii) (r : string) :
  JS.trimEnd (String c r)
  = if JS.isWhiteSpaceChar (String c (JS.trimEnd r)) then ""
    else String c (JS.trimEnd r).
Proof. reflexivity. Qed.

Lemma trimEnd_cons_inv (s : string) (c : ascii) (t : string) :
  JS.trimEnd s = String c t -> exists r, s = String c r /\ t = JS.trimEnd r.
Proof.
  destruct s as [|d r]; [discriminate|]. rewrite trimEnd_eq.
  destruct (JS.isWhiteSpaceChar _); [discriminate|].
  intros [= -> <-]. exists r. auto.
Qed.

Lemma trimEnd_idempotent (s : string) : JS.trimEnd (JS.trimEnd s) = JS.trimEnd s.
Proof.
  induction s as [|c s IH]; [reflexivity|].
  rewrite trimEnd_eq.
  destruct (JS.isWhiteSpaceChar (String c (JS.trimEnd s))) eqn:Hw; [reflexivity|].
  rewrite trimEnd_eq, IH, Hw. reflexivity.
Qed.

(** What is left of a string that does not start with white space does
    not start with white space either. *)
Lemma trimStart_trimEnd (u : string) :
  JS.trimStart u = u -> JS.trimStart (JS.trimEnd u) = JS.trimEnd u.
Proof.
  intros H. destruct (JS.trimEnd u) as [|c1 t1] eqn:E; [reflexivity|].
  apply trimEnd_cons_inv in E as (r1 & -> & ->).
  apply trimStart_fixed in H as (H1 & H).
  rewrite trimStart_eq, H1.
  destruct (JS.trimEnd r1) as [|c2 t2] eqn:E2; [reflexivity|].
  apply trimEnd_cons_inv in E2 as (r2 & -> & ->).
  destruct (H c2 r2 eq_refl) as (H2 & H').
  rewrite H2.
  destruct (JS.trimEnd r2) as [|c3 t3] eqn:E3; [reflexivity|].
  apply trimEnd_cons_inv in E3 as (r3 & -> & ->).
  rewrite (H' c3 r3 eq_refl). reflexivity.
Qed.

Lemma trim_idempotent (s : string) : JS.trim (JS.trim s) = JS.trim s.
Proof.
  unfold JS.trim.
  rewrite (trimStart_trimEnd _ (trimStart_idempotent s)).
  apply trimEnd_idempotent.
Qed.

Lemma isLength_nonempty (lo : nat) (hi : option nat) (s : string) :
  JS.isLength (S lo) hi s = true -> String.eqb s "" = false.
Proof. destruct s; [discriminate|reflexivity]. Qed.

Lemma isLength_blank (lo : nat) (hi : option nat) : JS.isLength (S lo) hi "" = false.
Proof. reflexivity. Qed.

Lemma isLength_above (lo hi : nat) (s : string) :
  (hi < JS.characters s)%nat -> JS.isLength lo (Some hi) s = false.
Proof.
  intros H. unfold JS.isLength.
  replace (JS.characters s <=? hi)%nat with false
    by (symmetry; apply Nat.leb_gt; exact H).
  apply andb_false_r.
Qed.

(** *** The collection as a list *)

Lemma In_documents (db : DB) (e : t) :
  In e (Equipment.documents db) <-> exists i, equipment db !! i = Some e.
Proof.
  unfold Equipment.documents. rewrite in_map_iff. split.
  - intros ([i x] & Hx & Hin). simpl in Hx. subst x.
    apply list_elem_of_In, elem_of_map_to_list in Hin. exists i. exact Hin.
  - intros (i & Hi). exists (i, e). split; [reflexivity|].
    apply list_elem_of_In, elem_of_map_to_list. exact Hi.
Qed.

Lemma serialTaken_true (db : DB) (serial : string) :
  Equipment.serialTaken db serial = true <->
  exists i e, equipment db !! i = Some e /\ serialNumber e = serial.
Proof.
  unfold Equipment.serialTaken. rewrite existsb_exists. split.
  - intros (e & Hin & Heq). apply In_documents in Hin as (i & Hi).
    apply String.eqb_eq in Heq. exists i, e. auto.
  - intros (i & e & Hi & Heq). exists e. split.
    + apply In_documents. exists i. exact Hi.
    + apply String.eqb_eq. exact Heq.
Qed.

Lemma withEquipment_same (db : DB) : withEquipment db (equipment db) = db.
Proof. destruct db; reflexivity. Qed.

Lemma withEquipment_twice (db : DB) (m m' : gmap N t) :
  withEquipment (withEquipment db m) m' = withEquipment db m'.
Proof. reflexivity. Qed.

(** Back in stock, an item that was Available without custody block
    differs from what it was by the stamp only. *)
Lemma setCustody_round_trip stamp stamp' c (e : t) :
  status e = Available -> issuedTo e = None ->
  Equipment.setUpdatedAt stamp'
    (Equipment.setCustody Available None
       (Equipment.setUpdatedAt stamp (Equipment.setCustody Issued c e)))
  = Equipment.setUpdatedAt stamp' e.
Proof. intros Hs Hc. destruct e; simpl in *. subst. reflexivity. Qed.

(** The stamp of the save in [issueToUser]. *)
Local Abbreviation issueStamp env expected :=
  (match expected : option Date with
   | Some _ => reading env 1
   | None => reading env 2
   end).

(** The document that [issueToUser] gives for [e]. *)
Local Abbreviation issued env uid expected e :=
  (Equipment.setUpdatedAt (issueStamp env expected)
     (Equipment.setCustody Issued
        (Some {| userId := uid;
                 issuedDate := now env;
                 expectedReturnDate :=
                   orElse expected (reading env 1 + 30 * Equipment.msPerDay) |})
        e)).

(** What the issue route does to a stored Available item. *)
Lemma issue_available env (db : DB) (id uid : ObjectId) expected (e : t) :
  Equipment.keyed db ->
  equipment db !! id = Some e ->
  Equipment.validate e = None ->
  status e = Available ->
  EquipmentRoutes.issue env db id uid expected
  = (ok 200 "Equipment issued successfully",
     withEquipment db (<[id := issued env uid expected e]> (equipment db))).
Proof.
  intros Hk He Hv Hs. unfold EquipmentRoutes.issue. rewrite He.
  pose proof (Hk id e He) as Hid.
  assert (Hst : equipment db !! _id e = Some e) by (rewrite Hid; exact He).
  pose proof (issueToUser_stored env db uid expected e Hst Hv Hs) as Hi.
  cbv zeta in Hi. rewrite Hi, Hid. reflexivity.
Qed.

(** What the return route does to a stored Issued item. *)
Lemma return_issued env (db : DB) (id : ObjectId) (e : t) :
  Equipment.keyed db ->
  equipment db !! id = Some e ->
  Equipment.validate e = None ->
  status e = Issued ->
  EquipmentRoutes.return_ env db id
  = (ok 200 "Equipment returned successfully",
     withEquipment db
       (<[id := Equipment.setUpdatedAt (now env)
                  (Equipment.setCustody Available None e)]> (equipment db))).
Proof.
  intros Hk He Hv Hs. unfold EquipmentRoutes.return_. rewrite He.
  pose proof (Hk id e He) as Hid.
  assert (Hst : equipment db !! _id e = Some e) by (rewrite Hid; exact He).
  pose proof (returnFromUser_stored env db e Hst Hv Hs) as Hi.
  cbv zeta in Hi. rewrite Hi, Hid. reflexivity.
Qed.

Lemma keyed_insert (db : DB) (i : ObjectId) (e : t) :
  Equipment.keyed db -> _id e = i ->
  Equipment.keyed (withEquipment db (<[i := e]> (equipment db))).
Proof.
  intros Hk He j x. simpl. rewrite lookup_insert.
  destruct (decide (i = j)) as [->|Hne]; simpl.
  - intros [= <-]. exact He.
  - apply Hk.
Qed.

Lemma sample_db_keyed : Equipment.keyed Sample.db.
Proof.
  intros i x H. simpl in H. apply lookup_singleton_Some in H as [<- <-]. reflexivity.
Qed.

Lemma sample_twoRadios_keyed : Equipment.keyed Sample.twoRadios.
Proof.
  intros i x H. simpl in H.
  apply lookup_insert_Some in H as [[<- <-]|[_ H]]; [reflexivity|].
  apply lookup_singleton_Some in H as [<- <-]. reflexivity.
Qed.

(** X1: on a collection where every document is stored under its own
    [_id], issuing an item that satisfies the schema, is Available and
    has no custody block, and then returning it, through the two routes,
    succeeds twice and gives back the database the first call started
    from but for the stamp [updatedAt] of the item, which is the instant
    of the return. *)
Theorem issue_return_routes_restore_all_but_stamp :
  forall (env env' : Env) (db : DB) (id uid : ObjectId) (expected : option Date)
         (e : t),
    Equipment.keyed db ->
    equipment db !! id = Some e ->
    Equipment.validate e = None ->
    status e = Available ->
    issuedTo e = None ->
    exists db1,
      EquipmentRoutes.issue env db id uid expected
      = (ok 200 "Equipment issued successfully", db1)
      /\ (exists e1, equipment db1 !! id = Some e1 /\ status e1 = Issued
                     /\ option_map userId (issuedTo e1) = Some uid)
      /\ EquipmentRoutes.return_ env' db1 id
         = (ok 200 "Equipment returned successfully",
            withEquipment db
              (<[id := Equipment.setUpdatedAt (now env') e]> (equipment db))).
Proof.
  intros env env' db id uid expected e Hk He Hv Hs Hc.
  eexists. split; [apply issue_available; eassumption|].
  split.
  - eexists. split; [apply lookup_insert_eq|]. split; reflexivity.
  - erewrite return_issued;
      [ | apply keyed_insert; [exact Hk|simpl; apply (Hk id e He)]
        | apply lookup_insert_eq | exact Hv | reflexivity ].
    f_equal. cbn [equipment withEquipment].
    rewrite withEquipment_twice, insert_insert_eq.
    rewrite setCustody_round_trip by assumption. reflexivity.
Qed.

Lemma issue_return_routes_restore_all_but_stamp_witness :
  exists db1,
    EquipmentRoutes.issue Sample.env Sample.db 10%N Sample.officer None
    = (ok 200 "Equipment issued successfully", db1)
    /\ EquipmentRoutes.return_ Sample.later db1 10%N
       = (ok 200 "Equipment returned successfully",
          withEquipment Sample.db
            (<[10%N := Equipment.setUpdatedAt 1762155600000 Sample.radio]>
               (equipment Sample.db))).
Proof.
  destruct (issue_return_routes_restore_all_but_stamp Sample.env Sample.later
              Sample.db 10%N Sample.officer None Sample.radio sample_db_keyed)
    as (db1 & H1 & _ & H2); try reflexivity.
  exists db1. split; assumption.
Defined.

(** X2: an item cannot be issued twice in a row, nor returned twice in a
    row: after the issue route has answered 200 for an item, every
    further issue of it is answered 400, not available, and after the
    return route has answered 200, a further return is answered 400, not
    issued; the refused call leaves the database as it is. *)
Theorem issue_and_return_not_repeatable :
  forall (env : Env) (db db1 : DB) (id uid : ObjectId) (expected : option Date),
    Equipment.keyed db ->
    (EquipmentRoutes.issue env db id uid expected
     = (ok 200 "Equipment issued successfully", db1) ->
     forall env' uid' expected',
       EquipmentRoutes.issue env' db1 id uid' expected'
       = (failure 400 "Equipment is not available for issue", db1))
    /\ (EquipmentRoutes.return_ env db id
        = (ok 200 "Equipment returned successfully", db1) ->
        forall env',
          EquipmentRoutes.return_ env' db1 id
          = (failure 400 "Equipment is not currently issued", db1)).
Proof.
  intros env db db1 id uid expected Hk. split.
  - unfold EquipmentRoutes.issue at 1.
    destruct (equipment db !! id) as [e|] eqn:He; [|discriminate].
    destruct (Equipment.issueToUser env db uid expected e) as [err|[db' e']] eqn:Hi;
      [discriminate|].
    intros H env' uid' expected'. injection H as <-.
    apply issueToUser_inr in Hi as (_ & _ & stored & _ & -> & ->).
    rewrite (Hk id e He).
    unfold EquipmentRoutes.issue. cbn [equipment withEquipment].
    rewrite lookup_insert_eq. reflexivity.
  - unfold EquipmentRoutes.return_ at 1.
    destruct (equipment db !! id) as [e|] eqn:He; [|discriminate].
    destruct (Equipment.returnFromUser env db e) as [err|[db' e']] eqn:Hi;
      [discriminate|].
    intros H env'. injection H as <-.
    apply returnFromUser_inr in Hi as (_ & _ & stored & _ & -> & ->).
    rewrite (Hk id e He).
    unfold EquipmentRoutes.return_. cbn [equipment withEquipment].
    rewrite lookup_insert_eq. reflexivity.
Qed.

Lemma issue_and_return_not_repeatable_witness :
  exists db1,
    EquipmentRoutes.issue Sample.env Sample.db 10%N Sample.officer None
    = (ok 200 "Equipment issued successfully", db1)
    /\ EquipmentRoutes.issue Sample.envB db1 10%N Sample.admin None
       = (failure 400 "Equipment is not available for issue", db1).
Proof.
  eexists. split; [reflexivity|].
  apply (proj1 (issue_and_return_not_repeatable Sample.env Sample.db _ 10%N
                  Sample.officer None sample_db_keyed)).
  reflexivity.
Defined.

(** X3: the issue, return, update and delete routes called for one item
    leave the document of every other item as it is, and never write the
    requests or the pools. *)
Theorem equipment_routes_touch_one_document :
  forall (env : Env) (db : DB) (admin id uid : ObjectId) (expected : option Date)
         (body : EquipmentRoutes.UpdateBody) (k : ObjectId),
    Equipment.keyed db ->
    k <> id ->
    let after := fun (result : Response * DB) =>
      equipment (snd result) !! k = equipment db !! k
      /\ requests (snd result) = requests db
      /\ equipmentpools (snd result) = equipmentpools db in
    after (EquipmentRoutes.issue env db id uid expected)
    /\ after (EquipmentRoutes.return_ env db id)
    /\ after (EquipmentRoutes.update env db admin id body)
    /\ after (EquipmentRoutes.delete db id).
Proof.
  intros env db admin id uid expected body k Hk Hne after. subst after.
  cbv beta. split; [|split; [|split]].
  - unfold EquipmentRoutes.issue.
    destruct (equipment db !! id) as [e|] eqn:He; [|auto].
    destruct (Equipment.issueToUser env db uid expected e) as [err|[db' e']] eqn:Hi;
      [auto|].
    apply issueToUser_inr in Hi as (_ & _ & stored & _ & -> & ->).
    rewrite (Hk id e He). simpl.
    rewrite lookup_insert_ne by congruence. auto.
  - unfold EquipmentRoutes.return_.
    destruct (equipment db !! id) as [e|] eqn:He; [|auto].
    destruct (Equipment.returnFromUser env db e) as [err|[db' e']] eqn:Hi; [auto|].
    apply returnFromUser_inr in Hi as (_ & _ & stored & _ & -> & ->).
    rewrite (Hk id e He). simpl.
    rewrite lookup_insert_ne by congruence. auto.
  - unfold EquipmentRoutes.update.
    destruct (negb _); [auto|].
    destruct (equipment db !! id) as [e|]; [|auto].
    destruct (negb _); [auto|]. simpl.
    rewrite lookup_insert_ne by congruence. auto.
  - unfold EquipmentRoutes.delete.
    destruct (equipment db !! id) as [e|]; [|auto].
    destruct (Status_eqb _ _); [auto|]. simpl.
    rewrite lookup_delete_ne by congruence. auto.
Qed.

Lemma equipment_routes_touch_one_document_witness :
  statusCode (fst (EquipmentRoutes.issue Sample.env Sample.twoRadios 10%N
                     Sample.officer None)) = 200%N
  /\ option_map status
       (equipment (snd (EquipmentRoutes.issue Sample.env Sample.twoRadios 10%N
                          Sample.officer None)) !! 10%N) = Some Issued
  /\ equipment (snd (EquipmentRoutes.issue Sample.env Sample.twoRadios 10%N
                       Sample.officer None)) !! 11%N = Some Sample.spareRadio
  /\ statusCode (fst (EquipmentRoutes.delete Sample.twoRadios 10%N)) = 200%N
  /\ equipment (snd (EquipmentRoutes.delete Sample.twoRadios 10%N)) !! 11%N
     = Some Sample.spareRadio.
Proof.
  destruct (equipment_routes_touch_one_document Sample.env Sample.twoRadios
              Sample.admin 10%N Sample.officer None (Sample.statusOnly Retired)
              11%N sample_twoRadios_keyed ltac:(discriminate))
    as ((Hi & _) & _ & _ & (Hd & _)).
  split; [reflexivity|]. split; [reflexivity|].
  split; [rewrite Hi; reflexivity|]. split; [reflexivity|].
  rewrite Hd. reflexivity.
Defined.

(** X4: the delete route never removes an item that is Issued, whichever
    item it is called for: it answers 400 for an Issued item and 404 for
    an unknown one, both without change; for any other item it answers
    200 and the item is gone. *)
Theorem delete_spares_issued_equipment :
  forall (db : DB) (id : ObjectId),
    (forall k e,
        equipment db !! k = Some e -> status e = Issued ->
        equipment (snd (EquipmentRoutes.delete db id)) !! k = Some e)
    /\ (forall e,
          equipment db !! id = Some e -> status e = Issued ->
          EquipmentRoutes.delete db id
          = (failure 400 "Cannot delete equipment that is currently issued", db))
    /\ (equipment db !! id = None ->
        EquipmentRoutes.delete db id = (failure 404 "Equipment not found", db))
    /\ (forall e,
          equipment db !! id = Some e -> status e <> Issued ->
          exists db',
            EquipmentRoutes.delete db id = (ok 200 "Equipment deleted successfully", db')
            /\ equipment db' !! id = None).
Proof.
  intros db id. split; [|split; [|split]].
  - intros k e He Hs. unfold EquipmentRoutes.delete.
    destruct (equipment db !! id) as [x|] eqn:Hx; [|exact He].
    destruct (Status_eqb (status x) Issued) eqn:Hsx; [exact He|]. simpl.
    rewrite lookup_delete_ne; [exact He|].
    intros ->. rewrite He in Hx. injection Hx as <-.
    apply Status_eqb_neq in Hsx. contradiction.
  - intros e He Hs. unfold EquipmentRoutes.delete. rewrite He, Hs. reflexivity.
  - intros He. unfold EquipmentRoutes.delete. rewrite He. reflexivity.
  - intros e He Hs. unfold EquipmentRoutes.delete. rewrite He.
    apply Status_eqb_neq in Hs. rewrite Hs.
    eexists. split; [reflexivity|]. simpl. apply lookup_delete_eq.
Qed.

Lemma delete_spares_issued_equipment_witness :
  EquipmentRoutes.delete Sample.exhausted 10%N
  = (failure 400 "Cannot delete equipment that is currently issued", Sample.exhausted)
  /\ exists db',
       EquipmentRoutes.delete Sample.db 10%N
       = (ok 200 "Equipment deleted successfully", db')
       /\ equipment db' !! 10%N = None.
Proof.
  destruct (delete_spares_issued_equipment Sample.exhausted 10%N) as (_ & Hi & _).
  destruct (delete_spares_issued_equipment Sample.db 10%N) as (_ & _ & _ & Hd).
  split.
  - apply (Hi Sample.issuedRadio); reflexivity.
  - apply (Hd Sample.radio); [reflexivity|]. simpl. discriminate.
Defined.

(** *** Updates *)

Lemma assign_assign {A : Type} (x : option A) (old : A) :
  assign x (assign x old) = assign x old.
Proof. destruct x; reflexivity. Qed.

(** The same update once more writes the stamp only. *)
Lemma applyUpdates_twice stamp stamp' (b : EquipmentRoutes.UpdateBody)
    (admin : ObjectId) (e : t) :
  EquipmentRoutes.applyUpdates stamp' b admin
    (EquipmentRoutes.applyUpdates stamp b admin e)
  = Equipment.setUpdatedAt stamp' (EquipmentRoutes.applyUpdates stamp b admin e).
Proof.
  unfold EquipmentRoutes.applyUpdates, Equipment.setUpdatedAt. simpl.
  rewrite !assign_assign. destruct (EquipmentRoutes.notes b); reflexivity.
Qed.

Lemma setUpdatedAt_applyUpdates stamp (b : EquipmentRoutes.UpdateBody)
    (admin : ObjectId) (e : t) :
  Equipment.setUpdatedAt stamp (EquipmentRoutes.applyUpdates stamp b admin e)
  = EquipmentRoutes.applyUpdates stamp b admin e.
Proof. reflexivity. Qed.

(** X5: whatever its body, the update route never writes the custody
    block, the serial number, the purchase date, the author, the
    maintenance history, the images or the [_id] of the item; when it
    answers 200 the item is marked as last modified by the caller. *)
Theorem update_keeps_custody_and_identity :
  forall (env : Env) (db : DB) (admin id : ObjectId)
         (body : EquipmentRoutes.UpdateBody) (e e' : t),
    equipment db !! id = Some e ->
    equipment (snd (EquipmentRoutes.update env db admin id body)) !! id = Some e' ->
    (issuedTo e' = issuedTo e /\ serialNumber e' = serialNumber e
     /\ purchaseDate e' = purchaseDate e /\ addedBy e' = addedBy e
     /\ maintenanceHistory e' = maintenanceHistory e /\ images e' = images e
     /\ _id e' = _id e)
    /\ (statusCode (fst (EquipmentRoutes.update env db admin id body)) = 200%N ->
        lastModifiedBy e' = Some admin).
Proof.
  intros env db admin id body e e' He. unfold EquipmentRoutes.update.
  destruct (negb (EquipmentRoutes.bodyValid _)); simpl.
  - rewrite He. intros [= <-]. split; [repeat split|discriminate].
  - rewrite He. destruct (negb (EquipmentRoutes.updateValidators _)); simpl.
    + rewrite He. intros [= <-]. split; [repeat split|discriminate].
    + rewrite lookup_insert_eq. intros [= <-]. split; [repeat split|reflexivity].
Qed.

Lemma update_keeps_custody_and_identity_witness :
  exists e',
    equipment (snd (EquipmentRoutes.update Sample.env Sample.exhausted Sample.admin
                      10%N (Sample.statusOnly Available))) !! 10%N = Some e'
    /\ status e' = Available
    /\ issuedTo e' = issuedTo Sample.issuedRadio
    /\ lastModifiedBy e' = Some Sample.admin.
Proof.
  eexists. split; [apply lookup_insert_eq|]. split; [reflexivity|].
  destruct (update_keeps_custody_and_identity Sample.env Sample.exhausted
              Sample.admin 10%N (Sample.statusOnly Available) Sample.issuedRadio _
              eq_refl (lookup_insert_eq _ _ _)) as ((Hc & _) & Hm).
  split; [exact Hc|]. apply Hm. reflexivity.
Defined.

(** X6: sending the same body for the same item a second time gives the
    same answer. When the answer is not 200 neither call changes the
    database; when it is 200 the second call writes nothing but the
    stamp [updatedAt] of the item, which the first call had set to its
    own instant, so that a second call at the same instant leaves the
    database as the first call left it. *)
Theorem update_repeated_writes_stamp_only :
  forall (env env' : Env) (db db' : DB) (admin id : ObjectId)
         (body : EquipmentRoutes.UpdateBody) (answer : Response),
    EquipmentRoutes.update env db admin id body = (answer, db') ->
    (statusCode answer <> 200%N ->
     db' = db /\ EquipmentRoutes.update env' db' admin id body = (answer, db'))
    /\ (statusCode answer = 200%N ->
        exists e',
          equipment db' !! id = Some e'
          /\ updatedAt e' = Some (now env)
          /\ EquipmentRoutes.update env' db' admin id body
             = (answer,
                withEquipment db'
                  (<[id := Equipment.setUpdatedAt (now env') e']> (equipment db'))))
    /\ (now env' = now env ->
        EquipmentRoutes.update env' db' admin id body = (answer, db')).
Proof.
  intros env env' db db' admin id body answer. unfold EquipmentRoutes.update.
  destruct (negb (EquipmentRoutes.bodyValid _)) eqn:Hv.
  { intros [= <- <-]. split; [auto|]. split; [discriminate|auto]. }
  destruct (equipment db !! id) as [e|] eqn:He.
  2:{ intros [= <- <-]. rewrite He. split; [auto|]. split; [discriminate|auto]. }
  destruct (negb (EquipmentRoutes.updateValidators _)) eqn:Hu.
  { intros [= <- <-]. rewrite He. split; [auto|]. split; [discriminate|auto]. }
  intros [= <- <-]. cbn [equipment withEquipment].
  rewrite lookup_insert_eq, applyUpdates_twice.
  split; [intros H; exfalso; apply H; reflexivity|]. split.
  - intros _. eexists. split; [reflexivity|]. split; reflexivity.
  - intros Hnow. rewrite Hnow, setUpdatedAt_applyUpdates, withEquipment_twice,
      insert_insert_eq.
    reflexivity.
Qed.

Lemma update_repeated_writes_stamp_only_witness :
  exists answer db' e',
    EquipmentRoutes.update Sample.env Sample.db Sample.admin 10%N
      (Sample.statusOnly Retired) = (answer, db')
    /\ statusCode answer = 200%N
    /\ equipment db' !! 10%N = Some e'
    /\ updatedAt e' = Some 1762152000000
    /\ EquipmentRoutes.update Sample.later db' Sample.admin 10%N
         (Sample.statusOnly Retired)
       = (answer,
          withEquipment db'
            (<[10%N := Equipment.setUpdatedAt 1762155600000 e']> (equipment db')))
    /\ EquipmentRoutes.update Sample.envB db' Sample.admin 10%N
         (Sample.statusOnly Retired) = (answer, db').
Proof.
  destruct (update_repeated_writes_stamp_only Sample.env Sample.later Sample.db _
              Sample.admin 10%N (Sample.statusOnly Retired) _ eq_refl)
    as (_ & Hstamp & _).
  destruct (Hstamp eq_refl) as (e' & He' & Hat & Hagain).
  eexists _, _, e'. split; [reflexivity|]. split; [reflexivity|].
  split; [exact He'|]. split; [exact Hat|]. split; [exact Hagain|].
  apply (proj2 (proj2 (update_repeated_writes_stamp_only Sample.env Sample.envB
                         Sample.db _ Sample.admin 10%N (Sample.statusOnly Retired)
                         _ eq_refl))).
  reflexivity.
Defined.

(** X7: the update route checks the body before it looks the item up: a
    name, model, manufacturer or location that is blank once trimmed, a
    name of more than 100 characters or notes of more than 500 are
    answered 400 even for an unknown item; a body that passes for an
    unknown item is answered 404; a body that passes for a known item is
    answered 500 by the update validators when the cost is negative, or
    when the name has more than 100 code units or the notes more than
    500, which the count of characters does not exclude; none of these
    changes the database. *)
Theorem update_rejections :
  forall (env : Env) (db : DB) (admin id : ObjectId)
         (body : EquipmentRoutes.UpdateBody),
    (forall s,
        (EquipmentRoutes.name body = Some s
         \/ EquipmentRoutes.model body = Some s
         \/ EquipmentRoutes.manufacturer body = Some s
         \/ EquipmentRoutes.location body = Some s) ->
        JS.trim s = "" ->
        EquipmentRoutes.update env db admin id body
        = (failure 400 "Validation errors", db))
    /\ (forall s,
          EquipmentRoutes.name body = Some s ->
          (100 < JS.characters (JS.trim s))%nat ->
          EquipmentRoutes.update env db admin id body
          = (failure 400 "Validation errors", db))
    /\ (forall s,
          EquipmentRoutes.notes body = Some s ->
          (500 < JS.characters s)%nat ->
          EquipmentRoutes.update env db admin id body
          = (failure 400 "Validation errors", db))
    /\ (EquipmentRoutes.bodyValid (EquipmentRoutes.sanitize body) = true ->
        equipment db !! id = None ->
        EquipmentRoutes.update env db admin id body
        = (failure 404 "Equipment not found", db))
    /\ (forall e,
          EquipmentRoutes.bodyValid (EquipmentRoutes.sanitize body) = true ->
          equipment db !! id = Some e ->
          (exists c, EquipmentRoutes.cost body = Some c /\ c < 0)
          \/ (exists s, EquipmentRoutes.name body = Some s
                        /\ (100 < JS.length (JS.trim s))%nat)
          \/ (exists s, EquipmentRoutes.notes body = Some s
                        /\ (500 < JS.length s)%nat) ->
          EquipmentRoutes.update env db admin id body
          = (failure 500 "Server error updating equipment", db)).
Proof.
  intros env db admin id body.
  assert (Hinvalid :
            EquipmentRoutes.bodyValid (EquipmentRoutes.sanitize body) = false ->
            EquipmentRoutes.update env db admin id body
            = (failure 400 "Validation errors", db)).
  { intros H. unfold EquipmentRoutes.update. rewrite H. reflexivity. }
  split; [|split; [|split; [|split]]].
  - intros s Hfield Hblank. apply Hinvalid.
    unfold EquipmentRoutes.bodyValid, EquipmentRoutes.sanitize,
      EquipmentRoutes.lengthWithin, EquipmentRoutes.lengthAtLeast. simpl.
    destruct Hfield as [H|[H|[H|H]]]; rewrite H; simpl; rewrite Hblank;
      rewrite isLength_blank, ?andb_false_r; reflexivity.
  - intros s Hname Hlong. apply Hinvalid.
    unfold EquipmentRoutes.bodyValid, EquipmentRoutes.sanitize,
      EquipmentRoutes.lengthWithin. simpl.
    rewrite Hname. simpl. rewrite (isLength_above _ _ _ Hlong). reflexivity.
  - intros s Hnotes Hlong. apply Hinvalid.
    unfold EquipmentRoutes.bodyValid, EquipmentRoutes.sanitize,
      EquipmentRoutes.lengthWithin. simpl.
    rewrite Hnotes. rewrite (isLength_above _ _ _ Hlong). apply andb_false_r.
  - intros Hv He. unfold EquipmentRoutes.update. rewrite Hv, He. reflexivity.
  - intros e Hv He Hbad. unfold EquipmentRoutes.update. rewrite Hv, He.
    assert (Hu : EquipmentRoutes.updateValidators (EquipmentRoutes.sanitize body)
                 = false); [|rewrite Hu; reflexivity].
    unfold EquipmentRoutes.updateValidators, EquipmentRoutes.sanitize. simpl.
    destruct Hbad as [(c & Hc & Hneg)|[(s & Hs & Hlong)|(s & Hs & Hlong)]].
    + rewrite Hc.
      replace (0 <=? c)%Z with false by (symmetry; apply Z.leb_gt; exact Hneg).
      rewrite andb_false_r. reflexivity.
    + rewrite Hs. simpl.
      replace (JS.length (JS.trim s) <=? 100)%nat with false
        by (symmetry; apply Nat.leb_gt; exact Hlong).
      rewrite andb_false_r. reflexivity.
    + rewrite Hs.
      replace (JS.length s <=? 500)%nat with false
        by (symmetry; apply Nat.leb_gt; exact Hlong).
      apply andb_false_r.
Qed.

Lemma update_rejections_witness :
  EquipmentRoutes.update Sample.env Sample.db Sample.admin 99%N Sample.blankName
  = (failure 400 "Validation errors", Sample.db)
  /\ EquipmentRoutes.update Sample.env Sample.db Sample.admin 10%N
       (Sample.costOnly (-5))
     = (failure 500 "Server error updating equipment", Sample.db)
  /\ EquipmentRoutes.update Sample.env Sample.db Sample.admin 10%N Sample.badgesName
     = (failure 500 "Server error updating equipment", Sample.db).
Proof.
  split; [|split].
  - apply (proj1 (update_rejections Sample.env Sample.db Sample.admin 99%N _)
             Sample.nbsp); [left; reflexivity|reflexivity].
  - apply (proj2 (proj2 (proj2 (proj2
             (update_rejections Sample.env Sample.db Sample.admin 10%N _))))
             Sample.radio); [reflexivity|reflexivity|].
    left. exists (-5). split; [reflexivity|lia].
  - apply (proj2 (proj2 (proj2 (proj2
             (update_rejections Sample.env Sample.db Sample.admin 10%N _))))
             Sample.radio); [vm_compute; reflexivity|reflexivity|].
    right. left. exists Sample.badges. split; [reflexivity|].
    vm_compute. lia.
Defined.

(** *** New items and serial numbers *)

(** A body that passes the validation chain, with a cost that is not
    negative and a name and notes within the lengths of the schema,
    gives a document that passes the schema. *)
Lemma validate_new env (admin : ObjectId) (b : EquipmentRoutes.CreateBody) :
  EquipmentRoutes.createBodyValid b = true ->
  0 <= EquipmentRoutes.new_cost b ->
  (JS.length (JS.trim (EquipmentRoutes.new_name b)) <= 100)%nat ->
  (JS.length (orElse (EquipmentRoutes.new_notes b) "") <= 500)%nat ->
  Equipment.validate (Equipment.new env (EquipmentRoutes.createInit admin b)) = None.
Proof.
  unfold EquipmentRoutes.createBodyValid, EquipmentRoutes.lengthWithin,
    EquipmentRoutes.lengthAtLeast.
  intros H Hcost Hname Hnotes.
  apply andb_prop in H as [H _]. apply andb_prop in H as [H Hloc].
  apply andb_prop in H as [H Hman]. apply andb_prop in H as [H Hser].
  apply andb_prop in H as [Hn Hmod].
  unfold Equipment.validate, Equipment.new, EquipmentRoutes.createInit. simpl.
  rewrite !trim_idempotent.
  rewrite (isLength_nonempty _ _ _ Hn), (isLength_nonempty _ _ _ Hmod),
    (isLength_nonempty _ _ _ Hser), (isLength_nonempty _ _ _ Hman),
    (isLength_nonempty _ _ _ Hloc).
  replace (100 <? JS.length (JS.trim (EquipmentRoutes.new_name b)))%nat
    with false by (symmetry; apply Nat.ltb_ge; exact Hname).
  replace (EquipmentRoutes.new_cost b <? 0)%Z with false
    by (symmetry; apply Z.ltb_ge; exact Hcost).
  replace (500 <? JS.length (orElse (EquipmentRoutes.new_notes b) ""))%nat
    with false by (symmetry; apply Nat.ltb_ge; exact Hnotes).
  reflexivity.
Qed.

(** A body that passes the validation chain and has a negative cost, or
    a name of more than 100 code units, gives a document that the schema
    refuses. *)
Lemma validate_new_refused env (admin : ObjectId) (b : EquipmentRoutes.CreateBody) :
  EquipmentRoutes.new_cost b < 0
  \/ (100 < JS.length (JS.trim (EquipmentRoutes.new_name b)))%nat ->
  exists path,
    Equipment.validate (Equipment.new env (EquipmentRoutes.createInit admin b))
    = Some path.
Proof.
  intros Hbad.
  unfold Equipment.validate, Equipment.new, EquipmentRoutes.createInit. simpl.
  rewrite !trim_idempotent.
  destruct Hbad as [Hneg|Hlong].
  - replace (EquipmentRoutes.new_cost b <? 0)%Z with true
      by (symmetry; apply Z.ltb_lt; exact Hneg).
    destruct (_ || _); [eauto|].
    repeat (destruct (String.eqb _ _); [eauto|]). eauto.
  - replace (100 <? JS.length (JS.trim (EquipmentRoutes.new_name b)))%nat
      with true by (symmetry; apply Nat.ltb_lt; exact Hlong).
    rewrite orb_true_r. eauto.
Qed.

(** X8: a creation whose body passes the validation chain, whose serial
    number (trimmed) is not in the collection, whose cost is not
    negative and whose trimmed name and notes have at most 100 and 500
    code units is answered 201; the new item is stored under its [_id],
    which no stored document has, Available, without custody block or
    maintenance history, with the trimmed name and serial number, the
    condition of the body or Good, the caller as author and the instant
    of the call as both stamps; the other documents are as they were,
    and the custody invariant and the storage of every document under
    its own [_id] are kept. *)
Theorem create_adds_available_item :
  forall (env : Env) (db : DB) (admin : ObjectId) (body : EquipmentRoutes.CreateBody),
    EquipmentRoutes.createBodyValid body = true ->
    Equipment.serialTaken db (JS.trim (EquipmentRoutes.new_serialNumber body)) = false ->
    0 <= EquipmentRoutes.new_cost body ->
    (JS.length (JS.trim (EquipmentRoutes.new_name body)) <= 100)%nat ->
    (JS.length (orElse (EquipmentRoutes.new_notes body) "") <= 500)%nat ->
    equipment db !! freshId env = None ->
    exists e db',
      EquipmentRoutes.create env db admin body
      = (ok 201 "Equipment added successfully", db')
      /\ equipment db' = <[freshId env := e]> (equipment db)
      /\ (forall k x, equipment db !! k = Some x -> equipment db' !! k = Some x)
      /\ requests db' = requests db /\ equipmentpools db' = equipmentpools db
      /\ _id e = freshId env
      /\ status e = Available /\ issuedTo e = None /\ maintenanceHistory e = []
      /\ name e = JS.trim (EquipmentRoutes.new_name body)
      /\ serialNumber e = JS.trim (EquipmentRoutes.new_serialNumber body)
      /\ condition e = orElse (EquipmentRoutes.new_condition body) Good
      /\ addedBy e = admin
      /\ createdAt e = Some (now env) /\ updatedAt e = Some (now env)
      /\ (Equipment.custodyConsistent db -> Equipment.custodyConsistent db')
      /\ (Equipment.keyed db -> Equipment.keyed db').
Proof.
  intros env db admin body Hv Hfree Hcost Hname Hnotes Hfresh.
  unfold EquipmentRoutes.create, Equipment.insert.
  rewrite Hv, Hfree, (validate_new env admin body Hv Hcost Hname Hnotes).
  cbn [negb].
  assert (Hserial :
            serialNumber (Equipment.new env (EquipmentRoutes.createInit admin body))
            = JS.trim (EquipmentRoutes.new_serialNumber body))
    by apply trim_idempotent.
  rewrite Hserial, Hfree.
  eexists _, _. split; [reflexivity|]. split; [reflexivity|].
  split.
  { intros k x Hk. cbn [equipment withEquipment Equipment.new _id].
    rewrite lookup_insert_ne; [exact Hk|]. intros <-. congruence. }
  split; [reflexivity|]. split; [reflexivity|].
  split; [reflexivity|]. split; [reflexivity|]. split; [reflexivity|].
  split; [reflexivity|]. split; [apply trim_idempotent|]. split; [exact Hserial|].
  split; [simpl; destruct (EquipmentRoutes.new_condition body); reflexivity|].
  split; [reflexivity|]. split; [reflexivity|]. split; [reflexivity|]. split.
  - intros Hdb. apply custodyConsistent_insert; [exact Hdb|].
    unfold Equipment.custodyInvariant. simpl. split; intros; congruence.
  - intros Hk. apply keyed_insert; [exact Hk|reflexivity].
Qed.

Lemma create_adds_available_item_witness :
  exists e db',
    EquipmentRoutes.create Sample.env Sample.db Sample.admin Sample.newRadio
    = (ok 201 "Equipment added successfully", db')
    /\ equipment db' !! 101%N = Some e
    /\ status e = Available
    /\ name e = "Handheld radio" /\ serialNumber e = "SN-2"
    /\ updatedAt e = Some 1762152000000.
Proof.
  destruct (create_adds_available_item Sample.env Sample.db Sample.admin
              Sample.newRadio)
    as (e & db' & Hc & Hdb & _ & _ & _ & _ & Hs & _ & _ & Hn & Hser & _ & _ & _
        & Hat & _);
    [vm_compute; reflexivity|vm_compute; reflexivity|vm_compute; discriminate
    |vm_compute; lia|vm_compute; lia|reflexivity|].
  exists e, db'. split; [exact Hc|]. rewrite Hdb.
  split; [apply lookup_insert_eq|]. split; [exact Hs|].
  split; [rewrite Hn; reflexivity|]. split; [rewrite Hser; reflexivity|exact Hat].
Defined.

(** X9: a creation is refused without any change to the database when a
    required string of the body is blank once trimmed (400), when an
    item of the collection already has the serial number, compared after
    trimming (400), and when the body passes the validation chain and
    the serial number is new but the cost is negative, or the trimmed
    name has more than 100 code units, which only the schema detects
    (500). *)
Theorem create_rejections :
  forall (env : Env) (db : DB) (admin : ObjectId) (body : EquipmentRoutes.CreateBody),
    ((JS.trim (EquipmentRoutes.new_name body) = ""
      \/ JS.trim (EquipmentRoutes.new_model body) = ""
      \/ JS.trim (EquipmentRoutes.new_serialNumber body) = ""
      \/ JS.trim (EquipmentRoutes.new_manufacturer body) = ""
      \/ JS.trim (EquipmentRoutes.new_location body) = "") ->
     EquipmentRoutes.create env db admin body = (failure 400 "Validation errors", db))
    /\ (forall i e,
          EquipmentRoutes.createBodyValid body = true ->
          equipment db !! i = Some e ->
          serialNumber e = JS.trim (EquipmentRoutes.new_serialNumber body) ->
          EquipmentRoutes.create env db admin body
          = (failure 400 "Equipment with this serial number already exists", db))
    /\ (EquipmentRoutes.createBodyValid body = true ->
        Equipment.serialTaken db (JS.trim (EquipmentRoutes.new_serialNumber body))
        = false ->
        EquipmentRoutes.new_cost body < 0
        \/ (100 < JS.length (JS.trim (EquipmentRoutes.new_name body)))%nat ->
        EquipmentRoutes.create env db admin body
        = (failure 500 "Server error adding equipment", db)).
Proof.
  intros env db admin body. split; [|split].
  - intros Hblank.
    assert (Hv : EquipmentRoutes.createBodyValid body = false).
    { unfold EquipmentRoutes.createBodyValid, EquipmentRoutes.lengthWithin,
        EquipmentRoutes.lengthAtLeast.
      destruct Hblank as [H|[H|[H|[H|H]]]]; rewrite H;
        rewrite isLength_blank, ?andb_false_r; reflexivity. }
    unfold EquipmentRoutes.create. rewrite Hv. reflexivity.
  - intros i e Hv He Hser.
    assert (Htaken : Equipment.serialTaken db
                       (JS.trim (EquipmentRoutes.new_serialNumber body)) = true)
      by (apply serialTaken_true; exists i, e; auto).
    unfold EquipmentRoutes.create. rewrite Hv, Htaken. reflexivity.
  - intros Hv Hfree Hbad.
    unfold EquipmentRoutes.create. rewrite Hv, Hfree. cbn [negb].
    destruct (validate_new_refused env admin body Hbad) as (path & Hval).
    unfold Equipment.insert. rewrite Hval. reflexivity.
Qed.

Lemma create_rejections_witness :
  EquipmentRoutes.create Sample.env Sample.db Sample.admin Sample.blankModel
  = (failure 400 "Validation errors", Sample.db)
  /\ EquipmentRoutes.create Sample.env Sample.db Sample.admin Sample.duplicateRadio
     = (failure 400 "Equipment with this serial number already exists", Sample.db)
  /\ EquipmentRoutes.create Sample.env Sample.db Sample.admin Sample.negativeCost
     = (failure 500 "Server error adding equipment", Sample.db).
Proof.
  split; [|split].
  - apply (proj1 (create_rejections Sample.env Sample.db Sample.admin
                    Sample.blankModel)).
    right. left. reflexivity.
  - apply (proj1 (proj2 (create_rejections Sample.env Sample.db Sample.admin
                           Sample.duplicateRadio)) 10%N Sample.radio);
      [vm_compute; reflexivity|apply lookup_singleton_eq|reflexivity].
  - apply (proj2 (proj2 (create_rejections Sample.env Sample.db Sample.admin
                           Sample.negativeCost)));
      [vm_compute; reflexivity|vm_compute; reflexivity|left; vm_compute; reflexivity].
Defined.

Lemma serialsUnique_replace (db : DB) (id : ObjectId) (e e' : t) :
  Equipment.serialsUnique db ->
  equipment db !! id = Some e ->
  serialNumber e' = serialNumber e ->
  Equipment.serialsUnique (withEquipment db (<[id := e']> (equipment db))).
Proof.
  intros Hu He Hser i j a b. simpl. rewrite !lookup_insert.
  destruct (decide (id = i)) as [<-|Hi], (decide (id = j)) as [<-|Hj]; simpl.
  - reflexivity.
  - intros [= <-] Hb Hab. apply (Hu id j e b He Hb). congruence.
  - intros Ha [= <-] Hab. apply (Hu i id a e Ha He). congruence.
  - apply Hu.
Qed.

(** X10: the serial numbers stay pairwise distinct: on a collection
    where they are and where every document is stored under its own
    [_id], the create, update, issue, return and delete routes, whatever
    their arguments and whatever they answer, leave a collection where
    they still are. *)
Theorem serial_numbers_stay_unique :
  forall (env : Env) (db : DB) (admin id uid : ObjectId) (expected : option Date)
         (changes : EquipmentRoutes.UpdateBody) (body : EquipmentRoutes.CreateBody),
    Equipment.keyed db ->
    Equipment.serialsUnique db ->
    Equipment.serialsUnique (snd (EquipmentRoutes.create env db admin body))
    /\ Equipment.serialsUnique (snd (EquipmentRoutes.update env db admin id changes))
    /\ Equipment.serialsUnique (snd (EquipmentRoutes.issue env db id uid expected))
    /\ Equipment.serialsUnique (snd (EquipmentRoutes.return_ env db id))
    /\ Equipment.serialsUnique (snd (EquipmentRoutes.delete db id)).
Proof.
  intros env db admin id uid expected changes body Hk Hu.
  split; [|split; [|split; [|split]]].
  - unfold EquipmentRoutes.create.
    destruct (negb _); [exact Hu|].
    destruct (Equipment.serialTaken db _); [exact Hu|].
    unfold Equipment.insert.
    destruct (Equipment.validate _); [exact Hu|].
    destruct (Equipment.serialTaken db _) eqn:Hfree; [exact Hu|]. simpl.
    set (e := Equipment.new env (EquipmentRoutes.createInit admin body)) in *.
    assert (Hnone : forall j b, equipment db !! j = Some b ->
                                serialNumber b <> serialNumber e).
    { intros j b Hb Heq.
      assert (Equipment.serialTaken db (serialNumber e) = true)
        by (apply serialTaken_true; exists j, b; auto).
      congruence. }
    intros i j a b. simpl. rewrite !lookup_insert.
    destruct (decide (freshId env = i)) as [<-|Hi],
        (decide (freshId env = j)) as [<-|Hj]; simpl.
    + reflexivity.
    + intros [= <-] Hb Hab. exfalso. apply (Hnone j b Hb). symmetry. exact Hab.
    + intros Ha [= <-] Hab. exfalso. apply (Hnone i a Ha). exact Hab.
    + apply Hu.
  - unfold EquipmentRoutes.update.
    destruct (negb _); [exact Hu|].
    destruct (equipment db !! id) as [e|] eqn:He; [|exact Hu].
    destruct (negb _); [exact Hu|]. simpl.
    apply (serialsUnique_replace db id e); [exact Hu|exact He|reflexivity].
  - unfold EquipmentRoutes.issue.
    destruct (equipment db !! id) as [e|] eqn:He; [|exact Hu].
    destruct (Equipment.issueToUser env db uid expected e) as [err|[db' e']] eqn:Hi;
      [exact Hu|].
    apply issueToUser_inr in Hi as (_ & _ & stored & Hst & -> & ->). simpl.
    apply (serialsUnique_replace db (_id e) stored); [exact Hu|exact Hst|reflexivity].
  - unfold EquipmentRoutes.return_.
    destruct (equipment db !! id) as [e|] eqn:He; [|exact Hu].
    destruct (Equipment.returnFromUser env db e) as [err|[db' e']] eqn:Hi;
      [exact Hu|].
    apply returnFromUser_inr in Hi as (_ & _ & stored & Hst & -> & ->). simpl.
    apply (serialsUnique_replace db (_id e) stored); [exact Hu|exact Hst|reflexivity].
  - unfold EquipmentRoutes.delete.
    destruct (equipment db !! id) as [e|]; [|exact Hu].
    destruct (Status_eqb _ _); [exact Hu|]. simpl.
    intros i j a b. simpl. rewrite !lookup_delete_Some.
    intros [_ Ha] [_ Hb]. apply (Hu i j a b Ha Hb).
Qed.

Lemma sample_db_serials : Equipment.serialsUnique Sample.db.
Proof.
  intros i j a b Ha Hb _. simpl in Ha, Hb.
  apply lookup_singleton_Some in Ha as [<- _].
  apply lookup_singleton_Some in Hb as [<- _]. reflexivity.
Qed.

Lemma serial_numbers_stay_unique_witness :
  Equipment.serialsUnique
    (snd (EquipmentRoutes.create Sample.env Sample.db Sample.admin Sample.newRadio)).
Proof.
  apply (serial_numbers_stay_unique Sample.env Sample.db Sample.admin 10%N
           Sample.officer None (Sample.statusOnly Retired) Sample.newRadio
           sample_db_keyed sample_db_serials).
Defined.

(** *** The list of available items *)

Lemma Category_eqb_refl (c : Category) : Category_eqb c c = true.
Proof. destruct c; reflexivity. Qed.

Lemma In_available (db : DB) (wanted : option Category) (e : t) :
  In e (Equipment.getAvailableByCategory db wanted) <->
  (exists i, equipment db !! i = Some e) /\ Equipment.wantedBy wanted e = true.
Proof.
  unfold Equipment.getAvailableByCategory. rewrite filter_In, In_documents.
  reflexivity.
Qed.

(** X11: the list of available items follows the custody of an item
    that is stored under its [_id]. Once [issueToUser] has succeeded on
    it, the list for any category is the former list without the item;
    once [returnFromUser] has succeeded on it, the list is the former
    list with the returned item added, when it is of the category asked
    for. *)
Theorem available_list_follows_custody :
  forall (env : Env) (db db' : DB) (uid : ObjectId) (expected : option Date)
         (e e' : t) (wanted : option Category),
    Equipment.keyed db ->
    equipment db !! _id e = Some e ->
    (Equipment.issueToUser env db uid expected e = inr (db', e') ->
     forall x,
       In x (Equipment.getAvailableByCategory db' wanted) <->
       In x (Equipment.getAvailableByCategory db wanted) /\ x <> e)
    /\ (Equipment.returnFromUser env db e = inr (db', e') ->
        forall x,
          In x (Equipment.getAvailableByCategory db' wanted) <->
          In x (Equipment.getAvailableByCategory db wanted)
          \/ (x = e'
              /\ match wanted with Some c => category e = c | None => True end)).
Proof.
  intros env db db' uid expected e e' wanted Hk He. split.
  - intros Hi x. apply issueToUser_inr in Hi as (Hs & _ & stored & Hst & -> & ->).
    rewrite He in Hst. injection Hst as <-.
    rewrite !In_available. cbn [equipment withEquipment]. split.
    + intros [(i & Hx) Hw]. rewrite lookup_insert in Hx.
      destruct (decide (_id e = i)) as [<-|Hne]; simpl in Hx.
      * injection Hx as <-. discriminate Hw.
      * split; [split; [exists i; exact Hx|exact Hw]|].
        intros ->. apply Hne. apply (Hk i e Hx).
    + intros [[(i & Hx) Hw] Hne]. split; [|exact Hw].
      exists i. rewrite lookup_insert_ne; [exact Hx|].
      intros <-. rewrite He in Hx. congruence.
  - intros Hr x. apply returnFromUser_inr in Hr as (Hs & _ & stored & Hst & -> & ->).
    rewrite He in Hst. injection Hst as <-.
    rewrite !In_available. cbn [equipment withEquipment]. split.
    + intros [(i & Hx) Hw]. rewrite lookup_insert in Hx.
      destruct (decide (_id e = i)) as [<-|Hne]; simpl in Hx.
      * injection Hx as <-. right. split; [reflexivity|].
        unfold Equipment.wantedBy in Hw. simpl in Hw.
        destruct wanted as [c|]; [|exact I].
        destruct (category e), c; simpl in Hw; try discriminate; reflexivity.
      * left. split; [exists i; exact Hx|exact Hw].
    + intros [[(i & Hx) Hw]|[-> Hc]].
      * split; [|exact Hw]. exists i. rewrite lookup_insert_ne; [exact Hx|].
        intros <-. rewrite He in Hx. injection Hx as <-.
        unfold Equipment.wantedBy in Hw. rewrite Hs in Hw. discriminate.
      * split; [exists (_id e); apply lookup_insert_eq|].
        unfold Equipment.wantedBy. simpl. destruct wanted as [c|]; [|reflexivity].
        subst c. apply Category_eqb_refl.
Qed.

Lemma available_list_follows_custody_witness :
  exists db' e',
    Equipment.issueToUser Sample.env Sample.db Sample.officer None Sample.radio
    = inr (db', e')
    /\ In Sample.radio (Equipment.getAvailableByCategory Sample.db (Some Communication))
    /\ ~ In Sample.radio (Equipment.getAvailableByCategory db' (Some Communication)).
Proof.
  eexists _, _. split; [reflexivity|]. split; [left; reflexivity|].
  intros H.
  apply (proj1 (available_list_follows_custody Sample.env Sample.db _
                  Sample.officer None Sample.radio _ (Some Communication)
                  sample_db_keyed (lookup_singleton_eq _ _))
           eq_refl Sample.radio) in H.
  destruct H as [_ H]. apply H. reflexivity.
Defined.

End EquipmentRouteFacts.
(** ** Requests: the routes and the collection *)
Section RequestRouteFacts.

Import requestSchema.
Local Open Scope string_scope.

(** X12: [daysSinceRequest] is the time between the request and today,
    in absolute value, rounded up to whole days: it is [d] exactly when
    more than [d - 1] and at most [d] days separate the two instants, so
    it is 0 only at the very instant of the request and already 1 one
    millisecond later; a date before the request counts like the date as
    far after it. *)
Theorem daysSinceRequest_rounds_up :
  forall (today : Date) (r : t),
    let elapsed := Z.abs (today - requestedDate r) in
    (forall d : Z,
        Request.daysSinceRequest today r = d <->
        (d - 1) * Equipment.msPerDay < elapsed <= d * Equipment.msPerDay)
    /\ (Request.daysSinceRequest today r = 0 <-> today = requestedDate r)
    /\ Request.daysSinceRequest (requestedDate r + 1) r = 1
    /\ Request.daysSinceRequest (2 * requestedDate r - today) r
       = Request.daysSinceRequest today r.
Proof.
  intros today r elapsed.
  assert (Hday : 0 < Equipment.msPerDay) by reflexivity.
  pose proof (ceilDiv_bounds elapsed Equipment.msPerDay Hday) as Hb.
  assert (Hd : forall d : Z,
             Request.daysSinceRequest today r = d <->
             (d - 1) * Equipment.msPerDay < elapsed <= d * Equipment.msPerDay).
  { intros d. unfold Request.daysSinceRequest. fold elapsed.
    change (1000 * 60 * 60 * 24) with Equipment.msPerDay.
    split; [intros <-; exact Hb|]. intros Hd. nia. }
  split; [exact Hd|]. split; [|split].
  - rewrite (Hd 0). subst elapsed. change Equipment.msPerDay with 86400000. lia.
  - unfold Request.daysSinceRequest.
    replace (requestedDate r + 1 - requestedDate r) with 1 by lia. reflexivity.
  - unfold Request.daysSinceRequest. f_equal. lia.
Qed.

(** *** What [save] keeps *)

(** The document that a successful [save] returns carries an
    identifier and is the document in memory otherwise, but for its
    history. *)
Lemma saved_identity env (db : DB) (d : Request.Doc) db' d' :
  Request.save env db d = inr (db', d') ->
  JS.truthy (requestId (Request.this d')) = true
  /\ _id (Request.this d') = _id (Request.this d)
  /\ requestedBy (Request.this d') = requestedBy (Request.this d)
  /\ equipmentId (Request.this d') = equipmentId (Request.this d)
  /\ requestType (Request.this d') = requestType (Request.this d)
  /\ status (Request.this d') = status (Request.this d)
  /\ reason (Request.this d') = reason (Request.this d)
  /\ (JS.truthy (requestId (Request.this d)) = true ->
      requestId (Request.this d') = requestId (Request.this d)).
Proof.
  intros H. apply save_inr in H as (_ & -> & _).
  rewrite preSave_this.
  cbn [_id requestId requestedBy equipmentId requestType status reason
       Request.this Request.preValidate].
  pose proof (generateRequestId_keeps env (Request.queryLastOfDay env db)
                (Request.this d))
    as (Ht & Hsame & Hid & Hby & Heq & Hty & Hst & _ & _ & _ & Hre & _).
  repeat split; auto. intros Hx. rewrite (Hsame Hx). reflexivity.
Qed.

(** What the update of a save does to a stored document: the paths that
    no hook, method or route assigns are kept, the history is extended
    by the entries pushed, and each of the other paths has its stored
    value or the value in memory. *)
Lemma written_fields (m : list Request.Path) (entries : list Entry.t) (mem x : t) :
  let w := Request.written m entries mem x in
  (_id w = _id x /\ requestedBy w = requestedBy x
   /\ equipmentId w = equipmentId x /\ requestType w = requestType x
   /\ priority w = priority x /\ requestedDate w = requestedDate x
   /\ expectedReturnDate w = expectedReturnDate x /\ reason w = reason x
   /\ attachments w = attachments x)
  /\ statusHistory w = (statusHistory x ++ entries)%list
  /\ status w = (if List.existsb (Request.Path_eqb Request.statusPath) m
                 then status mem else status x)
  /\ requestId w = (if List.existsb (Request.Path_eqb Request.requestIdPath) m
                    then requestId mem else requestId x).
Proof. cbv zeta. unfold Request.written, Request.pick. cbn. repeat split. Qed.

Lemma validate_long_notes (r r' : t) :
  Request.validate r = None ->
  equipmentId r' = equipmentId r ->
  requestType r' = requestType r ->
  expectedReturnDate r' = expectedReturnDate r ->
  reason r' = reason r ->
  (500 < JS.length (orElse (adminNotes r') ""))%nat ->
  Request.validate r' = Some "adminNotes".
Proof.
  unfold Request.validate. intros H -> -> -> -> Hn.
  destruct (negb _); [discriminate|].
  destruct (_ && _); [discriminate|].
  destruct (_ || _); [discriminate|].
  apply Nat.ltb_lt in Hn. rewrite Hn. reflexivity.
Qed.

(** X13: notes of more than 500 code units make [approve], [reject] and
    [complete] fail: on a valid request that carries its identifier, the
    save is refused by the validation of [adminNotes], the promise is
    rejected and nothing is written. Notes of at most 500 code units,
    however many bytes they take, are accepted: on a stored request the
    operation succeeds and the returned document carries them. *)
Theorem oversize_notes_refused :
  forall (op : Lifecycle.Operation) (env : Env) (db : DB) (d : Request.Doc),
    (JS.truthy (requestId (Request.this d)) = true ->
     Request.validate (Request.this d) = None ->
     (500 < JS.length (orElse (Lifecycle.notesAfter op (Request.this d)) ""))%nat ->
     Lifecycle.perform op env db d = inl (ValidationError "adminNotes"))
    /\ (Lifecycle.stored db d ->
        (JS.length (orElse (Lifecycle.notesAfter op (Request.this d)) "") <= 500)%nat ->
        exists db' d',
          Lifecycle.perform op env db d = inr (db', d')
          /\ adminNotes (Request.this d') = Lifecycle.notesAfter op (Request.this d)).
Proof.
  intros op env db d. split.
  - intros Hid Hv Hlong.
    destruct (perform_is_save op env db d)
      as (d0 & -> & _ & _ & Hnotes & _
          & (_ & Hrid & _ & Heq & Hty & _ & _ & Hexp & Hre & _) & _).
    unfold Request.save.
    rewrite preValidate_identified by (rewrite Hrid; exact Hid).
    unfold Request.commit.
    rewrite (validate_long_notes (Request.this d) (Request.this d0));
      auto. rewrite Hnotes. exact Hlong.
  - intros Hstored Hfit.
    destruct (perform_stored op env db d Hstored Hfit)
      as (r' & Hp & _ & _ & Hnotes & _).
    eexists _, _. split; [exact Hp|exact Hnotes].
Qed.

Lemma oversize_notes_refused_witness :
  Request.approve Sample.env Sample.db Sample.admin
    (Some (JS.repeat "x" 501)) (Request.loaded Sample.pendingRequest)
  = inl (ValidationError "adminNotes")
  /\ Request.reject Sample.env Sample.db Sample.admin
       (Some (Sample.copies 251 Sample.officerBadge))
       (Request.loaded Sample.pendingRequest)
     = inl (ValidationError "adminNotes")
  /\ exists db' d',
       Request.approve Sample.env Sample.db Sample.admin
         (Some (Sample.copies 167 Sample.euro))
         (Request.loaded Sample.pendingRequest)
       = inr (db', d')
       /\ adminNotes (Request.this d') = Some (Sample.copies 167 Sample.euro).
Proof.
  split; [|split].
  - apply (proj1 (oversize_notes_refused
                    (Lifecycle.Approve Sample.admin (Some (JS.repeat "x" 501)))
                    Sample.env Sample.db (Request.loaded Sample.pendingRequest)));
      [reflexivity|reflexivity|vm_compute; lia].
  - apply (proj1 (oversize_notes_refused
                    (Lifecycle.Reject Sample.admin
                       (Some (Sample.copies 251 Sample.officerBadge)))
                    Sample.env Sample.db (Request.loaded Sample.pendingRequest)));
      [reflexivity|reflexivity|vm_compute; lia].
  - apply (proj2 (oversize_notes_refused
                    (Lifecycle.Approve Sample.admin
                       (Some (Sample.copies 167 Sample.euro)))
                    Sample.env Sample.db (Request.loaded Sample.pendingRequest)));
      [apply sample_pending_stored|vm_compute; lia].
Defined.

Lemma In_amend_old (id : ObjectId) (f : t -> t) (rs : list t) (x : t) :
  In x rs -> _id x <> id -> In x (Request.amend id f rs).
Proof.
  intros Hin Hne. unfold Request.amend. apply in_map_iff. exists x.
  apply N.eqb_neq in Hne. rewrite Hne. auto.
Qed.

Lemma In_amend_inv (id : ObjectId) (f : t -> t) (rs : list t) (y : t) :
  In y (Request.amend id f rs) ->
  In y rs \/ exists x, In x rs /\ _id x = id /\ y = f x.
Proof.
  unfold Request.amend. intros H. apply in_map_iff in H as (x & Hx & Hin).
  destruct (N.eqb_spec (_id x) id); subst; eauto.
Qed.

Lemma In_store_inv (new : bool) (r' : t) (rs : list t) (y : t) :
  In y (Request.store new r' rs) -> In y rs \/ y = r'.
Proof.
  unfold Request.store. destruct new.
  - intros H. apply in_app_or in H as [H|[H|[]]]; auto.
  - intros H. apply In_amend_inv in H as [H|(x & _ & _ & ->)]; auto.
Qed.

(** X14: an operation of the life cycle on a loaded request, be it the
    stored document or an older copy of it, updates the stored documents
    that have its [_id] and nothing else. The collection keeps its
    length and its order and every request with another [_id] stays in
    it unchanged. A stored document of the [_id], of which there is one,
    keeps its [_id], requester, item, type, priority, dates, reason and
    attachments; its status is the one it had or the target of the
    operation, its identifier the one it had or that of the returned
    document, and its history is extended. The equipment and the pools
    are not written, and the returned document keeps its [_id],
    identifier, requester, item, type and reason. When the document is
    the stored one, the collection holds the returned document in its
    place. *)
Theorem operations_touch_one_request :
  forall (op : Lifecycle.Operation) (env : Env) (db db' : DB) (d d' : Request.Doc),
    Request.isNew d = false ->
    Lifecycle.perform op env db d = inr (db', d') ->
    List.length (requests db') = List.length (requests db)
    /\ (forall x, In x (requests db) -> _id x <> _id (Request.this d) ->
                  In x (requests db'))
    /\ Forall2
         (fun x x' =>
            if (_id x =? _id (Request.this d))%N
            then _id x' = _id x /\ requestedBy x' = requestedBy x
                 /\ equipmentId x' = equipmentId x /\ requestType x' = requestType x
                 /\ priority x' = priority x /\ requestedDate x' = requestedDate x
                 /\ expectedReturnDate x' = expectedReturnDate x
                 /\ reason x' = reason x /\ attachments x' = attachments x
                 /\ (status x' = status x \/ status x' = Lifecycle.target op)
                 /\ (requestId x' = requestId x
                     \/ requestId x' = requestId (Request.this d'))
                 /\ (exists entries,
                        statusHistory x' = (statusHistory x ++ entries)%list)
            else x' = x)
         (requests db) (requests db')
    /\ (exists x, In x (requests db) /\ _id x = _id (Request.this d))
    /\ equipment db' = equipment db
    /\ equipmentpools db' = equipmentpools db
    /\ _id (Request.this d') = _id (Request.this d)
    /\ requestedBy (Request.this d') = requestedBy (Request.this d)
    /\ equipmentId (Request.this d') = equipmentId (Request.this d)
    /\ requestType (Request.this d') = requestType (Request.this d)
    /\ reason (Request.this d') = reason (Request.this d)
    /\ (JS.truthy (requestId (Request.this d)) = true ->
        requestId (Request.this d') = requestId (Request.this d))
    /\ (Lifecycle.stored db d ->
        requests db' = Request.store false (Request.this d') (requests db)).
Proof.
  intros op env db db' d d' Hnew H.
  destruct (perform_is_save op env db d)
    as (d0 & Hp & Hn0 & Hst0 & Hnotes & _
        & (Hid & Hrid & Hby & Heq & Hty & _ & _ & Hexp & Hre & _) & _).
  pose proof H as Hperform. rewrite Hp in H.
  pose proof (saved_identity env db d0 db' d' H)
    as (_ & Hid' & Hby' & Heq' & Hty' & Hst' & Hre' & Hrid').
  pose proof (save_inr env db d0 db' d' H)
    as (Hv & _ & _ & _ & Hequip & Hpools & _ & Hold).
  rewrite Hn0 in Hold. destruct (Hold Hnew) as (Hh & Hrs & _).
  rewrite Hid in Hh, Hrs.
  split; [rewrite Hrs; unfold Request.amend; apply length_map|].
  split; [intros x Hx Hne; rewrite Hrs; apply In_amend_old; assumption|].
  split.
  { rewrite Hrs. eapply Forall2_impl; [apply amend_Forall2|].
    intros x x'. cbn beta. destruct (_id x =? _)%N; [|auto].
    intros ->.
    destruct (written_fields
                (Request.modified (Request.preValidate env db d0))
                (Request.pushed env (Request.preValidate env db d0))
                (Request.this d') x)
      as ((W1 & W2 & W3 & W4 & W5 & W6 & W7 & W8 & W9) & Wh & Ws & Wi).
    refine (conj W1 (conj W2 (conj W3 (conj W4 (conj W5 (conj W6 (conj W7
              (conj W8 (conj W9 (conj _ (conj _ _))))))))))).
    - rewrite Ws.
      destruct (List.existsb (Request.Path_eqb Request.statusPath) _);
        [right; congruence|left; reflexivity].
    - rewrite Wi.
      destruct (List.existsb (Request.Path_eqb Request.requestIdPath) _);
        [right|left]; reflexivity.
    - eexists. exact Wh. }
  split; [apply holds_In; exact Hh|].
  split; [exact Hequip|]. split; [exact Hpools|].
  split; [congruence|]. split; [congruence|]. split; [congruence|].
  split; [congruence|]. split; [congruence|]. split.
  { intros Ht. rewrite Hrid'; [exact Hrid|]. rewrite Hrid. exact Ht. }
  intros Hstored.
  assert (Hfit : Lifecycle.notesFit op (Request.this d)).
  { unfold Lifecycle.notesFit. rewrite <- Hnotes.
    pose proof (validate_notes_fit _ Hv) as Hn.
    cbn [Request.this Request.preValidate] in Hn.
    destruct (generateRequestId_keeps env (Request.queryLastOfDay env db)
                (Request.this d0))
      as (_ & _ & _ & _ & _ & _ & _ & _ & _ & _ & _ & Hkeep & _).
    rewrite Hkeep in Hn. exact Hn. }
  destruct (perform_stored op env db d Hstored Hfit) as (r' & Hr' & _).
  rewrite Hr' in Hperform. injection Hperform as <- <-. reflexivity.
Qed.

Lemma operations_touch_one_request_witness :
  (exists db' d',
      Lifecycle.perform (Lifecycle.Reject Sample.admin (Some "not needed"))
        Sample.env Sample.db (Request.loaded Sample.pendingRequest)
      = inr (db', d')
      /\ List.length (requests db') = 3%nat
      /\ In Sample.approvedRequest (requests db')
      /\ requests db' = Request.store false (Request.this d') (requests Sample.db))
  /\ (exists db' d',
        Lifecycle.perform (Lifecycle.Approve Sample.admin None) Sample.env
          Sample.db (Request.loaded Sample.staleRequest)
        = inr (db', d')
        /\ List.length (requests db') = 3%nat
        /\ In Sample.pendingRequest (requests db')).
Proof.
  split.
  - eexists _, _. split; [reflexivity|].
    destruct (operations_touch_one_request
                (Lifecycle.Reject Sample.admin (Some "not needed")) Sample.env
                Sample.db _ (Request.loaded Sample.pendingRequest) _
                eq_refl eq_refl)
      as (Hlen & Hkeep & _ & _ & _ & _ & _ & _ & _ & _ & _ & _ & Hstored).
    split; [exact Hlen|]. split.
    + apply Hkeep; [left; reflexivity|]. simpl. discriminate.
    + apply Hstored. apply sample_pending_stored.
  - eexists _, _. split; [reflexivity|].
    destruct (operations_touch_one_request
                (Lifecycle.Approve Sample.admin None) Sample.env
                Sample.db _ (Request.loaded Sample.staleRequest) _
                eq_refl eq_refl)
      as (Hlen & Hkeep & _).
    split; [exact Hlen|].
    apply Hkeep; [right; right; left; reflexivity|]. simpl. discriminate.
Defined.

(** *** Invariants of the collection of requests *)

(** A property of the collection that every successful [save] keeps is
    kept by the operations of the life cycle and by the officer routes. *)
Lemma kept_by_routes (P : list t -> Prop) :
  (forall env db d db' d',
      P (requests db) -> Request.save env db d = inr (db', d') -> P (requests db')) ->
  forall env db,
    P (requests db) ->
    (forall op d db' d',
        Lifecycle.perform op env db d = inr (db', d') -> P (requests db'))
    /\ (forall user body,
          P (requests (snd (OfficerRoutes.createRequest env db user body))))
    /\ (forall user id,
          P (requests (snd (OfficerRoutes.cancelRequest env db user id))))
    /\ (forall user body,
          P (requests (snd (OfficerRoutes.requestFromPool env db user body)))).
Proof.
  intros Hsave env db HP. split; [|split; [|split]].
  - intros op d db' d' H.
    destruct (perform_is_save op env db d) as (d0 & Hp & _). rewrite Hp in H.
    eapply Hsave; eassumption.
  - intros user body. unfold OfficerRoutes.createRequest.
    destruct (negb _); [exact HP|].
    destruct (equipment db !! _); [|exact HP].
    match goal with |- context [match ?x with Some msg => _ | None => _ end] =>
      destruct x end; [exact HP|].
    destruct (Request.save env db _) as [err|[db' d']] eqn:Hs; [exact HP|].
    simpl. eapply Hsave; eassumption.
  - intros user id. unfold OfficerRoutes.cancelRequest.
    destruct (List.find _ _); [|exact HP].
    destruct (negb _); [exact HP|].
    destruct (Request.save env db _) as [err|[db' d']] eqn:Hs; [exact HP|].
    simpl. eapply Hsave; eassumption.
  - intros user body. unfold OfficerRoutes.requestFromPool.
    destruct (negb _); [exact HP|].
    destruct (equipmentpools db !! _); [|exact HP].
    destruct (_ =? 0)%Z; [exact HP|].
    destruct (negb _); [exact HP|].
    destruct (Request.save env db _) as [err|[db' d']] eqn:Hs; [exact HP|].
    simpl. eapply Hsave; eassumption.
Qed.

Lemma duplicateKey_false (rs : list t) (r x : t) :
  Request.duplicateKey rs r = false -> In x rs ->
  orElse (requestId x) "" = orElse (requestId r) "" -> _id x = _id r.
Proof.
  unfold Request.duplicateKey. intros Hd Hin Heq.
  destruct (N.eqb_spec (_id x) (_id r)) as [H|H]; [exact H|].
  assert (List.existsb
            (fun x => negb (_id x =? _id r)%N
                      && String.eqb (orElse (requestId x) "") (orElse (requestId r) ""))
            rs = true).
  { apply existsb_exists. exists x. split; [exact Hin|].
    apply N.eqb_neq in H. rewrite H, Heq, String.eqb_refl. reflexivity. }
  congruence.
Qed.

(** The collection after a successful save: the saved document is
    appended, or the stored documents of its [_id] are changed by a
    function that keeps their [_id] and either keeps their identifier
    or gives them that of the saved document, which the index has then
    accepted. *)
Lemma save_collection env (db : DB) (d : Request.Doc) db' d' :
  Request.save env db d = inr (db', d') ->
  (requests db' = (requests db ++ [Request.this d'])%list
   /\ Request.duplicateKey (requests db) (Request.this d') = false)
  \/ exists f : t -> t,
       requests db' = Request.amend (_id (Request.this d')) f (requests db)
       /\ forall x,
            _id (f x) = _id x
            /\ (requestId (f x) = requestId x
                \/ (requestId (f x) = requestId (Request.this d')
                    /\ Request.duplicateKey (requests db) (Request.this d') = false)).
Proof.
  intros H.
  pose proof (saved_identity env db d db' d' H) as (_ & Hid & _).
  apply save_inr in H as (_ & _ & _ & _ & _ & _ & Hnew & Hold).
  destruct (Request.isNew d).
  - left. apply Hnew. reflexivity.
  - right. destruct (Hold eq_refl) as (_ & Hrs & Hdup).
    eexists. split; [rewrite Hid; exact Hrs|].
    intros x.
    destruct (written_fields
                (Request.modified (Request.preValidate env db d))
                (Request.pushed env (Request.preValidate env db d))
                (Request.this d') x)
      as ((W1 & _) & _ & _ & Wi).
    split; [exact W1|]. rewrite Wi.
    unfold Request.isModified in Hdup.
    destruct (List.existsb (Request.Path_eqb Request.requestIdPath) _);
      [right; auto|left; reflexivity].
Qed.

Lemma save_indexed env (db : DB) (d : Request.Doc) db' d' :
  OfficerRoutes.indexed (requests db) ->
  Request.save env db d = inr (db', d') ->
  OfficerRoutes.indexed (requests db').
Proof.
  intros Hidx H.
  destruct (save_collection env db d db' d' H) as [[-> Hd]|(f & -> & Hf)].
  - intros x y Hx Hy Heq.
    apply in_app_or in Hx as [Hx|[<-|[]]]; apply in_app_or in Hy as [Hy|[<-|[]]].
    + apply Hidx; assumption.
    + apply (duplicateKey_false _ _ x Hd Hx Heq).
    + symmetry. apply (duplicateKey_false _ _ y Hd Hy). congruence.
    + reflexivity.
  - set (r := Request.this d') in *.
    assert (Hrep : forall y, In y (Request.amend (_id r) f (requests db)) ->
              exists a, In a (requests db) /\ _id y = _id a
                        /\ (requestId y = requestId a
                            \/ (requestId y = requestId r /\ _id a = _id r
                                /\ Request.duplicateKey (requests db) r = false))).
    { intros y Hy. apply In_amend_inv in Hy as [Hy|(a & Ha & Hid & ->)].
      - exists y. auto.
      - exists a. split; [exact Ha|]. destruct (Hf a) as (Hfid & [Hk|[Hk Hd]]); auto. }
    intros x y Hx Hy Heq.
    destruct (Hrep x Hx) as (a & Ha & -> & [Ea|(Ea & Eida & Hd)]);
      destruct (Hrep y Hy) as (b & Hb & -> & [Eb|(Eb & Eidb & Hd')]).
    + apply Hidx; [assumption..|congruence].
    + rewrite Eidb. apply (duplicateKey_false _ _ a Hd' Ha). congruence.
    + rewrite Eida. symmetry. apply (duplicateKey_false _ _ b Hd Hb). congruence.
    + congruence.
Qed.

Lemma sample_db_indexed : OfficerRoutes.indexed (requests Sample.db).
Proof.
  intros x y Hx Hy. simpl in Hx, Hy.
  destruct Hx as [<-|[<-|[<-|[]]]]; destruct Hy as [<-|[<-|[<-|[]]]];
    simpl; intros H; try reflexivity; discriminate H.
Qed.

(** X15: the unique index on [requestId] holds after whatever the code
    does: on a collection where two documents with the same identifier
    are the same document, every successful [save], every operation of
    the life cycle and every officer route leave a collection of which
    this is still true. *)
Theorem request_identifiers_stay_unique :
  forall (env : Env) (db : DB),
    OfficerRoutes.indexed (requests db) ->
    (forall d db' d',
        Request.save env db d = inr (db', d') -> OfficerRoutes.indexed (requests db'))
    /\ (forall op d db' d',
          Lifecycle.perform op env db d = inr (db', d') ->
          OfficerRoutes.indexed (requests db'))
    /\ (forall user body,
          OfficerRoutes.indexed
            (requests (snd (OfficerRoutes.createRequest env db user body))))
    /\ (forall user id,
          OfficerRoutes.indexed
            (requests (snd (OfficerRoutes.cancelRequest env db user id))))
    /\ (forall user body,
          OfficerRoutes.indexed
            (requests (snd (OfficerRoutes.requestFromPool env db user body)))).
Proof.
  intros env db Hidx. split.
  - intros d db' d' H. eapply save_indexed; eassumption.
  - apply (kept_by_routes OfficerRoutes.indexed); [|exact Hidx].
    intros env0 db0 d db' d' H0 H. eapply save_indexed; eassumption.
Qed.

Lemma request_identifiers_stay_unique_witness :
  OfficerRoutes.indexed
    (requests (snd (OfficerRoutes.cancelRequest Sample.env Sample.db
                      Sample.officerUser 52%N))).
Proof.
  apply (request_identifiers_stay_unique Sample.env Sample.db sample_db_indexed).
Defined.

Lemma save_identified_kept env (db : DB) (d : Request.Doc) db' d' :
  OfficerRoutes.identified (requests db) ->
  Request.save env db d = inr (db', d') ->
  OfficerRoutes.identified (requests db').
Proof.
  intros Hall H.
  pose proof (saved_identity env db d db' d' H) as (Ht & _).
  destruct (save_collection env db d db' d' H) as [[-> _]|(f & -> & Hf)].
  - intros y Hy. apply in_app_or in Hy as [Hy|[<-|[]]]; [apply Hall, Hy|exact Ht].
  - intros y Hy. apply In_amend_inv in Hy as [Hy|(a & Ha & _ & ->)];
      [apply Hall, Hy|].
    destruct (Hf a) as (_ & [-> | [-> _]]); [apply Hall, Ha|exact Ht].
Qed.

Lemma sample_db_identified : OfficerRoutes.identified (requests Sample.db).
Proof.
  intros x Hx. simpl in Hx. destruct Hx as [<-|[<-|[<-|[]]]]; reflexivity.
Qed.

(** X16: no request is stored without an identifier: the document that a
    successful [save] returns carries a non-empty [requestId], and on a
    collection where every request has one, every operation of the life
    cycle and every officer route leave a collection where every request
    has one. *)
Theorem every_stored_request_is_identified :
  forall (env : Env) (db : DB),
    (forall d db' d',
        Request.save env db d = inr (db', d') ->
        JS.truthy (requestId (Request.this d')) = true)
    /\ (OfficerRoutes.identified (requests db) ->
        (forall op d db' d',
            Lifecycle.perform op env db d = inr (db', d') ->
            OfficerRoutes.identified (requests db'))
        /\ (forall user body,
              OfficerRoutes.identified
                (requests (snd (OfficerRoutes.createRequest env db user body))))
        /\ (forall user id,
              OfficerRoutes.identified
                (requests (snd (OfficerRoutes.cancelRequest env db user id))))
        /\ (forall user body,
              OfficerRoutes.identified
                (requests (snd (OfficerRoutes.requestFromPool env db user body))))).
Proof.
  intros env db. split.
  - intros d db' d' H. apply (saved_identity env db d db' d' H).
  - intros Hall. apply (kept_by_routes OfficerRoutes.identified); [|exact Hall].
    intros env0 db0 d db' d' H0 H. eapply save_identified_kept; eassumption.
Qed.

Lemma every_stored_request_is_identified_witness :
  OfficerRoutes.identified
    (requests (snd (OfficerRoutes.cancelRequest Sample.env Sample.db
                      Sample.officerUser 52%N))).
Proof.
  apply (proj2 (every_stored_request_is_identified Sample.env Sample.db)
           sample_db_identified).
Defined.

(** *** Identifiers of requests created one after another *)

Lemma prefix_append (p rest : string) : String.prefix p (p ++ rest) = true.
Proof.
  induction p as [|c p IH]; [destruct rest; reflexivity|].
  change (String c p ++ rest) with (String c (p ++ rest)). simpl.
  destruct (ascii_dec c c) as [_|Hc]; [exact IH|contradiction].
Qed.

Lemma ofDay_primary (env : Env) (r : t) (n : Z) :
  requestId r = Some (Request.primaryId env n) -> Request.ofDay env r = true.
Proof.
  intros H. unfold Request.ofDay. rewrite H. unfold Request.primaryId.
  rewrite <- append_assoc. apply prefix_append.
Qed.

Lemma sequenceOf_le_highest (env : Env) (rs : list t) (r : t) :
  In r rs -> Request.ofDay env r = true ->
  Request.sequenceOf r <= Request.highestSequence env rs.
Proof.
  induction rs as [|x rs IH]; [intros []|].
  intros [->|Hin] Hday; rewrite highestSequence_cons.
  - rewrite Hday. lia.
  - specialize (IH Hin Hday). destruct (Request.ofDay env x); lia.
Qed.

Lemma highestSequence_snoc (env : Env) (rs : list t) (r : t) :
  Request.ofDay env r = true ->
  Request.highestSequence env (rs ++ [r])
  = Z.max (Request.highestSequence env rs) (Z.max (Request.sequenceOf r) 0).
Proof.
  intros Hday. induction rs as [|x rs IH].
  - simpl. unfold Request.highestSequence. simpl. rewrite Hday. simpl. lia.
  - change ((x :: rs) ++ [r])%list with (x :: (rs ++ [r]))%list.
    rewrite !highestSequence_cons, IH. destruct (Request.ofDay env x); lia.
Qed.

(** On a well-formed day the next identifier of the primary scheme is
    carried by no request of the collection. *)
Lemma primary_identifier_free (env : Env) (rs : list t) (x : t) :
  Request.calendar env ->
  Request.dayWellFormed env rs ->
  Request.highestSequence env rs < 9999 ->
  In x rs ->
  orElse (requestId x) ""
  <> Request.primaryId env (Request.highestSequence env rs + 1).
Proof.
  intros Hcal Hwf Hmax Hin Heq.
  pose proof (highestSequence_nonneg env rs) as Hpos.
  destruct (requestId x) as [id|] eqn:Hid; simpl in Heq.
  - subst id.
    pose proof (ofDay_primary env x _ Hid) as Hday.
    pose proof (sequenceOf_le_highest env rs x Hin Hday) as Hle.
    destruct (sequenceOf_primary env x (Request.highestSequence env rs + 1) Hcal)
      as [Hseq _]; [lia|exact Hid|].
    lia.
  - unfold Request.primaryId in Heq. discriminate Heq.
Qed.

Lemma duplicateKey_free (rs : list t) (r : t) :
  (forall x, In x rs -> orElse (requestId x) "" <> orElse (requestId r) "") ->
  Request.duplicateKey rs r = false.
Proof.
  intros Hfree. unfold Request.duplicateKey.
  destruct (List.existsb _ rs) eqn:H; [|reflexivity].
  apply existsb_exists in H as (x & Hin & Hx).
  apply andb_prop in Hx as [_ Hx]. apply String.eqb_eq in Hx.
  exfalso. apply (Hfree x Hin Hx).
Qed.

(** The save of a new valid request without identifier on a well-formed
    day: it succeeds and appends the request with the next identifier. *)
Lemma save_new_primary (env : Env) (db : DB) (d : Request.Doc) :
  Request.calendar env ->
  findOneFails env = false ->
  Request.dayWellFormed env (requests db) ->
  Request.highestSequence env (requests db) < 9999 ->
  JS.truthy (requestId (Request.this d)) = false ->
  Request.isNew d = true ->
  Request.validate (Request.this d) = None ->
  let r := Request.setRequestId
             (Request.primaryId env (Request.highestSequence env (requests db) + 1))
             (Request.this d) in
  Request.save env db d
  = inr (withRequests db (requests db ++ [r])%list,
         {| Request.this := r; Request.isNew := false; Request.modified := [] |}).
Proof.
  intros Hcal Hq Hwf Hmax Hid Hnew Hv r.
  assert (Hthis : Request.this (Request.preValidate env db d) = r).
  { rewrite preValidate_generates by assumption.
    rewrite nextSequence_highest by assumption. reflexivity. }
  unfold Request.save.
  rewrite commit_new; [|exact Hnew|rewrite Hthis; exact Hv].
  rewrite duplicateKey_free.
  2:{ intros x Hx. rewrite Hthis. simpl.
      apply primary_identifier_free; assumption. }
  rewrite Hthis. reflexivity.
Qed.

(** X17: on a day whose identifiers come from the primary scheme, with a
    highest sequence number below 9999, the save of a new valid request
    without identifier, when the query of the hook succeeds, cannot
    collide: it succeeds, the request is appended with the next sequence
    number, the day is still well formed and its highest sequence number
    is one more. Requests created one after another therefore carry
    consecutive numbers. *)
Theorem sequential_creation_numbers_consecutively :
  forall (env : Env) (db : DB) (d : Request.Doc),
    Request.calendar env ->
    findOneFails env = false ->
    Request.dayWellFormed env (requests db) ->
    Request.highestSequence env (requests db) < 9999 ->
    JS.truthy (requestId (Request.this d)) = false ->
    Request.isNew d = true ->
    Request.validate (Request.this d) = None ->
    exists db' d',
      Request.save env db d = inr (db', d')
      /\ requestId (Request.this d')
         = Some (Request.primaryId env (Request.highestSequence env (requests db) + 1))
      /\ requests db' = (requests db ++ [Request.this d'])%list
      /\ Request.dayWellFormed env (requests db')
      /\ Request.highestSequence env (requests db')
         = Request.highestSequence env (requests db) + 1.
Proof.
  intros env db d Hcal Hq Hwf Hmax Hid Hnew Hv.
  pose proof (highestSequence_nonneg env (requests db)) as Hpos.
  rewrite (save_new_primary env db d) by assumption.
  set (h := Request.highestSequence env (requests db)) in *.
  set (r := Request.setRequestId (Request.primaryId env (h + 1)) (Request.this d)).
  assert (Hday : Request.ofDay env r = true)
    by (eapply ofDay_primary; reflexivity).
  eexists _, _. split; [reflexivity|]. cbn [Request.this requests withRequests].
  split; [reflexivity|]. split; [reflexivity|]. split.
  - intros x Hx Hx_day. apply in_app_or in Hx as [Hx|[<-|[]]].
    + apply Hwf; assumption.
    + exists (h + 1). split; [lia|reflexivity].
  - rewrite highestSequence_snoc by exact Hday.
    destruct (sequenceOf_primary env r (h + 1) Hcal) as [Hseq _];
      [lia|reflexivity|].
    rewrite Hseq. fold h. lia.
Qed.

Lemma sample_day_well_formed : Request.dayWellFormed Sample.env (requests Sample.db).
Proof.
  intros r Hr Hday. simpl in Hr.
  destruct Hr as [<-|[<-|[<-|[]]]]; try discriminate Hday.
  exists 1. split; [lia|reflexivity].
Qed.

Lemma sample_calendar : Request.calendar Sample.env.
Proof. unfold Request.calendar. simpl. lia. Qed.

Lemma sequential_creation_numbers_consecutively_witness :
  exists db' d',
    Request.save Sample.env Sample.db (Request.new Sample.env (Sample.issueRequest 1%N))
    = inr (db', d')
    /\ requestId (Request.this d') = Some "REQ-20251103-0002"
    /\ Request.highestSequence Sample.env (requests db') = 2.
Proof.
  destruct (sequential_creation_numbers_consecutively Sample.env Sample.db
              (Request.new Sample.env (Sample.issueRequest 1%N))
              sample_calendar eq_refl sample_day_well_formed)
    as (db' & d' & Hs & Hid & _ & _ & Hh); try reflexivity.
  exists db', d'. split; [exact Hs|]. split; [rewrite Hid|rewrite Hh]; reflexivity.
Defined.

(** *** Creating a request *)

Lemma reasonFits_check (body : OfficerRoutes.RequestBody) :
  OfficerRoutes.reasonFits body ->
  negb (JS.isLength 1 (Some 500%nat) (OfficerRoutes.reason body)) = false.
Proof. unfold OfficerRoutes.reasonFits. intros ->. reflexivity. Qed.

Lemma existsb_false_iff {A : Type} (f : A -> bool) (l : list A) :
  List.existsb f l = false <-> forall x, In x l -> f x = false.
Proof.
  split.
  - intros H x Hx. destruct (f x) eqn:Hf; [|reflexivity].
    assert (List.existsb f l = true) by (apply existsb_exists; eauto). congruence.
  - intros H. destruct (List.existsb f l) eqn:He; [|reflexivity].
    apply existsb_exists in He as (x & Hx & Hf). rewrite (H x Hx) in Hf. discriminate.
Qed.

(** X18: the create route refuses, without any change to the database: a
    reason that the validation chain does not accept, that is one that
    is empty or has more than 500 characters (400); an unknown item
    (404); an Issue request for an item that is not Available (400); an
    Issue request when the same officer already has a Pending Issue
    request for the item (400); a Return request for an item that is
    not Issued or not issued to the officer (400). *)
Theorem createRequest_guards :
  forall (env : Env) (db : DB) (user : OfficerRoutes.User)
         (body : OfficerRoutes.RequestBody),
    (~ OfficerRoutes.reasonFits body ->
     OfficerRoutes.createRequest env db user body
     = (failure 400 "Validation errors", db))
    /\ (OfficerRoutes.reasonFits body <->
        (1 <= JS.characters (OfficerRoutes.reason body) <= 500)%nat)
    /\ (OfficerRoutes.reasonFits body ->
        equipment db !! OfficerRoutes.equipmentId body = None ->
        OfficerRoutes.createRequest env db user body
        = (failure 404 "Equipment not found", db))
    /\ (forall e,
          OfficerRoutes.reasonFits body ->
          equipment db !! OfficerRoutes.equipmentId body = Some e ->
          (OfficerRoutes.requestType body = Issue ->
           equipmentSchema.status e <> equipmentSchema.Available ->
           OfficerRoutes.createRequest env db user body
           = (failure 400 "Equipment is not available for issue", db))
          /\ (forall r,
                OfficerRoutes.requestType body = Issue ->
                equipmentSchema.status e = equipmentSchema.Available ->
                In r (requests db) ->
                OfficerRoutes.pendingIssue (OfficerRoutes._id user)
                  (OfficerRoutes.equipmentId body) r = true ->
                OfficerRoutes.createRequest env db user body
                = (failure 400
                     "You already have a pending request for this equipment", db))
          /\ (OfficerRoutes.requestType body = Return ->
              (equipmentSchema.status e <> equipmentSchema.Issued
               \/ option_map equipmentSchema.userId (equipmentSchema.issuedTo e)
                  <> Some (OfficerRoutes._id user)) ->
              OfficerRoutes.createRequest env db user body
              = (failure 400 "Equipment is not issued to you", db))).
Proof.
  intros env db user body. split; [|split; [|split]].
  - intros Hbad. unfold OfficerRoutes.createRequest.
    destruct (JS.isLength _ _ _) eqn:Hr; [|reflexivity].
    exfalso. apply Hbad. exact Hr.
  - unfold OfficerRoutes.reasonFits, JS.isLength.
    rewrite andb_true_iff, !Nat.leb_le. reflexivity.
  - intros Hr He. unfold OfficerRoutes.createRequest.
    rewrite (reasonFits_check body Hr), He. reflexivity.
  - intros e Hr He. split; [|split].
    + intros Hty Hs. unfold OfficerRoutes.createRequest.
      rewrite (reasonFits_check body Hr), He, Hty.
      apply Status_eqb_neq in Hs. rewrite Hs. reflexivity.
    + intros r Hty Hs Hin Hp. unfold OfficerRoutes.createRequest.
      rewrite (reasonFits_check body Hr), He, Hty, Hs.
      assert (Hex : List.existsb
                      (OfficerRoutes.pendingIssue (OfficerRoutes._id user)
                         (OfficerRoutes.equipmentId body)) (requests db) = true)
        by (apply existsb_exists; eauto).
      rewrite Hex. reflexivity.
    + intros Hty Hnot. unfold OfficerRoutes.createRequest.
      rewrite (reasonFits_check body Hr), He, Hty.
      assert (Hcond :
                negb (equipmentSchema.Status_eqb (equipmentSchema.status e)
                        equipmentSchema.Issued)
                || negb (match equipmentSchema.issuedTo e with
                         | Some c => (equipmentSchema.userId c =? OfficerRoutes._id user)%N
                         | None => false
                         end) = true).
      { destruct Hnot as [Hs|Hu].
        - apply Status_eqb_neq in Hs. rewrite Hs. reflexivity.
        - apply orb_true_iff. right.
          destruct (equipmentSchema.issuedTo e) as [c|]; [|reflexivity].
          simpl in Hu. destruct (N.eqb_spec (equipmentSchema.userId c)
                                   (OfficerRoutes._id user)) as [Heq|]; [|reflexivity].
          exfalso. apply Hu. congruence. }
      rewrite Hcond. reflexivity.
Qed.

Lemma createRequest_guards_witness :
  OfficerRoutes.createRequest Sample.env Sample.db Sample.officerUser
    (OfficerRoutes.mkRequestBody 10%N Issue "" None (Some 1762670400000))
  = (failure 400 "Validation errors", Sample.db)
  /\ OfficerRoutes.createRequest Sample.env Sample.exhausted Sample.officerUser
       (OfficerRoutes.mkRequestBody 10%N Issue "Night patrol" None
          (Some 1762670400000))
     = (failure 400 "Equipment is not available for issue", Sample.exhausted)
  /\ OfficerRoutes.createRequest Sample.env Sample.exhausted Sample.officerUser
       (OfficerRoutes.mkRequestBody 10%N Return "End of patrol" None None)
     = (failure 400 "Equipment is not issued to you", Sample.exhausted).
Proof.
  split; [|split].
  - apply (proj1 (createRequest_guards Sample.env Sample.db Sample.officerUser _)).
    unfold OfficerRoutes.reasonFits. vm_compute. discriminate.
  - refine (proj1 (proj2 (proj2 (proj2 (createRequest_guards Sample.env
                                          Sample.exhausted Sample.officerUser _)))
                    Sample.issuedRadio _ _) _ _).
    + vm_compute. reflexivity.
    + reflexivity.
    + reflexivity.
    + simpl. discriminate.
  - refine (proj2 (proj2 (proj2 (proj2 (proj2 (createRequest_guards Sample.env
                                          Sample.exhausted Sample.officerUser _)))
                           Sample.issuedRadio _ _)) _ _).
    + vm_compute. reflexivity.
    + reflexivity.
    + reflexivity.
    + right. simpl. discriminate.
Defined.

Lemma createRequest_admitted env db user body e :
  OfficerRoutes.reasonFits body ->
  equipment db !! OfficerRoutes.equipmentId body = Some e ->
  OfficerRoutes.admissible db user body e ->
  OfficerRoutes.createRequest env db user body
  = match Request.save env db
            (Request.new env (OfficerRoutes.requestInit user body)) with
    | inr (db', _) => (ok 201 "Request submitted successfully", db')
    | inl _ => (failure 500 "Server error creating request", db)
    end.
Proof.
  intros Hr He Hok.
  unfold OfficerRoutes.createRequest, OfficerRoutes.requestInit.
  rewrite (reasonFits_check body Hr), He. cbv zeta.
  unfold OfficerRoutes.admissible in Hok.
  destruct (OfficerRoutes.requestType body).
  - destruct Hok as [Hs Hp]. rewrite Hs.
    apply existsb_false_iff in Hp. rewrite Hp. reflexivity.
  - destruct Hok as [Hs Hu]. rewrite Hs.
    destruct (equipmentSchema.issuedTo e) as [c|]; [|discriminate Hu].
    simpl in Hu. injection Hu as Hu. rewrite Hu, N.eqb_refl. reflexivity.
  - reflexivity.
Qed.

(** Validation of the request the create route builds: the return date
    of an Issue request can be missing, and then the reason can have
    more than 500 code units. *)
Lemma validate_created env user body :
  OfficerRoutes.reasonFits body ->
  Request.validate (Request.this (Request.new env (OfficerRoutes.requestInit user body)))
  = if RequestType_eqb (OfficerRoutes.requestType body) Issue
       && negb (match OfficerRoutes.expectedReturnDate body with
                | Some _ => true
                | None => false
                end)
    then Some "expectedReturnDate"
    else if (500 <? JS.length (OfficerRoutes.reason body))%nat
    then Some "reason"
    else None.
Proof.
  intros Hfit.
  unfold Request.validate, Request.new, OfficerRoutes.requestInit.
  cbn [Request.this equipmentId requestType expectedReturnDate reason adminNotes
       Request.init_equipmentId Request.init_requestType
       Request.init_expectedReturnDate Request.init_reason negb orElse].
  destruct (_ && _); [reflexivity|].
  rewrite (isLength_nonempty _ _ _ Hfit). cbn [orb].
  destruct (500 <? _)%nat; reflexivity.
Qed.

(** X19: when the body and the item pass the checks of the create route,
    the reason has at most 500 code units, the return date of an Issue
    request is given, and the day is well formed with a highest sequence
    number below 9999, the route answers 201 and appends exactly one
    request: Pending, of the requester, for the item, type, reason and
    priority of the body (Medium when the body has none), with the next
    identifier of the day, an empty history and no administrator; the
    equipment collection is unchanged. *)
Theorem createRequest_appends_pending_request :
  forall (env : Env) (db : DB) (user : OfficerRoutes.User)
         (body : OfficerRoutes.RequestBody) (e : equipmentSchema.t),
    Request.calendar env ->
    findOneFails env = false ->
    Request.dayWellFormed env (requests db) ->
    Request.highestSequence env (requests db) < 9999 ->
    OfficerRoutes.reasonFits body ->
    (JS.length (OfficerRoutes.reason body) <= 500)%nat ->
    equipment db !! OfficerRoutes.equipmentId body = Some e ->
    OfficerRoutes.admissible db user body e ->
    (OfficerRoutes.requestType body = Issue ->
     OfficerRoutes.expectedReturnDate body <> None) ->
    exists r : t,
      OfficerRoutes.createRequest env db user body
      = (ok 201 "Request submitted successfully",
         withRequests db (requests db ++ [r])%list)
      /\ equipment (withRequests db (requests db ++ [r])%list) = equipment db
      /\ _id r = freshId env
      /\ requestId r
         = Some (Request.primaryId env (Request.highestSequence env (requests db) + 1))
      /\ status r = Pending
      /\ requestedBy r = OfficerRoutes._id user
      /\ equipmentId r = Some (OfficerRoutes.equipmentId body)
      /\ requestType r = OfficerRoutes.requestType body
      /\ reason r = OfficerRoutes.reason body
      /\ priority r = orElse (OfficerRoutes.priority body) Medium
      /\ expectedReturnDate r = OfficerRoutes.expectedReturnDate body
      /\ requestedDate r = now env
      /\ statusHistory r = []
      /\ processedBy r = None
      /\ adminNotes r = None.
Proof.
  intros env db user body e Hcal Hq Hwf Hmax Hr Hlen He Hok Hdate.
  rewrite (createRequest_admitted env db user body e Hr He Hok).
  assert (Hv : Request.validate
                 (Request.this (Request.new env (OfficerRoutes.requestInit user body)))
               = None).
  { rewrite (validate_created env user body Hr).
    replace (500 <? JS.length (OfficerRoutes.reason body))%nat with false
      by (symmetry; apply Nat.ltb_ge; exact Hlen).
    destruct (OfficerRoutes.requestType body); try reflexivity.
    destruct (OfficerRoutes.expectedReturnDate body); [reflexivity|].
    exfalso. apply Hdate; reflexivity. }
  rewrite (save_new_primary env db
             (Request.new env (OfficerRoutes.requestInit user body))
             Hcal Hq Hwf Hmax eq_refl eq_refl Hv).
  eexists. split; [reflexivity|].
  repeat match goal with |- _ /\ _ => split end; reflexivity.
Qed.

Lemma createRequest_appends_pending_request_witness :
  exists r : t,
    OfficerRoutes.createRequest Sample.env Sample.db Sample.inspector
      (OfficerRoutes.mkRequestBody 10%N Issue "Parade" None (Some 1762670400000))
    = (ok 201 "Request submitted successfully",
       withRequests Sample.db (requests Sample.db ++ [r])%list)
    /\ requestId r = Some "REQ-20251103-0002"
    /\ status r = Pending
    /\ priority r = Medium.
Proof.
  destruct (createRequest_appends_pending_request Sample.env Sample.db
              Sample.inspector
              (OfficerRoutes.mkRequestBody 10%N Issue "Parade" None
                 (Some 1762670400000))
              Sample.radio sample_calendar eq_refl sample_day_well_formed)
    as (r & Hc & _ & _ & Hid & Hs & _ & _ & _ & _ & Hp & _).
  - vm_compute. reflexivity.
  - vm_compute. reflexivity.
  - vm_compute. lia.
  - reflexivity.
  - split; [reflexivity|].
    intros x Hx. simpl in Hx. destruct Hx as [<-|[<-|[<-|[]]]]; reflexivity.
  - discriminate.
  - exists r. split; [exact Hc|]. split; [rewrite Hid; reflexivity|].
    split; [exact Hs|exact Hp].
Defined.

(** X20: the create route lets an Issue request without return date pass
    its own validation (the date is optional there), but the schema
    requires the date of an Issue request: the save fails, the route
    answers 500 and the database is unchanged. *)
Theorem issue_request_without_return_date_fails :
  forall (env : Env) (db : DB) (user : OfficerRoutes.User)
         (body : OfficerRoutes.RequestBody) (e : equipmentSchema.t),
    OfficerRoutes.reasonFits body ->
    equipment db !! OfficerRoutes.equipmentId body = Some e ->
    OfficerRoutes.admissible db user body e ->
    OfficerRoutes.requestType body = Issue ->
    OfficerRoutes.expectedReturnDate body = None ->
    Request.save env db (Request.new env (OfficerRoutes.requestInit user body))
    = inl (ValidationError "expectedReturnDate")
    /\ OfficerRoutes.createRequest env db user body
       = (failure 500 "Server error creating request", db).
Proof.
  intros env db user body e Hr He Hok Hty Hdate.
  assert (Hs : Request.save env db
                 (Request.new env (OfficerRoutes.requestInit user body))
               = inl (ValidationError "expectedReturnDate")).
  { unfold Request.save, Request.commit.
    rewrite validate_preValidate, (validate_created env user body Hr), Hty, Hdate.
    reflexivity. }
  split; [exact Hs|].
  rewrite (createRequest_admitted env db user body e Hr He Hok), Hs. reflexivity.
Qed.

Lemma issue_request_without_return_date_fails_witness :
  OfficerRoutes.createRequest Sample.env Sample.db Sample.inspector
    (OfficerRoutes.mkRequestBody 10%N Issue "Parade" None None)
  = (failure 500 "Server error creating request", Sample.db).
Proof.
  refine (proj2 (issue_request_without_return_date_fails Sample.env Sample.db
                   Sample.inspector
                   (OfficerRoutes.mkRequestBody 10%N Issue "Parade" None None)
                   Sample.radio _ _ _ _ _)).
  - vm_compute. reflexivity.
  - reflexivity.
  - split; [reflexivity|].
    intros x Hx. simpl in Hx. destruct Hx as [<-|[<-|[<-|[]]]]; reflexivity.
  - reflexivity.
  - reflexivity.
Defined.

(** *** At most one pending Issue request for a requester and an item *)

Lemma pendingIssue_settled (u q : ObjectId) (r : t) :
  status r <> Pending -> OfficerRoutes.pendingIssue u q r = false.
Proof.
  intros H. apply Request_Status_eqb_neq in H.
  unfold OfficerRoutes.pendingIssue. rewrite H. apply andb_false_r.
Qed.

Lemma pendingIssue_true (u q : ObjectId) (r : t) :
  OfficerRoutes.pendingIssue u q r = true ->
  requestedBy r = u /\ equipmentId r = Some q /\ requestType r = Issue
  /\ status r = Pending.
Proof.
  unfold OfficerRoutes.pendingIssue. intros H.
  apply andb_prop in H as [H Hs]. apply andb_prop in H as [H Ht].
  apply andb_prop in H as [Hu Hq].
  apply N.eqb_eq in Hu. apply Request_Status_eqb_eq in Hs.
  destruct (equipmentId r) as [x|]; [|discriminate Hq].
  apply N.eqb_eq in Hq. subst x.
  destruct (requestType r); try discriminate Ht. auto.
Qed.

(** The update of a save whose document in memory is not Pending makes
    no stored document a pending Issue request. *)
Lemma pendingIssue_written m entries (mem x : t) (u q : ObjectId) :
  status mem <> Pending ->
  OfficerRoutes.pendingIssue u q (Request.written m entries mem x) = true ->
  OfficerRoutes.pendingIssue u q x = true.
Proof.
  intros Hs. unfold OfficerRoutes.pendingIssue, Request.written, Request.pick.
  cbn [requestedBy equipmentId requestType status].
  destruct (List.existsb (Request.Path_eqb Request.statusPath) m); [|auto].
  apply Request_Status_eqb_neq in Hs. rewrite Hs, andb_false_r. discriminate.
Qed.

Lemma amend_settled (id : ObjectId) (f : t -> t) (rs : list t) (u q : ObjectId) :
  (forall x, OfficerRoutes.pendingIssue u q (f x) = true ->
             OfficerRoutes.pendingIssue u q x = true) ->
  (List.length (List.filter (OfficerRoutes.pendingIssue u q) (Request.amend id f rs))
   <= List.length (List.filter (OfficerRoutes.pendingIssue u q) rs))%nat.
Proof.
  intros Hf. unfold Request.amend.
  induction rs as [|a rs IH]; [simpl; lia|].
  cbn [List.map List.filter].
  destruct (_id a =? id)%N.
  - specialize (Hf a).
    destruct (OfficerRoutes.pendingIssue u q (f a)).
    + rewrite Hf by reflexivity. simpl. lia.
    + destruct (OfficerRoutes.pendingIssue u q a); simpl; lia.
  - destruct (OfficerRoutes.pendingIssue u q a); simpl; lia.
Qed.

(** A save of a document that is not Pending adds no pending Issue
    request. *)
Lemma save_settled env db (d : Request.Doc) db' d' (u q : ObjectId) :
  status (Request.this d) <> Pending ->
  Request.save env db d = inr (db', d') ->
  (List.length (List.filter (OfficerRoutes.pendingIssue u q) (requests db'))
   <= List.length (List.filter (OfficerRoutes.pendingIssue u q) (requests db)))%nat.
Proof.
  intros Hs H.
  pose proof (saved_identity env db d db' d' H) as (_ & _ & _ & _ & _ & Hst & _).
  assert (Hs' : status (Request.this d') <> Pending) by (rewrite Hst; exact Hs).
  apply save_inr in H as (_ & _ & _ & _ & _ & _ & Hnew & Hold).
  destruct (Request.isNew d).
  - destruct (Hnew eq_refl) as (-> & _).
    rewrite List.filter_app. cbn [List.filter].
    rewrite (pendingIssue_settled u q _ Hs'), app_nil_r. lia.
  - destruct (Hold eq_refl) as (_ & -> & _).
    apply amend_settled. intros x. apply pendingIssue_written. exact Hs'.
Qed.

Lemma filter_none {A : Type} (f : A -> bool) (l : list A) :
  List.existsb f l = false -> List.filter f l = [].
Proof.
  induction l as [|a l IH]; [reflexivity|]. simpl.
  destruct (f a); [discriminate|]. exact IH.
Qed.

(** What the create route can do to the database: nothing, or append one
    Pending request of the requester for the item of the body, an Issue
    request only when the requester had no pending one for the item. *)
Lemma createRequest_outcome env db user body :
  snd (OfficerRoutes.createRequest env db user body) = db
  \/ exists r : t,
       snd (OfficerRoutes.createRequest env db user body)
       = withRequests db (requests db ++ [r])%list
       /\ requestedBy r = OfficerRoutes._id user
       /\ equipmentId r = Some (OfficerRoutes.equipmentId body)
       /\ requestType r = OfficerRoutes.requestType body
       /\ status r = Pending
       /\ (OfficerRoutes.requestType body = Issue ->
           List.existsb
             (OfficerRoutes.pendingIssue (OfficerRoutes._id user)
                (OfficerRoutes.equipmentId body)) (requests db) = false).
Proof.
  unfold OfficerRoutes.createRequest.
  destruct (negb _); [left; reflexivity|].
  destruct (equipment db !! OfficerRoutes.equipmentId body) as [e|];
    [|left; reflexivity].
  cbv zeta.
  match goal with
  | |- context [match ?x with Some msg => (failure 400 msg, db) | None => _ end] =>
      destruct x as [msg|] eqn:Hrej
  end; [left; reflexivity|].
  match goal with
  | |- context [Request.save env db ?d] =>
      destruct (Request.save env db d) as [ex|[db' d']] eqn:Hs
  end; [left; reflexivity|].
  right. cbn [snd].
  destruct (saved_identity _ _ _ _ _ Hs) as (_ & _ & Hu & Hq & Ht & Hst & _).
  destruct (save_inr _ _ _ _ _ Hs) as (_ & _ & _ & _ & Hequip & Hpools & Hnew & _).
  destruct (Hnew eq_refl) as (Hrs & _).
  exists (Request.this d'). split.
  { destruct db as [eqs pools rs], db' as [eqs' pools' rs'].
    cbn [equipment equipmentpools requests withRequests] in Hequip, Hpools, Hrs |- *.
    subst. reflexivity. }
  split; [exact Hu|]. split; [exact Hq|]. split; [exact Ht|]. split; [exact Hst|].
  intros Hty. rewrite Hty in Hrej.
  destruct (negb _); [discriminate Hrej|].
  destruct (List.existsb _ _); [discriminate Hrej|reflexivity].
Qed.

(** X21: the create route, the cancel route and the operations of the
    life cycle keep the rule that a requester has at most one Pending
    Issue request for an item: the create route refuses a second one,
    and neither the cancel route nor an operation turns a request into a
    Pending one. *)
Theorem pending_issue_requests_stay_unique :
  forall (env : Env) (db : DB),
    OfficerRoutes.pendingIssueUnique db ->
    (forall user body,
        OfficerRoutes.pendingIssueUnique
          (snd (OfficerRoutes.createRequest env db user body)))
    /\ (forall user id,
          OfficerRoutes.pendingIssueUnique
            (snd (OfficerRoutes.cancelRequest env db user id)))
    /\ (forall op d db' d',
          Lifecycle.perform op env db d = inr (db', d') ->
          OfficerRoutes.pendingIssueUnique db').
Proof.
  intros env db Hu. split; [|split].
  - intros user body.
    destruct (createRequest_outcome env db user body)
      as [->|(r & -> & Hby & Hq & Hty & Hst & Hfree)]; [exact Hu|].
    intros u q. cbn [requests withRequests].
    rewrite List.filter_app, List.length_app. cbn [List.filter].
    destruct (OfficerRoutes.pendingIssue u q r) eqn:Hp.
    + apply pendingIssue_true in Hp as (Hby' & Hq' & Hty' & _).
      assert (Eu : u = OfficerRoutes._id user) by congruence.
      assert (Eq : q = OfficerRoutes.equipmentId body) by congruence.
      rewrite Eu, Eq, filter_none by (apply Hfree; congruence).
      simpl. lia.
    + specialize (Hu u q). simpl. lia.
  - intros user id. unfold OfficerRoutes.cancelRequest.
    destruct (List.find _ _) as [r|]; [|exact Hu].
    destruct (negb _); [exact Hu|].
    destruct (Request.save _ _ _) as [ex|[db' d']] eqn:Hs; [exact Hu|].
    cbn [snd]. intros u q.
    etransitivity; [|apply Hu].
    eapply save_settled; [|exact Hs]. simpl. discriminate.
  - intros op d db' d' Hp.
    destruct (perform_is_save op env db d) as (d0 & Heq & _ & Hst0 & _).
    rewrite Heq in Hp. intros u q.
    etransitivity; [|apply Hu].
    eapply save_settled; [|exact Hp]. rewrite Hst0. destruct op; discriminate.
Qed.

Lemma sample_db_pending_unique : OfficerRoutes.pendingIssueUnique Sample.db.
Proof.
  intros u q. cbn [requests Sample.db List.filter].
  rewrite (pendingIssue_settled u q Sample.approvedRequest) by discriminate.
  rewrite (pendingIssue_settled u q Sample.rejectedRequest) by discriminate.
  destruct (OfficerRoutes.pendingIssue u q Sample.pendingRequest); simpl; lia.
Qed.

Lemma pending_issue_requests_stay_unique_witness :
  OfficerRoutes.pendingIssueUnique
    (snd (OfficerRoutes.createRequest Sample.env Sample.db Sample.officerUser
            (OfficerRoutes.mkRequestBody 10%N Issue "Night patrol" None
               (Some 1762670400000))))
  /\ OfficerRoutes.pendingIssueUnique
       (snd (OfficerRoutes.cancelRequest Sample.env Sample.db Sample.officerUser 52%N)).
Proof.
  split.
  - apply (proj1 (pending_issue_requests_stay_unique Sample.env Sample.db
                    sample_db_pending_unique)).
  - apply (proj1 (proj2 (pending_issue_requests_stay_unique Sample.env Sample.db
                           sample_db_pending_unique))).
Defined.

(** *** Cancelling a request *)

Lemma find_owned (rs : list t) (u id : ObjectId) (r0 : t) :
  List.find (fun r => (_id r =? id)%N && (requestedBy r =? u)%N) rs = Some r0 ->
  In r0 rs /\ _id r0 = id /\ requestedBy r0 = u.
Proof.
  intros H. apply List.find_some in H as [Hin Hp].
  apply andb_prop in Hp as [H1 H2]. apply N.eqb_eq in H1, H2. auto.
Qed.

Lemma find_owned_distinct (rs : list t) (u : ObjectId) (r : t) :
  OfficerRoutes.distinct rs -> In r rs -> requestedBy r = u ->
  List.find (fun x => (_id x =? _id r)%N && (requestedBy x =? u)%N) rs = Some r.
Proof.
  intros Hd Hin Hu.
  destruct (List.find _ rs) as [r0|] eqn:Hf.
  - destruct (find_owned rs u (_id r) r0 Hf) as (Hin0 & Hid & _).
    f_equal. apply Hd; assumption.
  - apply (List.find_none _ _ Hf) in Hin. cbn beta in Hin.
    rewrite Hu, !N.eqb_refl in Hin. discriminate.
Qed.

(** The request that the query of the cancel route finds after an
    update that keeps [_id] and requester: the updated one. *)
Lemma find_amended (rs : list t) (u id : ObjectId) (f : t -> t) :
  (forall x, _id (f x) = _id x /\ requestedBy (f x) = requestedBy x) ->
  List.find (fun r => (_id r =? id)%N && (requestedBy r =? u)%N)
    (Request.amend id f rs)
  = option_map f
      (List.find (fun r => (_id r =? id)%N && (requestedBy r =? u)%N) rs).
Proof.
  intros Hf. unfold Request.amend.
  induction rs as [|a rs IH]; [reflexivity|].
  cbn [List.map List.find].
  destruct (N.eqb_spec (_id a) id) as [Ha|Ha].
  - destruct (Hf a) as (Hid & Hby). rewrite Hid, Hby.
    destruct (N.eqb_spec (_id a) id) as [_|Hne]; [|contradiction].
    cbn [andb]. destruct (requestedBy a =? u)%N; [reflexivity|exact IH].
  - destruct (N.eqb_spec (_id a) id) as [He|_]; [contradiction|].
    cbn [andb]. exact IH.
Qed.

(** The cancel route modifies the status of the request it has found. *)
Lemma cancel_modifies_status env db (r0 : t) :
  status r0 = Pending ->
  Request.isModified Request.statusPath
    (Request.preValidate env db (Request.setStatus Cancelled (Request.loaded r0)))
  = true.
Proof.
  intros Hp.
  rewrite (proj1 (proj2 (preValidate_flags env db _)) Request.statusPath)
    by discriminate.
  unfold Request.isModified, Request.setStatus.
  cbn [Request.modified Request.this Request.loaded].
  rewrite isModified_touch, Hp. reflexivity.
Qed.

(** What the cancel route can do: answer with a failure and leave the
    database, or answer 200 and update the stored documents that have
    the [_id] of a Pending request of the requester, which become
    Cancelled and keep their [_id] and requester. *)
Lemma cancelRequest_cases env db user id :
  (exists code msg,
      OfficerRoutes.cancelRequest env db user id = (failure code msg, db))
  \/ exists (r0 : t) (f : t -> t),
       List.find (fun r => (_id r =? id)%N
                           && (requestedBy r =? OfficerRoutes._id user)%N)
         (requests db) = Some r0
       /\ status r0 = Pending
       /\ OfficerRoutes.cancelRequest env db user id
          = (ok 200 "Request cancelled successfully",
             withRequests db (Request.amend id f (requests db)))
       /\ forall x, _id (f x) = _id x /\ requestedBy (f x) = requestedBy x
                    /\ status (f x) = Cancelled.
Proof.
  unfold OfficerRoutes.cancelRequest.
  destruct (List.find _ _) as [r0|] eqn:Hf; [|left; eauto].
  destruct (Status_eqb (status r0) Pending) eqn:Hp; cbn [negb]; [|left; eauto].
  destruct (Request.save _ _ _) as [ex|[db' d']] eqn:Hs; [left; eauto|].
  right. apply Request_Status_eqb_eq in Hp.
  destruct (find_owned _ _ _ _ Hf) as (_ & Hid & Hu).
  destruct (saved_identity _ _ _ _ _ Hs) as (_ & _ & _ & _ & _ & Hst & _).
  destruct (save_inr _ _ _ _ _ Hs) as (_ & _ & _ & _ & Hequip & Hpools & _ & Hold).
  destruct (Hold eq_refl) as (_ & Hrs & _).
  change (_id (Request.this (Request.setStatus Cancelled (Request.loaded r0))))
    with (_id r0) in Hrs.
  rewrite Hid in Hrs.
  exists r0. eexists. split; [reflexivity|]. split; [exact Hp|]. split.
  { f_equal. destruct db as [eqs pools rs], db' as [eqs' pools' rs'].
    cbn [equipment equipmentpools requests withRequests] in Hequip, Hpools, Hrs |- *.
    subst eqs' pools'. rewrite Hrs. reflexivity. }
  intros x.
  match goal with
  | |- context [Request.written ?m ?e ?mem x] =>
      destruct (written_fields m e mem x) as ((W1 & W2 & _) & _ & Ws & _)
  end.
  split; [exact W1|]. split; [exact W2|]. rewrite Ws.
  pose proof (cancel_modifies_status env db r0 Hp) as Hm.
  unfold Request.isModified in Hm. rewrite Hm, Hst. reflexivity.
Qed.

(** X22: the cancel route reaches only a Pending request of the
    requester. For an identifier that no request of the requester
    carries it answers 404 and leaves the database; in every case the
    equipment collection is unchanged, and when the identifiers of the
    collection are distinct, every request of another officer, every
    request that is not Pending and every request with another
    identifier is still in the collection afterwards. *)
Theorem cancel_reaches_only_own_pending_request :
  forall (env : Env) (db : DB) (user : OfficerRoutes.User) (id : ObjectId),
    let out := OfficerRoutes.cancelRequest env db user id in
    ((forall r : t,
         In r (requests db) -> _id r = id ->
         requestedBy r <> OfficerRoutes._id user) ->
     out = (failure 404 "Request not found", db))
    /\ equipment (snd out) = equipment db
    /\ (OfficerRoutes.distinct (requests db) ->
        forall r : t,
          In r (requests db) ->
          _id r <> id \/ requestedBy r <> OfficerRoutes._id user
          \/ status r <> Pending ->
          In r (requests (snd out))).
Proof.
  intros env db user id out. split; [|split].
  - intros Hforeign. subst out. unfold OfficerRoutes.cancelRequest.
    destruct (List.find _ _) as [r0|] eqn:Hf; [|reflexivity].
    destruct (find_owned _ _ _ _ Hf) as (Hin & Hid & Hu).
    exfalso. exact (Hforeign r0 Hin Hid Hu).
  - subst out.
    destruct (cancelRequest_cases env db user id)
      as [(code & msg & ->)|(r0 & f & _ & _ & -> & _)]; reflexivity.
  - intros Hd r Hin Hother. subst out.
    destruct (cancelRequest_cases env db user id)
      as [(code & msg & ->)|(r0 & f & Hf & Hp & -> & _)]; [exact Hin|].
    cbn [snd requests withRequests].
    destruct (find_owned _ _ _ _ Hf) as (Hin0 & Hid0 & Hu0).
    destruct (N.eq_dec (_id r) id) as [Hsame|Hdiff].
    + assert (r = r0) by (apply Hd; congruence). subst r0.
      destruct Hother as [H|[H|H]]; contradiction.
    + apply In_amend_old; assumption.
Qed.

Lemma sample_db_distinct : OfficerRoutes.distinct (requests Sample.db).
Proof.
  intros x y Hx Hy. simpl in Hx, Hy.
  destruct Hx as [<-|[<-|[<-|[]]]], Hy as [<-|[<-|[<-|[]]]];
    intros H; try reflexivity; discriminate H.
Qed.

Lemma cancel_reaches_only_own_pending_request_witness :
  OfficerRoutes.cancelRequest Sample.env Sample.db Sample.inspector 52%N
  = (failure 404 "Request not found", Sample.db)
  /\ In Sample.approvedRequest
       (requests (snd (OfficerRoutes.cancelRequest Sample.env Sample.db
                         Sample.officerUser 50%N))).
Proof.
  split.
  - apply (proj1 (cancel_reaches_only_own_pending_request Sample.env Sample.db
                    Sample.inspector 52%N)).
    intros r Hr _. simpl in Hr.
    destruct Hr as [<-|[<-|[<-|[]]]]; discriminate.
  - apply (proj2 (proj2 (cancel_reaches_only_own_pending_request Sample.env
                           Sample.db Sample.officerUser 50%N))
             sample_db_distinct).
    + simpl. auto.
    + right. right. discriminate.
Defined.

(** X23: the cancel route on a Pending request of the requester, as the
    collection holds it, answers 200 and replaces the request by one
    that is Cancelled and whose history has one more entry: status
    Cancelled, at the time of the call, by the administrator that
    processed the request if there is one and by the requester
    otherwise, with the administrator notes of the request; notes,
    administrator, identifiers, requester and item are kept. *)
Theorem cancel_marks_request_cancelled :
  forall (env : Env) (db : DB) (user : OfficerRoutes.User) (r : t),
    OfficerRoutes.distinct (requests db) ->
    In r (requests db) ->
    requestedBy r = OfficerRoutes._id user ->
    status r = Pending ->
    JS.truthy (requestId r) = true ->
    Request.validate r = None ->
    Request.duplicateKey (requests db) r = false ->
    exists r' : t,
      OfficerRoutes.cancelRequest env db user (_id r)
      = (ok 200 "Request cancelled successfully",
         withRequests db (Request.store false r' (requests db)))
      /\ status r' = Cancelled
      /\ statusHistory r'
         = (statusHistory r
            ++ [ {| Entry.status := Cancelled;
                    Entry.changedBy := orElse (processedBy r) (requestedBy r);
                    Entry.changedDate := now env;
                    Entry.notes := adminNotes r |} ])%list
      /\ adminNotes r' = adminNotes r
      /\ processedBy r' = processedBy r
      /\ _id r' = _id r
      /\ requestId r' = requestId r
      /\ requestedBy r' = requestedBy r
      /\ equipmentId r' = equipmentId r.
Proof.
  intros env db user r Hd Hin Hu Hp Hid Hv Hk.
  destruct (perform_stored Lifecycle.Cancel env db (Request.loaded r))
    as (r' & Hsave & Hst & Hh & Hn & Hb & Hi & Hri & Hrb & Hq).
  { repeat split; try assumption.
    intros x Hx He. apply Hd; assumption. }
  { apply validate_notes_fit. exact Hv. }
  exists r'. split.
  - unfold OfficerRoutes.cancelRequest.
    rewrite (find_owned_distinct _ _ r Hd Hin Hu), Hp. cbn [Status_eqb negb].
    change (Request.save env db (Request.setStatus Cancelled (Request.loaded r)))
      with (Lifecycle.perform Lifecycle.Cancel env db (Request.loaded r)).
    rewrite Hsave. reflexivity.
  - split; [exact Hst|]. split.
    + rewrite Hh. cbn [Request.this Request.loaded]. rewrite Hp. reflexivity.
    + repeat split; assumption.
Qed.

Lemma cancel_marks_request_cancelled_witness :
  exists r' : t,
    OfficerRoutes.cancelRequest Sample.env Sample.db Sample.officerUser 52%N
    = (ok 200 "Request cancelled successfully",
       withRequests Sample.db (Request.store false r' (requests Sample.db)))
    /\ status r' = Cancelled
    /\ List.length (statusHistory r') = 1%nat.
Proof.
  destruct (cancel_marks_request_cancelled Sample.env Sample.db Sample.officerUser
              Sample.pendingRequest sample_db_distinct)
    as (r' & Hc & Hs & Hh & _); try reflexivity.
  - simpl. auto.
  - exists r'. split; [exact Hc|]. split; [exact Hs|]. rewrite Hh. reflexivity.
Defined.

(** X24: a cancellation cannot be repeated: once the cancel route has
    answered 200 for a request, every later call of the requester for
    the same request answers 400 and leaves the database. *)
Theorem cancel_not_repeatable :
  forall (env env' : Env) (db db' : DB) (user : OfficerRoutes.User)
         (id : ObjectId),
    OfficerRoutes.cancelRequest env db user id
    = (ok 200 "Request cancelled successfully", db') ->
    OfficerRoutes.cancelRequest env' db' user id
    = (failure 400 "Only pending requests can be cancelled", db').
Proof.
  intros env env' db db' user id Hfirst.
  destruct (cancelRequest_cases env db user id)
    as [(code & msg & Hc)|(r0 & f & Hf & _ & Hc & Hkeep)];
    rewrite Hc in Hfirst.
  - discriminate Hfirst.
  - injection Hfirst as <-.
    unfold OfficerRoutes.cancelRequest. cbn [requests withRequests].
    rewrite find_amended by (intros x; destruct (Hkeep x) as (? & ? & _); auto).
    rewrite Hf. cbn [option_map].
    destruct (Hkeep r0) as (_ & _ & ->). reflexivity.
Qed.

Lemma cancel_not_repeatable_witness :
  OfficerRoutes.cancelRequest Sample.envB
    (snd (OfficerRoutes.cancelRequest Sample.env Sample.db Sample.officerUser 52%N))
    Sample.officerUser 52%N
  = (failure 400 "Only pending requests can be cancelled",
     snd (OfficerRoutes.cancelRequest Sample.env Sample.db Sample.officerUser 52%N)).
Proof.
  apply (cancel_not_repeatable Sample.env Sample.envB Sample.db).
  vm_compute. reflexivity.
Defined.

End RequestRouteFacts.
